(** * python-zuora: the record normalizer, the rate-plan matching engine,
      the pricing aggregate, and the fetchers and builders of [zuora/client.py]

    A shallow embedding of the parts of [src/zuora/client.py] that the
    specification talks about, followed by the theorems that settle each
    claim.  Python values are embedded as a small value type, dictionaries as
    association lists kept in encounter order, exceptions as a result type,
    and the remote billing service as a section variable. *)

From Stdlib Require Import String Ascii List ZArith Bool Lia Arith QArith DecimalString.
From Stdlib Require Import Sorting.Sorted Sorting.Permutation.
Import ListNotations.

Local Open Scope string_scope.

(* ================================================================== *)
(** * Byte strings *)
(* ================================================================== *)

(** The source is Python 2: [str] is a byte string, the classes [[A-Z]],
    [[a-z]] and [[0-9]] of [re] are the ASCII ranges, and [str.lower] maps
    the ASCII capitals only. *)
Module Str.

Definition code (c : ascii) : nat := nat_of_ascii c.

Definition is_upper (c : ascii) : bool :=
  (65 <=? code c)%nat && (code c <=? 90)%nat.

Definition is_lower (c : ascii) : bool :=
  (97 <=? code c)%nat && (code c <=? 122)%nat.

Definition is_digit (c : ascii) : bool :=
  (48 <=? code c)%nat && (code c <=? 57)%nat.

(** The class of [.] without [re.DOTALL]: anything but a line feed. *)
Definition is_dot (c : ascii) : bool := negb (code c =? 10)%nat.

Definition lower_char (c : ascii) : ascii :=
  if is_upper c then ascii_of_nat (code c + 32) else c.

(** [s.lower()] *)
Fixpoint lower (s : string) : string :=
  match s with
  | EmptyString => EmptyString
  | String c r => String (lower_char c) (lower r)
  end.

(** No ASCII capital occurs in [s]: [s] is lower-case in the sense of
    [s == s.lower()]. *)
Fixpoint no_upper (s : string) : bool :=
  match s with
  | EmptyString => true
  | String c r => negb (is_upper c) && no_upper r
  end.

(** [prefix p s]: [s.startswith(p)] *)
Fixpoint starts_with (p s : string) : bool :=
  match p, s with
  | EmptyString, _ => true
  | String a p', String b s' => Ascii.eqb a b && starts_with p' s'
  | String _ _, EmptyString => false
  end.

(** [s.endswith(p)] *)
Fixpoint ends_with (p s : string) : bool :=
  match s with
  | EmptyString => String.eqb p EmptyString
  | String _ r => String.eqb p s || ends_with p r
  end.

(** [p in s] *)
Fixpoint contains (p s : string) : bool :=
  starts_with p s ||
  match s with
  | EmptyString => false
  | String _ r => contains p r
  end.

End Str.

(* ================================================================== *)
(** * Key normalization: [convert_camel] and the custom-field marker *)
(* ================================================================== *)

Module Normalizer.
Import Str.

(** The custom-field marker of the remote object model. *)
Definition marker : string := "__c".

(** [key.replace("__c", "")]: every occurrence of the marker is removed,
    scanning from the left, occurrences not overlapping. *)
Fixpoint replace_marker (s : string) : string :=
  match s with
  | String c1 (String c2 (String c3 r) as t) =>
      if Ascii.eqb c1 "_" && Ascii.eqb c2 "_" && Ascii.eqb c3 "c"
      then replace_marker r
      else String c1 (replace_marker t)
  | String c r => String c (replace_marker r)
  | EmptyString => EmptyString
  end.

(** States of the left-to-right scan of [re.sub]: looking for the next
    match, about to copy the capital of a match just found, and inside the
    greedy [[a-z]+] of that match. *)
Inductive scan := Scan | Cap | Run.

(** [first_cap_re.sub(r'\1_\2', s)] with
    [first_cap_re = re.compile('(.)([A-Z][a-z]+)')].

    A match starts at a character [c] that is not a line feed, followed by a
    capital and at least one lower-case letter; it extends over all the
    lower-case letters that follow.  The match is replaced by [c], an
    underscore, and the capitalized run; the scan resumes after the run. *)
Fixpoint first_cap_scan (st : scan) (s : string) : string :=
  match s with
  | EmptyString => EmptyString
  | String c r =>
      let scan_here :=
        match r with
        | String u (String l _) =>
            if is_dot c && is_upper u && is_lower l
            then String c (String "_" (first_cap_scan Cap r))
            else String c (first_cap_scan Scan r)
        | _ => String c (first_cap_scan Scan r)
        end in
      match st with
      | Scan => scan_here
      | Cap => String c (first_cap_scan Run r)
      | Run => if is_lower c then String c (first_cap_scan Run r)
               else scan_here
      end
  end.

Definition first_cap_sub (s : string) : string := first_cap_scan Scan s.

(** [all_cap_re.sub(r'\1_\2', s)] with
    [all_cap_re = re.compile('([a-z0-9])([A-Z])')]: [skip] says that the
    character at hand is the capital of a match just found, which is copied
    and cannot start a match of its own. *)
Fixpoint all_cap_scan (skip : bool) (s : string) : string :=
  match s with
  | EmptyString => EmptyString
  | String c r =>
      if skip then String c (all_cap_scan false r)
      else
        match r with
        | String u _ =>
            if (is_lower c || is_digit c) && is_upper u
            then String c (String "_" (all_cap_scan true r))
            else String c (all_cap_scan false r)
        | EmptyString => String c EmptyString
        end
  end.

Definition all_cap_sub (s : string) : string := all_cap_scan false s.

(** [[
def convert_camel(name):
    s1 = first_cap_re.sub(r'\1_\2', name)
    return all_cap_re.sub(r'\1_\2', s1).lower()
]] *)
Definition convert_camel (name : string) : string :=
  let s1 := first_cap_sub name in
  lower (all_cap_sub s1).

(** The key computed for an attribute by every converter of the client:
    [convert_camel(attr[0].replace("__c", ""))]. *)
Definition normalize_key (raw : string) : string :=
  convert_camel (replace_marker raw).

(** The normalization as the specification words it: a trailing marker is
    stripped, then the key is converted. *)
Fixpoint strip_trailing_marker (s : string) : string :=
  match s with
  | EmptyString => EmptyString
  | String c r => if String.eqb s marker then EmptyString
                  else String c (strip_trailing_marker r)
  end.

Definition normalize_key_spec (raw : string) : string :=
  convert_camel (strip_trailing_marker raw).

End Normalizer.


(* ================================================================== *)
(** * Python values, dictionaries and exceptions *)
(* ================================================================== *)

Module Py.
Import Str.

(** Scalars: what a record of the remote service holds in an attribute and
    what serves as a dictionary key.  A value of another scalar type (a
    decimal, a date) stands in a record as the text [str] gives for it, which
    is all that the converters below use of it. *)
Inductive atom :=
| ANone
| ABool (b : bool)
| AInt (z : Z)
| AStr (s : string).

(** Values held by the dictionaries that the client builds. *)
#[warnings="-register-all"]
Inductive pyval :=
| PAtom (a : atom)
| PList (l : list pyval)
| PDict (d : list (atom * pyval)).

(** A [dict]: association list in encounter order, keys unique.  Python 2
    fixes no iteration order; the order of the list is the order in which a
    loop over [.items()] meets the entries. *)
Definition dict := list (atom * pyval).

Definition PStr (s : string) : pyval := PAtom (AStr s).
Definition PInt (z : Z) : pyval := PAtom (AInt z).

(** Equality of keys.  Keys are compared by constructor and content: that
    Python identifies [True] with [1] as keys is not modelled, the keys here
    being identifiers and attribute names. *)
Definition atom_eqb (a b : atom) : bool :=
  match a, b with
  | ANone, ANone => true
  | ABool x, ABool y => Bool.eqb x y
  | AInt x, AInt y => Z.eqb x y
  | AStr x, AStr y => String.eqb x y
  | _, _ => false
  end.

Section Dict.
Context {V : Type}.

(** [d.get(k)] as an option *)
Fixpoint lookup (k : atom) (d : list (atom * V)) : option V :=
  match d with
  | [] => None
  | (k', v) :: r => if atom_eqb k k' then Some v else lookup k r
  end.

(** [d[k] = v]: an existing entry keeps its place, a new one goes last.
    That a new entry goes last is a choice of the model: Python 2 iterates
    a dictionary in the order of its hash table, which the insertions do
    not fix.  What is proved of an order is relative to the order that a
    given dictionary has, or is an order that the sort keys decide. *)
Fixpoint dict_set (k : atom) (v : V) (d : list (atom * V)) : list (atom * V) :=
  match d with
  | [] => [(k, v)]
  | (k', v') :: r =>
      if atom_eqb k k' then (k', v) :: r else (k', v') :: dict_set k v r
  end.

(** [d.get(k, default)] *)
Definition get_default (k : atom) (default : V) (d : list (atom * V)) : V :=
  match lookup k d with
  | Some v => v
  | None => default
  end.

Definition keys (d : list (atom * V)) : list atom := map fst d.
Definition values (d : list (atom * V)) : list V := map snd d.
End Dict.

(** [str(a)] on a scalar. *)
Definition string_of_Z (z : Z) : string :=
  NilZero.string_of_int (Z.to_int z).

Definition py_str (a : atom) : string :=
  match a with
  | ANone => "None"
  | ABool true => "True"
  | ABool false => "False"
  | AInt z => string_of_Z z
  | AStr s => s
  end.

(** Truth value of a scalar and of a value. *)
Definition atom_truthy (a : atom) : bool :=
  match a with
  | ANone => false
  | ABool b => b
  | AInt z => negb (Z.eqb z 0)
  | AStr s => negb (String.eqb s "")
  end.

Definition truthy (v : pyval) : bool :=
  match v with
  | PAtom a => atom_truthy a
  | PList l => match l with [] => false | _ => true end
  | PDict d => match d with [] => false | _ => true end
  end.

(** ** The order of Python 2 on values

    [None] is below every number, a number is below every other object, and
    objects of different types are ordered by the name of their type
    (["dict" < "list" < "str"]).  Numbers ([bool] counts as 0 or 1) compare
    by value, strings by bytes.  The engine sorts on ['score'] and
    ['sort_order'], which hold an [int] or a [str]; the order between two
    lists or between two dictionaries is not needed and is left unrefined
    (they compare equal). *)
Inductive kind :=
| KNone
| KNum (z : Z)
| KDict
| KList
| KStr (s : string).

Definition kind_of (v : pyval) : kind :=
  match v with
  | PAtom ANone => KNone
  | PAtom (ABool b) => KNum (if b then 1 else 0)
  | PAtom (AInt z) => KNum z
  | PAtom (AStr s) => KStr s
  | PList _ => KList
  | PDict _ => KDict
  end.

Definition rank (k : kind) : nat :=
  match k with
  | KNone => 0
  | KNum _ => 1
  | KDict => 2
  | KList => 3
  | KStr _ => 4
  end.

Definition kind_cmp (a b : kind) : comparison :=
  match a, b with
  | KNum x, KNum y => Z.compare x y
  | KStr x, KStr y => String.compare x y
  | _, _ => Nat.compare (rank a) (rank b)
  end.

(** [cmp(a, b)] *)
Definition py_cmp (a b : pyval) : comparison := kind_cmp (kind_of a) (kind_of b).

(** [a < b] *)
Definition py_lt (a b : pyval) : bool :=
  match py_cmp a b with Lt => true | _ => false end.

(** [a] is tied with [v]: neither is below the other. *)
Definition tied (v a : pyval) : bool :=
  match py_cmp a v with Eq => true | _ => false end.

(** ** Exceptions *)

(** A value received from the remote service as the answer to [create]: a
    scalar, one object, or a list of objects.  An object is the list of its
    attributes. *)
Definition record := list (string * atom).

Inductive remote_value :=
| VAtom (a : atom)
| VObj (o : record)
| VList (l : list record).

(** The exceptions of the module and the built-in ones that its code can
    raise.  For the classes of the module, [text] is the message up to a final
    [%s] whose argument is a response of the remote service, kept as
    [payload] (how such an object prints is not modelled). *)
Inductive exn :=
| ZuoraException (text : string) (payload : option remote_value)
| DoesNotExist (text : string)
| MissingRequired (text : string)
| KeyError (k : atom)
| IndexError
| AttributeError (name : string)
| TypeError
| ValueError
| ReError.

Inductive result (A : Type) :=
| Ok (a : A)
| Raise (e : exn).
Arguments Ok {A} a.
Arguments Raise {A} e.

Definition bind {A B} (m : result A) (f : A -> result B) : result B :=
  match m with
  | Ok a => f a
  | Raise e => Raise e
  end.

(** A [for] loop whose body may raise: the state is threaded through the
    elements from the left and the first exception ends the loop. *)
Fixpoint for_each {A S} (body : S -> A -> result S) (l : list A) (s : S)
  : result S :=
  match l with
  | [] => Ok s
  | a :: r => bind (body s a) (for_each body r)
  end.

(** The loop that builds a list,
    [[
        out = []
        for a in l:
            ...
            out.append(b)
    ]]
    where the body computes [b] from [a] or raises. *)
Definition collect {A B} (body : A -> result B) (l : list A) : result (list B) :=
  for_each (fun out a => bind (body a) (fun b => Ok (out ++ [b])%list)) l [].

(** [d[k]] *)
Definition getitem {V} (k : atom) (d : list (atom * V)) : result V :=
  match lookup k d with
  | Some v => Ok v
  | None => Raise (KeyError k)
  end.

(** [o.name] on an object of the remote service. *)
Fixpoint getattr (name : string) (o : record) : result atom :=
  match o with
  | [] => Raise (AttributeError name)
  | (n, v) :: r => if String.eqb name n then Ok v else getattr name r
  end.

(** [setattr(o, name, v)] *)
Fixpoint setattr (name : string) (v : atom) (o : record) : record :=
  match o with
  | [] => [(name, v)]
  | (n, v') :: r =>
      if String.eqb name n then (n, v) :: r else (n, v') :: setattr name v r
  end.

(** ** [sorted]

    [sorted(l, key=key)] is a stable sort that compares keys with [<];
    with [reverse=True] the list is reversed, sorted, and reversed again,
    which is how CPython keeps the sort stable. *)
Section Sorted.
Context {A : Type}.
Variable key : A -> pyval.

Fixpoint insert (x : A) (l : list A) : list A :=
  match l with
  | [] => [x]
  | y :: r => if py_lt (key y) (key x) then y :: insert x r else x :: y :: r
  end.

Definition sort_ascending (l : list A) : list A := fold_right insert [] l.

Definition sorted (reverse : bool) (l : list A) : list A :=
  if reverse then rev (sort_ascending (rev l)) else sort_ascending l.

(** [a] may stand before [b] in a list in ascending order of keys (the key
    of [b] is not below that of [a]), in descending order, and [a] has a
    key tied with [v]. *)
Definition ascending (a b : A) : Prop := py_lt (key b) (key a) = false.
Definition descending (a b : A) : Prop := py_lt (key a) (key b) = false.
Definition tie (v : pyval) (a : A) : bool := tied v (key a).
End Sorted.

End Py.

(* ================================================================== *)
(** * The client: session, remote calls, fetchers *)
(* ================================================================== *)

Module Zuora.
Import Str Normalizer Py.

(** [sep.join(l)] *)
Fixpoint join (sep : string) (l : list string) : string :=
  match l with
  | [] => ""
  | [s] => s
  | s :: r => s ++ sep ++ join sep r
  end.

Definition is_space (c : ascii) : bool :=
  ((code c =? 32) || ((9 <=? code c) && (code c <=? 13)))%nat.

(** [s.split()]: the words of [s] between runs of white space. *)
Fixpoint split_words (word s : string) : list string :=
  match s with
  | EmptyString => if String.eqb word "" then [] else [word]
  | String c r =>
      if is_space c
      then (if String.eqb word "" then split_words "" r
            else word :: split_words "" r)
      else split_words (word ++ String c "") r
  end.

Definition split (s : string) : list string := split_words "" s.

(** A word: a string that is not empty and holds no white space. *)
Fixpoint no_space (s : string) : bool :=
  match s with
  | EmptyString => true
  | String c r => negb (is_space c) && no_space r
  end.

Definition is_word (w : string) : bool := negb (String.eqb w "") && no_space w.

(** What the client sends to the remote service. *)
Inductive request :=
| Login (username password : string)
| Query (queryString : string)
| Create (z_object : record).

(** The answer to a query: an object whose [records] attribute, when it is
    there, is the sequence of the matching records. *)
Record response := { records : option (list record) }.

(** The instance state that the modelled methods touch: the session and,
    for the statements about what is sent, the requests made so far (oldest
    first). *)
Record client := { session_id : atom; sent : list request }.

Definition new_client : client := {| session_id := ANone; sent := [] |}.

(** A method: reads and updates the client, returns or raises. *)
Definition M (A : Type) : Type := client -> result A * client.

Definition ret {A} (a : A) : M A := fun st => (Ok a, st).
Definition raise {A} (e : exn) : M A := fun st => (Raise e, st).
Definition lift {A} (r : result A) : M A := fun st => (r, st).

Definition bindM {A B} (m : M A) (f : A -> M B) : M B :=
  fun st =>
    match m st with
    | (Ok a, st') => f a st'
    | (Raise e, st') => (Raise e, st')
    end.

Declare Scope py_scope.
Delimit Scope py_scope with py.
Notation "x <- m ;; k" := (bindM m (fun x => k))
  (at level 61, m at next level, right associativity) : py_scope.
Notation "x <~ m ;; k" := (bind m (fun x => k))
  (at level 61, m at next level, right associativity) : py_scope.
Local Open Scope py_scope.

Section Client.

(** ** The collaborators *)

(** Settings of the instance. *)
Variable username password : string.
Variable authorize_gateway : atom.   (* zuora_settings.get("gateway_name", None) *)
Variable create_test_users : atom.   (* zuora_settings.get("test_users", None) *)

(** The remote service.  An operation answers or faults (the text of the
    fault on the right), and may depend on everything sent before. *)
Variable service_login : list request -> atom + string.
Variable service_query : list request -> string -> response + string.
Variable service_create : list request -> record -> remote_value + string.

(** [self.client.factory.create(name)]: a fresh object of the remote
    object model. *)
Variable factory_create : string -> record.

(** The [re] module: whether [re.compile(p, re.IGNORECASE)] accepts [p],
    and whether [re.match] of the compiled [p] finds a match in [s]. *)
Variable re_valid : string -> bool.
Variable re_match : string -> string -> bool.

(** [float(s)], [None] when it raises [ValueError].  A float is idealised
    as a rational: the rounding of binary64 is not modelled. *)
Variable float_of : string -> option Q.

(** [datetime.utcnow().strftime(SOAP_TIMESTAMP)] and [date.today().day]. *)
Variable utcnow : string.
Variable today_day : Z.

(** ** Session and calls *)

(** [[
  def login(self):
      if self.session_id:
          return
      login_response = self.client.service.login(username=self.username,
                                                 password=self.password)
      self.session_id = login_response.Session
      ...
]]
    The outcome on the right is the fault of the remote side. *)
Definition login (st : client) : (unit + string) * client :=
  if atom_truthy (session_id st) then (inl tt, st)
  else
    let st1 := {| session_id := session_id st;
                  sent := (sent st ++ [Login username password])%list |} in
    match service_login (sent st) with
    | inl session => (inl tt, {| session_id := session; sent := sent st1 |})
    | inr fault => (inr fault, st1)
    end.

(** [[
  def call(self, fn, *args, **kwargs):
      try:
          self.login()
          response = fn( *args, **kwargs)
      except Exception as error:
          log.error("Zuora: Unexpected Error. %s" % error)
          raise ZuoraException("Zuora: Unexpected Error. %s" % error)
      return response
]] *)
Definition call {A} (fn : list request -> A + string) (req : request) : M A :=
  fun st =>
    let unexpected error :=
      ZuoraException ("Zuora: Unexpected Error. " ++ error) None in
    match login st with
    | (inr error, st1) => (Raise (unexpected error), st1)
    | (inl _, st1) =>
        let st2 := {| session_id := session_id st1;
                      sent := (sent st1 ++ [req])%list |} in
        match fn (sent st1) with
        | inl response => (Ok response, st2)
        | inr error => (Raise (unexpected error), st2)
        end
    end.

(** [[
  def query(self, query_string):
      query_string = ' '.join(query_string.split())
      fn = self.client.service.query
      response = self.call(fn, queryString=query_string)
      return response
]] *)
Definition query (query_string : string) : M response :=
  let query_string := join " " (split query_string) in
  call (fun h => service_query h query_string) (Query query_string).

(** [[
  def create(self, z_object):
      fn = self.client.service.create
      ...
      response = self.call(fn, z_object)
      return response
]] *)
Definition create (z_object : record) : M remote_value :=
  call (fun h => service_create h z_object) (Create z_object).

(** [response.records] *)
Definition get_records (r : response) : result (list record) :=
  match records r with
  | Some l => Ok l
  | None => Raise (AttributeError "records")
  end.

(** [[
      try:
          return response.records
      except:
          raise DoesNotExist(text % what)
]] *)
Definition records_or_DoesNotExist (r : response) (text : string) (what : atom)
  : result (list record) :=
  match get_records r with
  | Ok l => Ok l
  | Raise _ => Raise (DoesNotExist (text ++ py_str what))
  end.

(** ** Single-entity fetcher *)

(** [[
  def get_account(self, user_id):
      qs = '''
          SELECT Id FROM Account
          WHERE AccountNumber = '%s' or AccountNumber = 'A-%s'
          ''' % (user_id, user_id)

      response = self.query(qs)
      if getattr(response, "records") and len(response.records) > 0:
          zAccount = response.records[0]
          return zAccount
      else:
          raise DoesNotExist("Unable to find Account for User ID %s"
                          % user_id)
]] *)
Definition get_account (user_id : atom) : M record :=
  let qs := "
            SELECT Id FROM Account
            WHERE AccountNumber = '" ++ py_str user_id
            ++ "' or AccountNumber = 'A-" ++ py_str user_id ++ "'
            " in
  response <- query qs ;;
  recs <- lift (get_records response) ;;
  match recs with
  | zAccount :: _ => ret zAccount
  | [] => raise (DoesNotExist
                   ("Unable to find Account for User ID " ++ py_str user_id))
  end.

(** ** Multi-entity fetchers *)

(** [[
  def get_invoices(self, account_id=None):
      qs_filter = []
      if account_id:
          qs_filter.append("AccountId = '%s'" % account_id)
      if qs_filter:
          qs = ''' SELECT ... FROM Invoice WHERE %s
              ''' % " AND ".join(qs_filter)
          response = self.query(qs)
          zInvoices = response.records
          return zInvoices
      return None
]] *)
Definition get_invoices (account_id : atom) : M (option (list record)) :=
  let qs_filter : list string := [] in
  let qs_filter :=
    if atom_truthy account_id
    then (qs_filter ++ [("AccountId = '" ++ py_str account_id ++ "'")%string])%list
    else qs_filter in
  match qs_filter with
  | _ :: _ =>
      let qs := "
                SELECT
                    AccountID, AdjustmentAmount, Amount,
                    Balance, CreatedDate, DueDate,
                    IncludesOneTime, IncludesRecurring, IncludesUsage,
                    InvoiceDate, InvoiceNumber,
                    PaymentAmount, RefundAmount, Status,
                    TargetDate
                FROM Invoice
                WHERE " ++ join " AND " qs_filter ++ "
                " in
      response <- query qs ;;
      zInvoices <- lift (get_records response) ;;
      ret (Some zInvoices)
  | [] => ret None
  end.

(** [[
  def get_invoice_payments(self, invoice_id=None, payment_id=None):
      qs_filter = []
      if invoice_id:
          qs_filter.append("InvoiceId = '%s'" % invoice_id)
      if payment_id:
          qs_filter.append("PaymentId = '%s'" % payment_id)
      if qs_filter:
          qs = ''' SELECT ... FROM InvoicePayment WHERE %s
              ''' % " AND ".join(qs_filter)
          response = self.query(qs)
          zInvoicePayments = response.records
          return zInvoicePayments
      return None
]] *)
Definition get_invoice_payments (invoice_id payment_id : atom)
  : M (option (list record)) :=
  let qs_filter : list string := [] in
  let qs_filter :=
    if atom_truthy invoice_id
    then (qs_filter ++ [("InvoiceId = '" ++ py_str invoice_id ++ "'")%string])%list
    else qs_filter in
  let qs_filter :=
    if atom_truthy payment_id
    then (qs_filter ++ [("PaymentId = '" ++ py_str payment_id ++ "'")%string])%list
    else qs_filter in
  match qs_filter with
  | _ :: _ =>
      let qs := "
                SELECT
                    Amount, CreatedById, CreatedDate, InvoiceId, PaymentId,
                    RefundAmount, UpdatedById, UpdatedDate
                FROM InvoicePayment
                WHERE " ++ join " AND " qs_filter ++ "
                " in
      response <- query qs ;;
      zInvoicePayments <- lift (get_records response) ;;
      ret (Some zInvoicePayments)
  | [] => ret None
  end.

(** [[
  def get_payments(self, account_id=None):
      qs_filter = []
      if account_id:
          qs_filter.append("AccountId = '%s'" % account_id)
      if qs_filter:
          qs = ''' SELECT ... FROM Payment WHERE %s
              ''' % " AND ".join(qs_filter)
          response = self.query(qs)
          zPayments = response.records
          return zPayments
      return None
]] *)
Definition get_payments (account_id : atom) : M (option (list record)) :=
  let qs_filter : list string := [] in
  let qs_filter :=
    if atom_truthy account_id
    then (qs_filter ++ [("AccountId = '" ++ py_str account_id ++ "'")%string])%list
    else qs_filter in
  match qs_filter with
  | _ :: _ =>
      let qs := "
                SELECT
                    AccountID, AccountingCode, Amount,
                    AppliedCreditBalanceAmount, AuthTransactionId,
                    BankIdentificationNumber, CancelledOn, Comment,
                    CreatedById, CreatedDate, EffectiveDate, GatewayOrderId,
                    GatewayResponse, GatewayResponseCode, GatewayState,
                    MarkedForSubmissionOn,
                    PaymentMethodID, PaymentNumber, ReferenceId, RefundAmount,
                    SecondPaymentReferenceId, SettledOn, SoftDescriptor,
                    Status, SubmittedOn, TransferredToAccounting,
                    Type, UpdatedById, UpdatedDate
                FROM Payment
                WHERE " ++ join " AND " qs_filter ++ "
                " in
      response <- query qs ;;
      zPayments <- lift (get_records response) ;;
      ret (Some zPayments)
  | [] => ret None
  end.

(** ** Methods of values *)

(** [v.items()] *)
Definition items (v : pyval) : result dict :=
  match v with
  | PDict d => Ok d
  | _ => Raise (AttributeError "items")
  end.

(** [v.get(k, default)] *)
Definition py_get (v : pyval) (k : atom) (default : pyval) : result pyval :=
  match v with
  | PDict d => Ok (get_default k default d)
  | _ => Raise (AttributeError "get")
  end.

(** [v[k]] for a key [k] that is not an integer: defined on dictionaries. *)
Definition py_getitem (v : pyval) (k : atom) : result pyval :=
  match v with
  | PDict d => getitem k d
  | _ => Raise TypeError
  end.

(** [v[k] = x], the updated dictionary. *)
Definition py_setitem (v : pyval) (k : atom) (x : pyval) : result dict :=
  match v with
  | PDict d => Ok (dict_set k x d)
  | _ => Raise TypeError
  end.

(** [v + 1] *)
Definition py_add1 (v : pyval) : result pyval :=
  match v with
  | PAtom (AInt z) => Ok (PInt (z + 1))
  | PAtom (ABool b) => Ok (PInt ((if b then 1 else 0) + 1))
  | _ => Raise TypeError
  end.

(** The use of a value as a dictionary key: lists and dictionaries are
    not hashable. *)
Definition as_key (v : pyval) : result atom :=
  match v with
  | PAtom a => Ok a
  | _ => Raise TypeError
  end.

(** ** Fetchers of the catalog *)

(** [" WHERE %s" % qs_filter], and the clause of a list of identifiers:
    [" OR ".join([where_id_string % i for i in id_list])]. *)
Definition where_ (qs_filter : atom) : string := " WHERE " ++ py_str qs_filter.

Definition or_clause (field : string) (id_list : list atom) : string :=
  join " OR " (map (fun i => field ++ " = '" ++ py_str i ++ "'") id_list).

Definition list_truthy {A} (l : list A) : bool :=
  match l with [] => false | _ => true end.

(** [[
  def get_products(self, product_id=None, shortcodes=None):
      qs_filter = None
      qs = ''' SELECT ... FROM Product '''
      if product_id:
          qs_filter = "Id = '%s'" % product_id
      elif shortcodes:
          qs_filter_list = ["ShortCode__c = '%s'" % code
                              for code in shortcodes]
          qs_filter = " OR ".join(qs_filter_list)
      if qs_filter:
          qs += " WHERE %s" % qs_filter
      response = self.query(qs)
      try:
          zProducts = response.records
          return zProducts
      except:
          raise DoesNotExist("Unable to find Product for %s" % product_id)
]]
    An absent list argument and an empty list are both the empty list. *)
Definition get_products (product_id : atom) (shortcodes : list atom)
  : M (list record) :=
  let qs_filter := ANone in
  let qs := "
            SELECT
                Description, EffectiveEndDate, EffectiveStartDate,
                Id, SKU, Name, ShortCode__c
            FROM Product
            " in
  let qs_filter :=
    if atom_truthy product_id
    then AStr ("Id = '" ++ py_str product_id ++ "'")
    else if list_truthy shortcodes
    then AStr (or_clause "ShortCode__c" shortcodes)
    else qs_filter in
  let qs := if atom_truthy qs_filter then qs ++ where_ qs_filter else qs in
  response <- query qs ;;
  lift (records_or_DoesNotExist response "Unable to find Product for " product_id).

(** [[
  def get_product_rate_plans(self, product_rate_plan_id=None,
                             product_id_list=None, effective_start=None,
                             effective_end=None):
      qs = ''' SELECT ... FROM ProductRatePlan '''
      if product_rate_plan_id:
          qs_filter = "Id = '%s'" % product_rate_plan_id
      else:
          qs_filter = None
          if product_id_list:
              id_filter_list = ["ProductId = '%s'" % pid
                        for pid in product_id_list]
              qs_filter = " OR ".join(id_filter_list)
          if effective_start:
              if not effective_end:
                  effective_end = effective_start
              date_where = '''EffectiveEndDate >= '%s' AND
                              EffectiveStartDate <= '%s'
                           ''' % (effective_end, effective_start)
              if qs_filter:
                  qs_filter += " AND %s" % date_where
              else:
                  qs_filter = date_where
      qs += " WHERE %s" % qs_filter
      response = self.query(qs)
      try:
          zProductRatePlans = response.records
          return zProductRatePlans
      except:
          raise DoesNotExist("Unable to find Product Rate Plan for %s"
                          % product_rate_plan_id)
]] *)
Definition get_product_rate_plans (product_rate_plan_id : atom)
    (product_id_list : list atom) (effective_start effective_end : atom)
  : M (list record) :=
  let qs := "
            SELECT
                ActivityLevel__c, AgeGroup__c,
                Description, EffectiveEndDate, EffectiveStartDate,
                Gender__c, Id, Name,
                Priority__c, ProductId, Site__c, Term__c
            FROM ProductRatePlan
            " in
  let qs_filter :=
    if atom_truthy product_rate_plan_id
    then AStr ("Id = '" ++ py_str product_rate_plan_id ++ "'")
    else
      let qs_filter := ANone in
      let qs_filter :=
        if list_truthy product_id_list
        then AStr (or_clause "ProductId" product_id_list)
        else qs_filter in
      if atom_truthy effective_start
      then
        let effective_end :=
          if negb (atom_truthy effective_end) then effective_start
          else effective_end in
        let date_where := "EffectiveEndDate >= '" ++ py_str effective_end
          ++ "' AND
                                EffectiveStartDate <= '"
          ++ py_str effective_start ++ "'
                             " in
        if atom_truthy qs_filter
        then AStr (py_str qs_filter ++ " AND " ++ date_where)
        else AStr date_where
      else qs_filter in
  let qs := qs ++ where_ qs_filter in
  response <- query qs ;;
  lift (records_or_DoesNotExist response
          "Unable to find Product Rate Plan for " product_rate_plan_id).

(** [[
  def get_product_rate_plan_charges(self, product_rate_plan_id=None,
                                    product_rate_plan_id_list=None,
                                    product_rate_plan_charge_id=None):
      qs = ''' SELECT ... FROM ProductRatePlanCharge '''
      where_id_string = "ProductRatePlanId = '%s'"
      if product_rate_plan_id:
          qs_filter = where_id_string % product_rate_plan_id
      elif product_rate_plan_charge_id:
          qs_filter = "Id = '%s'" % product_rate_plan_charge_id
      else:
          qs_filter = None
          if product_rate_plan_id_list:
              id_filter_list = [where_id_string % prp_id
                        for prp_id in product_rate_plan_id_list]
              qs_filter = " OR ".join(id_filter_list)
      qs += " WHERE %s" % qs_filter
      response = self.query(qs)
      try:
          return response.records
      except:
          raise DoesNotExist(
                          "Unable to find Product Rate Plan Charges for %s"
                          % product_rate_plan_id)
]] *)
Definition get_product_rate_plan_charges (product_rate_plan_id : atom)
    (product_rate_plan_id_list : list atom)
    (product_rate_plan_charge_id : atom) : M (list record) :=
  let qs := "
            SELECT
                AccountingCode, BillCycleDay, BillCycleType, BillingPeriod,
                BillingPeriodAlignment, ChargeModel, ChargeType,
                CustomImageURL__c, DefaultQuantity, Description,
                ExclusiveOfferFlag__c,
                HiddenBenefitText__c, Id,  IncludedUnits, MaxQuantity,
                MinQuantity, Name, NumberOfPeriod, OverageCalculationOption,
                OverageUnusedUnitsCreditOption,
                PriceIncreasePercentage, ProductRatePlanId,
                RevRecCode, RevRecTriggerCondition, ShortCode__c,
                SmoothingModel, SortOrder__c, SpecificBillingPeriod,
                TriggerEvent, UOM, UpToPeriods,
                UseDiscountSpecificAccountingCode
            FROM ProductRatePlanCharge
            " in
  let qs_filter :=
    if atom_truthy product_rate_plan_id
    then AStr ("ProductRatePlanId = '" ++ py_str product_rate_plan_id ++ "'")
    else if atom_truthy product_rate_plan_charge_id
    then AStr ("Id = '" ++ py_str product_rate_plan_charge_id ++ "'")
    else
      let qs_filter := ANone in
      if list_truthy product_rate_plan_id_list
      then AStr (or_clause "ProductRatePlanId" product_rate_plan_id_list)
      else qs_filter in
  let qs := qs ++ where_ qs_filter in
  response <- query qs ;;
  lift (records_or_DoesNotExist response
          "Unable to find Product Rate Plan Charges for " product_rate_plan_id).

(** [[
  def get_product_rate_plan_charge_tiers(
                                  self,
                                  product_rate_plan_charge_id=None,
                                  product_rate_plan_charge_id_list=None):
      qs = ''' SELECT ... FROM ProductRatePlanChargeTier '''
      where_id_string = "ProductRatePlanChargeId = '%s'"
      if product_rate_plan_charge_id:
          qs_filter = where_id_string % product_rate_plan_charge_id
      else:
          qs_filter = None
          if product_rate_plan_charge_id_list:
              id_filter_list = [where_id_string % prpc_id
                        for prpc_id in product_rate_plan_charge_id_list]
              qs_filter = " OR ".join(id_filter_list)
      qs += " WHERE %s" % qs_filter
      response = self.query(qs)
      try:
          zProductRatePlanChargeTiers = response.records
          return zProductRatePlanChargeTiers
      except:
          raise DoesNotExist(
                  "Unable to find Product Rate Plan Charges Tiers for %s"
                  % product_rate_plan_charge_id)
]] *)
Definition get_product_rate_plan_charge_tiers
    (product_rate_plan_charge_id : atom)
    (product_rate_plan_charge_id_list : list atom) : M (list record) :=
  let qs := "
            SELECT
                Currency, EndingUnit, IsOveragePrice,
                Price, PriceFormat, ProductRatePlanChargeId,
                StartingUnit, Tier
            FROM ProductRatePlanChargeTier
            " in
  let qs_filter :=
    if atom_truthy product_rate_plan_charge_id
    then AStr ("ProductRatePlanChargeId = '"
               ++ py_str product_rate_plan_charge_id ++ "'")
    else
      let qs_filter := ANone in
      if list_truthy product_rate_plan_charge_id_list
      then AStr (or_clause "ProductRatePlanChargeId"
                   product_rate_plan_charge_id_list)
      else qs_filter in
  let qs := qs ++ where_ qs_filter in
  response <- query qs ;;
  lift (records_or_DoesNotExist response
          "Unable to find Product Rate Plan Charges Tiers for "
          product_rate_plan_charge_id).

(** ** Record normalizer: the converters *)

(** Dictionaries grouped by a parent identifier, then by the identifier of
    the entity: [{parent_id: {id: {key: value}}}]. *)
Definition groups := list (atom * list (atom * dict)).

(** The loop shared by the converters,
    [[
          for attr in p:
              key = convert_camel(attr[0].replace("__c", ""))
              entry[key] = attr[1]          # or str(attr[1])
    ]]
    on an entry that starts empty. *)
Definition camel_attrs (stringify : bool) (o : record) : dict :=
  fold_left
    (fun entry attr =>
       let key := convert_camel (replace_marker (fst attr)) in
       dict_set (AStr key)
         (PAtom (if stringify then AStr (py_str (snd attr)) else snd attr))
         entry)
    o [].

(** [[
          d[parent] = d.get(parent, {})
          d[parent][o.Id] = {}
          for attr in o:
              key = convert_camel(attr[0].replace("__c", ""))
              d[parent][o.Id][key] = str(attr[1])
]]
    The parent is read first, then the identifier.  The entry is stored
    filled, which gives the same dictionary as filling it in place. *)
Definition group_record (parent_attr : string) (d : groups) (o : record)
  : result groups :=
  parent <~ getattr parent_attr o ;;
  id <~ getattr "Id" o ;;
  let siblings := get_default parent [] d in
  Ok (dict_set parent (dict_set id (camel_attrs true o) siblings) d).

(** The loop of [get_camel_converted_products] over the response:
    [[
      product_dict = {}
      for p in response:
          product_dict[p.Id] = {}
          for attr in p:
              key = convert_camel(attr[0].replace("__c", ""))
              product_dict[p.Id][key] = attr[1]
      return product_dict
]] *)
Definition camel_converted_products (response : list record)
  : result (list (atom * dict)) :=
  for_each
    (fun product_dict p =>
       id <~ getattr "Id" p ;;
       Ok (dict_set id (camel_attrs false p) product_dict))
    response [].

Definition get_camel_converted_products (product_id : atom)
    (shortcodes : list atom) : M (list (atom * dict)) :=
  response <- get_products product_id shortcodes ;;
  lift (camel_converted_products response).

(** The result of [get_camel_converted_product_rate_plans]: the flat
    dictionary of the one plan asked for, or the plans grouped by product. *)
Definition product_rate_plan_dict_of (one : bool) : Type :=
  if one then dict else groups.

(** [[
      product_rate_plan_dict = {}
      for rp in response:
          if not product_rate_plan_id:
              product_rate_plan_dict[rp.ProductId] = \
                      product_rate_plan_dict.get(rp.ProductId, {})
              product_rate_plan_dict[rp.ProductId][rp.Id] = {}
          for attr in rp:
              key = convert_camel(attr[0].replace("__c", ""))
              if product_rate_plan_id:
                  product_rate_plan_dict[key] = str(attr[1])
              else:
                  product_rate_plan_dict[rp.ProductId][rp.Id][key] = \
                                                          str(attr[1])
      return product_rate_plan_dict
]] *)
Definition camel_converted_product_rate_plans (one : bool)
    (response : list record) : result (product_rate_plan_dict_of one) :=
  match one return result (product_rate_plan_dict_of one) with
  | true =>
      Ok (fold_left
            (fun d rp =>
               fold_left
                 (fun d attr =>
                    let key := convert_camel (replace_marker (fst attr)) in
                    dict_set (AStr key) (PStr (py_str (snd attr))) d)
                 rp d)
            response [])
  | false => for_each (group_record "ProductId") response []
  end.

Definition get_camel_converted_product_rate_plans
    (product_rate_plan_id : atom) (product_id_list : list atom)
    (effective_start effective_end : atom)
  : M (product_rate_plan_dict_of (atom_truthy product_rate_plan_id)) :=
  response <- get_product_rate_plans product_rate_plan_id product_id_list
                effective_start effective_end ;;
  lift (camel_converted_product_rate_plans
          (atom_truthy product_rate_plan_id) response).

(** [[
      product_rate_plan_charge_dict = {}
      for rpc in response:
          product_rate_plan_charge_dict[rpc.ProductRatePlanId] = \
              product_rate_plan_charge_dict.get(rpc.ProductRatePlanId, {})
          product_rate_plan_charge_dict[rpc.ProductRatePlanId][rpc.Id] = {}
          for attr in rpc:
              key = convert_camel(attr[0].replace("__c", ""))
              product_rate_plan_charge_dict[
                          rpc.ProductRatePlanId][rpc.Id][key] = str(attr[1])
      return product_rate_plan_charge_dict
]] *)
Definition camel_converted_product_rate_plan_charges
    (response : list record) : result groups :=
  for_each (group_record "ProductRatePlanId") response [].

Definition get_camel_converted_product_rate_plan_charges
    (product_rate_plan_id : atom) (product_rate_plan_id_list : list atom)
  : M groups :=
  response <- get_product_rate_plan_charges product_rate_plan_id
                product_rate_plan_id_list ANone ;;
  lift (camel_converted_product_rate_plan_charges response).

(** [[
      product_rate_plan_charge_tier_dict = {}
      for rpct in response:
          product_rate_plan_charge_tier_dict[rpct.ProductRatePlanChargeId] =\
              product_rate_plan_charge_tier_dict.get(
                              rpct.ProductRatePlanChargeId, {})
          product_rate_plan_charge_tier_dict[
                              rpct.ProductRatePlanChargeId][rpct.Id] = {}
          for attr in rpct:
              key = convert_camel(attr[0].replace("__c", ""))
              product_rate_plan_charge_tier_dict[
                  rpct.ProductRatePlanChargeId][rpct.Id][key] = str(attr[1])
      return product_rate_plan_charge_tier_dict
]] *)
Definition camel_converted_product_rate_plan_charge_tiers
    (response : list record) : result groups :=
  for_each (group_record "ProductRatePlanChargeId") response [].

Definition get_camel_converted_product_rate_plan_charge_tiers
    (product_rate_plan_charge_id_list : list atom) : M groups :=
  response <- get_product_rate_plan_charge_tiers ANone
                product_rate_plan_charge_id_list ;;
  lift (camel_converted_product_rate_plan_charge_tiers response).

(** ** Rate-plan matching engine *)

(** [re.compile(pattern, re.IGNORECASE)] followed by
    [re.match(p, subject)]: whether there is a match. *)
Definition re_compile_match (pattern subject : pyval) : result bool :=
  match pattern with
  | PAtom (AStr p) =>
      if re_valid p then
        match subject with
        | PAtom (AStr s) => Ok (re_match p s)
        | _ => Raise TypeError
        end
      else Raise ReError
  | _ => Raise TypeError
  end.

(** One turn of the loop over the filter:
    [[
                      if rp_dict.get(field):
                          p = re.compile(rp_dict[field], re.IGNORECASE)
                          if re.match(p, match):
                              rp_dict["score"] += 1
    ]] *)
Definition score_field (rp_dict : dict) (item : atom * pyval) : result dict :=
  let '(field, match_) := item in
  if truthy (get_default field (PAtom ANone) rp_dict) then
    pattern <~ getitem field rp_dict ;;
    found <~ re_compile_match pattern match_ ;;
    if found then
      score <~ getitem (AStr "score") rp_dict ;;
      score <~ py_add1 score ;;
      Ok (dict_set (AStr "score") score rp_dict)
    else Ok rp_dict
  else Ok rp_dict.

(** [[
              priority = rp_dict.get("priority", 0)
              rp_dict["score"] = priority
              if filter_:
                  for field, match in filter_.items():
                      ...
]] *)
Definition score_rate_plan (filter_ : dict) (rp_dict : dict) : result dict :=
  let priority := get_default (AStr "priority") (PInt 0) rp_dict in
  let rp_dict := dict_set (AStr "score") priority rp_dict in
  if list_truthy filter_ then for_each score_field filter_ rp_dict
  else Ok rp_dict.

(** A filter entry that the plan matches: the plan has a text that is not
    empty under the field, and this text, as a pattern, matches the value
    of the filter. *)
Definition field_matches (rp_dict : dict) (item : atom * pyval) : bool :=
  match lookup (fst item) rp_dict, snd item with
  | Some (PAtom (AStr p)), PAtom (AStr s) =>
      negb (String.eqb p "") && re_match p s
  | _, _ => false
  end.


(** A filter entry on which the scoring of the plan cannot raise: the field
    is not ['score'], the value to match is a string, and what the plan
    holds under the field, when it is true, is a pattern that compiles. *)
Definition scorable (rp_dict : dict) (item : atom * pyval) : Prop :=
  fst item <> AStr "score" /\
  (exists s, snd item = PStr s) /\
  (forall v, lookup (fst item) rp_dict = Some v -> truthy v = true ->
             exists p, v = PStr p /\ re_valid p = true).

(** [lambda k: k.get('sort_order', 999)] and [lambda k: k.get('score', 0)] *)
Definition sort_order_key (k : dict) : pyval :=
  get_default (AStr "sort_order") (PInt 999) k.

Definition score_key (k : dict) : pyval :=
  get_default (AStr "score") (PInt 0) k.

(** The body of the loop over the charges of a rate plan,
    [[
              rpc_list = []
              for _, rpc_dict in product_rate_plan_charge_dict\
                                          .get(rate_plan_id, {}).items():
                  rpct_list = []
                  for (_, rpct_dict) in product_rate_plan_charge_tier_dict\
                              .get(rpc_dict["id"], {}).items():
                      rpct_list.append(rpct_dict)
                  rpc_dict["rate_plan_charge_tiers"] = rpct_list
                  rpc_list.append(rpc_dict)
]]
    the charge as it is appended to [rpc_list]. *)
Definition charge_with_tiers (product_rate_plan_charge_tier_dict : groups)
    (item : atom * dict) : result dict :=
  let rpc_dict := snd item in
  id <~ getitem (AStr "id") rpc_dict ;;
  id <~ as_key id ;;
  let rpct_list :=
    map PDict (values (get_default id [] product_rate_plan_charge_tier_dict)) in
  Ok (dict_set (AStr "rate_plan_charge_tiers") (PList rpct_list) rpc_dict).

(** The body of the loop over the rate plans of a product: the plan is
    scored, its charges are attached sorted by ['sort_order'],
    [[
              rp_dict["rate_plan_charges"] = \
                  sorted(rpc_list, key=lambda k: k.get('sort_order', 999))
              rp_list.append(rp_dict)
]]
    and the plan is appended to [rp_list]. *)
Definition rate_plan_with_charges (filter_ : dict)
    (product_rate_plan_charge_dict product_rate_plan_charge_tier_dict : groups)
    (item : atom * dict) : result dict :=
  let '(rate_plan_id, rp_dict) := item in
  rp_dict <~ score_rate_plan filter_ rp_dict ;;
  rpc_list <~ collect (charge_with_tiers product_rate_plan_charge_tier_dict)
                (get_default rate_plan_id [] product_rate_plan_charge_dict) ;;
  Ok (dict_set (AStr "rate_plan_charges")
        (PList (map PDict (sorted sort_order_key false rpc_list))) rp_dict).

(** [rp_list] of a product, in the order in which the loop meets its plans. *)
Definition product_rp_list (filter_ : dict)
    (product_rate_plan_dict product_rate_plan_charge_dict
     product_rate_plan_charge_tier_dict : groups) (product_id : atom)
  : result (list dict) :=
  collect
    (rate_plan_with_charges filter_ product_rate_plan_charge_dict
       product_rate_plan_charge_tier_dict)
    (get_default product_id [] product_rate_plan_dict).

(** The body of the loop over the products: the product as it is appended
    to [matching_rate_plans],
    [[
          p_dict["rate_plans"] = sorted(rp_list,
                                        key=lambda k: k.get('score', 0),
                                        reverse=True)
          matching_rate_plans.append(p_dict)
]] *)
Definition product_with_rate_plans (filter_ : dict)
    (product_rate_plan_dict product_rate_plan_charge_dict
     product_rate_plan_charge_tier_dict : groups) (item : atom * dict)
  : result dict :=
  let '(product_id, p_dict) := item in
  rp_list <~ product_rp_list filter_ product_rate_plan_dict
               product_rate_plan_charge_dict
               product_rate_plan_charge_tier_dict product_id ;;
  Ok (dict_set (AStr "rate_plans")
        (PList (map PDict (sorted score_key true rp_list))) p_dict).

(** [[
      # Combine Dictionaries
      for product_id, p_dict in product_dict.items():
          rp_list = []
          for rate_plan_id, rp_dict in product_rate_plan_dict\
                                          .get(product_id, {}).items():
              ...
          p_dict["rate_plans"] = sorted(rp_list,
                                        key=lambda k: k.get('score', 0),
                                        reverse=True)
          matching_rate_plans.append(p_dict)
      return matching_rate_plans
]] *)
Definition combine (filter_ : dict) (product_dict : list (atom * dict))
    (product_rate_plan_dict product_rate_plan_charge_dict
     product_rate_plan_charge_tier_dict : groups) : result (list dict) :=
  collect
    (product_with_rate_plans filter_ product_rate_plan_dict
       product_rate_plan_charge_dict product_rate_plan_charge_tier_dict)
    product_dict.

(** The join of the four batches of records that the engine fetches: each
    is converted, then the dictionaries are combined. *)
Definition join_batches (filter_ : dict)
    (products plans charges tiers : list record) : result (list dict) :=
  product_dict <~ camel_converted_products products ;;
  product_rate_plan_dict <~ camel_converted_product_rate_plans false plans ;;
  product_rate_plan_charge_dict <~
    camel_converted_product_rate_plan_charges charges ;;
  product_rate_plan_charge_tier_dict <~
    camel_converted_product_rate_plan_charge_tiers tiers ;;
  combine filter_ product_dict product_rate_plan_dict
    product_rate_plan_charge_dict product_rate_plan_charge_tier_dict.

(** [prp_id_list += prp_dict.keys()] over the groups. *)
Definition all_ids (d : groups) : list atom :=
  fold_left (fun id_list item => (id_list ++ keys (snd item))%list) d [].

(** [[
  def match_product_rate_plans(self, shortcodes=[], filter_={}):
      matching_rate_plans = []
      qs_datetime_now = datetime.utcnow().strftime(SOAP_TIMESTAMP)
      product_dict = self.get_camel_converted_products(shortcodes=shortcodes)
      product_rate_plan_dict = self.get_camel_converted_product_rate_plans(
                                      product_id_list=product_dict.keys(),
                                      effective_start=qs_datetime_now)
      prp_id_list = []
      for product_id, prp_dict in product_rate_plan_dict.items():
          prp_id_list += prp_dict.keys()
      product_rate_plan_charge_dict = \
              self.get_camel_converted_product_rate_plan_charges(
                                      product_rate_plan_id_list=prp_id_list)
      prpc_id_list = []
      for prp_id, prpc_dict in product_rate_plan_charge_dict.items():
          prpc_id_list += prpc_dict.keys()
      product_rate_plan_charge_tier_dict = \
                  self.get_camel_converted_product_rate_plan_charge_tiers(
                              product_rate_plan_charge_id_list=prpc_id_list)
      # Combine Dictionaries
      ...
      return matching_rate_plans
]] *)
Definition match_product_rate_plans (shortcodes : list atom) (filter_ : dict)
  : M (list dict) :=
  let qs_datetime_now := AStr utcnow in
  product_dict <- get_camel_converted_products ANone shortcodes ;;
  product_rate_plan_dict <-
    get_camel_converted_product_rate_plans ANone (keys product_dict)
      qs_datetime_now ANone ;;
  let prp_id_list := all_ids product_rate_plan_dict in
  product_rate_plan_charge_dict <-
    get_camel_converted_product_rate_plan_charges ANone prp_id_list ;;
  let prpc_id_list := all_ids product_rate_plan_charge_dict in
  product_rate_plan_charge_tier_dict <-
    get_camel_converted_product_rate_plan_charge_tiers prpc_id_list ;;
  lift (combine filter_ product_dict product_rate_plan_dict
          product_rate_plan_charge_dict product_rate_plan_charge_tier_dict).

(** ** Pricing aggregate *)

(** A running total: the integer [0] it starts from, or a float. *)
Inductive num :=
| NInt (z : Z)
| NFloat (q : Q).

Definition pricing := list (atom * list (atom * num)).

(** [float(v)] *)
Definition py_float (v : pyval) : result Q :=
  match v with
  | PAtom (AStr s) =>
      match float_of s with
      | Some q => Ok q
      | None => Raise ValueError
      end
  | PAtom (AInt z) => Ok (inject_Z z)
  | PAtom (ABool b) => Ok (inject_Z (if b then 1 else 0))
  | _ => Raise TypeError
  end.

(** [price + x] for a float [x] *)
Definition add_float (price : num) (x : Q) : num :=
  match price with
  | NInt z => NFloat (Qred (inject_Z z + x))
  | NFloat q => NFloat (Qred (q + x))
  end.

(** [v.lower()] *)
Definition py_lower (v : pyval) : result string :=
  match v with
  | PAtom (AStr s) => Ok (lower s)
  | _ => Raise (AttributeError "lower")
  end.

(** [[
          for rpct in rpc["rate_charge_tiers"]:
              is_overage_price = rpct["is_overage_price"]
              if not is_overage_price:
                  price = price + float(rpct["price"])
]] *)
Definition add_tier (price : num) (rpct : pyval) : result num :=
  is_overage_price <~ py_getitem rpct (AStr "is_overage_price") ;;
  if negb (truthy is_overage_price) then
    p <~ py_getitem rpct (AStr "price") ;;
    x <~ py_float p ;;
    Ok (add_float price x)
  else Ok price.

(** The elements that a [for] loop over [v] meets; a string that is not
    empty yields its characters, which cannot be indexed by a key. *)
Definition tiers_of (v : pyval) : result (list pyval) :=
  match v with
  | PList l => Ok l
  | PAtom (AStr "") => Ok []
  | PDict d => Ok (map PAtom (keys d))
  | _ => Raise TypeError
  end.

(** [[
      for _, rpc in product_rate_plan_charge_dict.items():
          charge_model = rpc["charge_model"].lower()
          charge_type = rpc["charge_type"].lower()
          pricing_dict[charge_model] = pricing_dict.get(charge_model, {})
          pricing_dict[charge_model][charge_type]\
              = pricing_dict[charge_model].get(charge_type, 0)
          price = pricing_dict[charge_model][charge_type]
          for rpct in rpc["rate_charge_tiers"]:
              ...
          pricing_dict[charge_model][charge_type] = price
]] *)
Definition aggregate_charge (pricing_dict : pricing) (item : atom * dict)
  : result pricing :=
  let rpc := snd item in
  charge_model <~ getitem (AStr "charge_model") rpc ;;
  charge_model <~ py_lower charge_model ;;
  charge_type <~ getitem (AStr "charge_type") rpc ;;
  charge_type <~ py_lower charge_type ;;
  let by_type := get_default (AStr charge_model) [] pricing_dict in
  let price := get_default (AStr charge_type) (NInt 0) by_type in
  let by_type := dict_set (AStr charge_type) price by_type in
  let pricing_dict := dict_set (AStr charge_model) by_type pricing_dict in
  tiers <~ getitem (AStr "rate_charge_tiers") rpc ;;
  tiers <~ tiers_of tiers ;;
  price <~ for_each add_tier tiers price ;;
  Ok (dict_set (AStr charge_model)
        (dict_set (AStr charge_type) price by_type) pricing_dict).

(** [[
      for rpc_id, rpct_dict in product_rate_plan_charges_tier_dict.items():
          rate_charge_tiers = product_rate_plan_charge_dict[rpc_id]\
                              .get("rate_charge_tiers", [])
          rate_charge_tiers += rpct_dict.values()
          product_rate_plan_charge_dict[rpc_id]["rate_charge_tiers"] =\
                                                      rate_charge_tiers
]] *)
Definition attach_tiers (product_rate_plan_charge_dict : list (atom * dict))
    (item : atom * list (atom * dict)) : result (list (atom * dict)) :=
  let '(rpc_id, rpct_dict) := item in
  rpc <~ getitem rpc_id product_rate_plan_charge_dict ;;
  match get_default (AStr "rate_charge_tiers") (PList []) rpc with
  | PList rate_charge_tiers =>
      let rate_charge_tiers :=
        (rate_charge_tiers ++ map PDict (values rpct_dict))%list in
      Ok (dict_set rpc_id
            (dict_set (AStr "rate_charge_tiers") (PList rate_charge_tiers) rpc)
            product_rate_plan_charge_dict)
  | _ => Raise TypeError
  end.

(** [[
  def get_product_rate_plan_charge_pricing(self, product_rate_plan_id):
      products_rate_plan_charge_dict = \
              self.get_camel_converted_product_rate_plan_charges(
                          product_rate_plan_id=product_rate_plan_id)
      product_rate_plan_charge_dict = \
                      products_rate_plan_charge_dict[product_rate_plan_id]
      product_rate_plan_charges_tier_dict = \
                  self.get_camel_converted_product_rate_plan_charge_tiers(
                                  product_rate_plan_charge_id_list=
                                  product_rate_plan_charge_dict.keys())
      for rpc_id, rpct_dict in product_rate_plan_charges_tier_dict.items():
          ...
      pricing_dict = {}
      for _, rpc in product_rate_plan_charge_dict.items():
          ...
      return pricing_dict
]] *)
Definition get_product_rate_plan_charge_pricing (product_rate_plan_id : atom)
  : M pricing :=
  products_rate_plan_charge_dict <-
    get_camel_converted_product_rate_plan_charges product_rate_plan_id [] ;;
  product_rate_plan_charge_dict <-
    lift (getitem product_rate_plan_id products_rate_plan_charge_dict) ;;
  product_rate_plan_charges_tier_dict <-
    get_camel_converted_product_rate_plan_charge_tiers
      (keys product_rate_plan_charge_dict) ;;
  product_rate_plan_charge_dict <-
    lift (for_each attach_tiers product_rate_plan_charges_tier_dict
            product_rate_plan_charge_dict) ;;
  lift (for_each aggregate_charge product_rate_plan_charge_dict []).

(** ** Builders *)

(** A dictionary of scalars supplied by the caller ([user],
    [billing_address]); [None] stands for an argument left out. *)
Definition adict := list (atom * atom).

Definition adict_truthy (d : option adict) : bool :=
  match d with
  | Some (_ :: _) => true
  | _ => false
  end.

(** [[
def name_underscore_fix(name_field):
  if name_field and name_field != '':
      return name_field
  return '_'
]] *)
Definition name_underscore_fix (name_field : atom) : atom :=
  if atom_truthy name_field && negb (atom_eqb name_field (AStr ""))
  then name_field
  else AStr "_".

(** The part of [make_account] that builds the object:
    [[
      if not user:
          raise MissingRequired("No User Selected.")
      today = date.today()
      zAccount = self.client.factory.create('ns2:Account')
      zAccount.AccountNumber = "A-%s" % user["id"]
      zAccount.AllowInvoiceEdit = True
      zAccount.AutoPay = False
      zAccount.Batch = 'Batch1'
      zAccount.BillCycleDay = today.day
      zAccount.CrmId = str(user["id"])
      zAccount.Currency = currency
      if billing_address and billing_address["last_name"] != '' and \
         billing_address["first_name"] != '':
          zAccount.Name = "%s, %s"[0:50] % \
                      (billing_address["last_name"],
                       billing_address["first_name"])
      else:
          zAccount.Name = "%s, %s"[0:50] % \
                          (name_underscore_fix(user["last_name"]),
                           name_underscore_fix(user["first_name"]))
      zAccount.PaymentTerm = 'Due Upon Receipt'
      zAccount.Status = status
      if self.authorize_gateway:
          zAccount.PaymentGateway = self.authorize_gateway
      if self.create_test_users:
          zAccount.Test_Account__c = 1
          zAccount.User_Site__c = "staging"
      if site_name:
          zAccount.User_Site__c = site_name
]] *)
Definition build_account (user : option adict) (currency status : atom)
    (site_name : atom) (billing_address : option adict) : result record :=
  if negb (adict_truthy user) then Raise (MissingRequired "No User Selected.")
  else
    let user := match user with Some u => u | None => [] end in
    let zAccount := factory_create "ns2:Account" in
    id <~ getitem (AStr "id") user ;;
    let zAccount := setattr "AccountNumber" (AStr ("A-" ++ py_str id)) zAccount in
    let zAccount := setattr "AllowInvoiceEdit" (ABool true) zAccount in
    let zAccount := setattr "AutoPay" (ABool false) zAccount in
    let zAccount := setattr "Batch" (AStr "Batch1") zAccount in
    let zAccount := setattr "BillCycleDay" (AInt today_day) zAccount in
    let zAccount := setattr "CrmId" (AStr (py_str id)) zAccount in
    let zAccount := setattr "Currency" currency zAccount in
    let from_user zAccount :=
      last_name <~ getitem (AStr "last_name") user ;;
      first_name <~ getitem (AStr "first_name") user ;;
      Ok (setattr "Name"
            (AStr (py_str (name_underscore_fix last_name) ++ ", "
                   ++ py_str (name_underscore_fix first_name))) zAccount) in
    zAccount <~
      (match billing_address with
       | Some ((_ :: _) as address) =>
           last_name <~ getitem (AStr "last_name") address ;;
           if negb (atom_eqb last_name (AStr "")) then
             first_name <~ getitem (AStr "first_name") address ;;
             if negb (atom_eqb first_name (AStr "")) then
               Ok (setattr "Name"
                     (AStr (py_str last_name ++ ", " ++ py_str first_name))
                     zAccount)
             else from_user zAccount
           else from_user zAccount
       | _ => from_user zAccount
       end) ;;
    let zAccount := setattr "PaymentTerm" (AStr "Due Upon Receipt") zAccount in
    let zAccount := setattr "Status" status zAccount in
    let zAccount :=
      if atom_truthy authorize_gateway
      then setattr "PaymentGateway" authorize_gateway zAccount
      else zAccount in
    let zAccount :=
      if atom_truthy create_test_users
      then setattr "User_Site__c" (AStr "staging")
             (setattr "Test_Account__c" (AInt 1) zAccount)
      else zAccount in
    let zAccount :=
      if atom_truthy site_name
      then setattr "User_Site__c" site_name zAccount
      else zAccount in
    Ok zAccount.

(** [[
      if not isinstance(response, list) or not response[0].Success:
          raise ZuoraException(text % response)
]]
    followed by the read of [response[0].Id]. *)
Definition created_id (text : string) (response : remote_value) : result atom :=
  match response with
  | VList l =>
      match l with
      | [] => Raise IndexError
      | first :: _ =>
          success <~ getattr "Success" first ;;
          if negb (atom_truthy success)
          then Raise (ZuoraException text (Some response))
          else getattr "Id" first
      end
  | _ => Raise (ZuoraException text (Some response))
  end.

(** [[
  def make_account(self, user=None, currency='USD', status="Draft",
          lazy=False, site_name=None, billing_address=None):
      ...
      if lazy:
          return zAccount
      response = self.create(zAccount)
      if not isinstance(response, list) or not response[0].Success:
          raise ZuoraException(
              "Unknown Error creating Account. %s" % response)
      zAccount.Id = response[0].Id
      return zAccount
]]
    The method returns, next to its outcome, the account object as the
    method leaves it (nothing when it was not built). *)
Definition make_account (user : option adict) (currency status : atom)
    (lazy : bool) (site_name : atom) (billing_address : option adict)
  : client -> (result record * option record) * client :=
  fun st =>
    match build_account user currency status site_name billing_address with
    | Raise e => ((Raise e, None), st)
    | Ok zAccount =>
        if lazy then ((Ok zAccount, Some zAccount), st)
        else
          match create zAccount st with
          | (Raise e, st') => ((Raise e, Some zAccount), st')
          | (Ok response, st') =>
              match created_id "Unknown Error creating Account. " response with
              | Raise e => ((Raise e, Some zAccount), st')
              | Ok id =>
                  let zAccount := setattr "Id" id zAccount in
                  ((Ok zAccount, Some zAccount), st')
              end
          end
    end.

(** ** More fetchers *)

(** The test shared by the single-entity fetchers,
    [[
        if getattr(response, "records") and len(response.records) > 0:
            return response.records[0]
        else:
            raise DoesNotExist(message)
]] *)
Definition first_record (response : response) (message : string) : result record :=
  recs <~ get_records response ;;
  match recs with
  | first :: _ => Ok first
  | [] => Raise (DoesNotExist message)
  end.

(** [[
    def get_contact(self, email=None, account_id=None):
        qs_filter = []
        if account_id:
            qs_filter.append("AccountId = '%s'" % account_id)
        if email:
            qs_filter.append("PersonalEmail = '%s'" % email)
        qs = ''' SELECT ... FROM Contact WHERE %s
            ''' % " AND ".join(qs_filter)
        response = self.query(qs)
        if getattr(response, "records") and len(response.records) > 0:
            zContact = response.records[0]
            return zContact
        else:
            raise DoesNotExist("Unable to find Contact for Email %s"
                            % email)
]] *)
Definition get_contact (email account_id : atom) : M record :=
  let qs_filter : list string := [] in
  let qs_filter :=
    if atom_truthy account_id
    then (qs_filter ++ [("AccountId = '" ++ py_str account_id ++ "'")%string])%list
    else qs_filter in
  let qs_filter :=
    if atom_truthy email
    then (qs_filter ++ [("PersonalEmail = '" ++ py_str email ++ "'")%string])%list
    else qs_filter in
  let qs := "
            SELECT
                AccountId, Address1, Address2, City, Country, County,
                CreatedById, CreatedDate, Description, Fax, FirstName,
                HomePhone, Id, LastName, MobilePhone, NickName, OtherPhone,
                OtherPhoneType, PersonalEmail, PostalCode, State, TaxRegion,
                UpdatedById, UpdatedDate, WorkEmail, WorkPhone
            FROM Contact
            WHERE " ++ join " AND " qs_filter ++ "
            " in
  response <- query qs ;;
  lift (first_record response
          ("Unable to find Contact for Email " ++ py_str email)).

(** [[
    def get_payment_method(self, payment_method_id):
        qs = ''' SELECT ... FROM PaymentMethod WHERE Id = '%s'
            ''' % payment_method_id
        response = self.query(qs)
        if getattr(response, "records") and len(response.records) > 0:
            zPaymentMethod = response.records[0]
            return zPaymentMethod
        else:
            raise DoesNotExist("Unable to find Payment Method for %s. %s"
                            % (payment_method_id, response))
]]
    The message ends with the response, which is not rendered. *)
Definition payment_method_fields : string := "
                AccountId, Active,
                CreatedById, CreatedDate,
                CreditCardAddress1, CreditCardAddress2,
                CreditCardCity, CreditCardCountry,
                CreditCardExpirationMonth, CreditCardExpirationYear,
                CreditCardHolderName, CreditCardMaskNumber,
                CreditCardPostalCode, CreditCardState, CreditCardType,
                Email, Name, PaypalBaid, PaypalEmail,
                PaypalPreapprovalKey, PaypalType, Phone, Type".

Definition get_payment_method (payment_method_id : atom) : M record :=
  let qs := "
            SELECT" ++ payment_method_fields ++ "
            FROM PaymentMethod
            WHERE Id = '" ++ py_str payment_method_id ++ "'
            " in
  response <- query qs ;;
  lift (first_record response
          ("Unable to find Payment Method for " ++ py_str payment_method_id
           ++ ". ")).

(** [[
    def get_payment_methods(self, account_id=None, account_number=None,
                            email=None, phone=None):
        qs_filter = []
        if account_number:
            qs = ''' SELECT DefaultPaymentMethodId FROM Account
                WHERE AccountNumber = '%s' or AccountNumber = 'A-%s'
                ''' % (account_number, account_number)
            response = self.query(qs)
            if getattr(response, "records") and len(response.records) > 0:
                zAccount = response.records[0]
                try:
                    payment_method_id = zAccount.DefaultPaymentMethodId
                except:
                    return []
                return [self.get_payment_method(payment_method_id)]
        if account_id:
            qs_filter.append("AccountId = '%s'" % account_id)
        if email:
            qs_filter.append("Email = '%s'" % email)
        if phone:
            qs_filter.append("Phone = '%s'" % phone)
        if qs_filter:
            qs = ''' SELECT ... FROM PaymentMethod WHERE %s
                ''' % " AND ".join(qs_filter)
            response = self.query(qs)
            zPaymentMethods = response.records
            return zPaymentMethods
        return []
]] *)
Definition get_payment_methods (account_id account_number email phone : atom)
  : M (list record) :=
  let by_filters : M (list record) :=
    let qs_filter : list string := [] in
    let qs_filter :=
      if atom_truthy account_id
      then (qs_filter ++ [("AccountId = '" ++ py_str account_id ++ "'")%string])%list
      else qs_filter in
    let qs_filter :=
      if atom_truthy email
      then (qs_filter ++ [("Email = '" ++ py_str email ++ "'")%string])%list
      else qs_filter in
    let qs_filter :=
      if atom_truthy phone
      then (qs_filter ++ [("Phone = '" ++ py_str phone ++ "'")%string])%list
      else qs_filter in
    match qs_filter with
    | _ :: _ =>
        let qs := "
                SELECT" ++ payment_method_fields ++ "
                FROM PaymentMethod
                WHERE " ++ join " AND " qs_filter ++ "
                " in
        response <- query qs ;;
        lift (get_records response)
    | [] => ret []
    end in
  if atom_truthy account_number then
    let qs := "
                SELECT
                    DefaultPaymentMethodId
                FROM Account
                WHERE AccountNumber = '" ++ py_str account_number
                  ++ "' or AccountNumber = 'A-" ++ py_str account_number ++ "'
                " in
    response <- query qs ;;
    recs <- lift (get_records response) ;;
    match recs with
    | zAccount :: _ =>
        match getattr "DefaultPaymentMethodId" zAccount with
        | Raise _ => ret []
        | Ok payment_method_id =>
            zPaymentMethod <- get_payment_method payment_method_id ;;
            ret [zPaymentMethod]
        end
    | [] => by_filters
    end
  else by_filters.

(** [[
    def get_rate_plans(self, product_rate_plan_id=None, subscription_id=None):
        qs_filter = []
        if product_rate_plan_id:
            qs_filter.append("ProductRatePlanId = '%s'" % product_rate_plan_id)
        if subscription_id:
            qs_filter.append("SubscriptionId = '%s'" % subscription_id)
        qs = ''' SELECT ... FROM RatePlan '''
        if qs_filter:
            qs += "WHERE %s" % " AND ".join(qs_filter)
        response = self.query(qs)
        zRecords = response.records
        return zRecords
]] *)
Definition get_rate_plans (product_rate_plan_id subscription_id : atom)
  : M (list record) :=
  let qs_filter : list string := [] in
  let qs_filter :=
    if atom_truthy product_rate_plan_id
    then (qs_filter
          ++ [("ProductRatePlanId = '" ++ py_str product_rate_plan_id ++ "'")%string])%list
    else qs_filter in
  let qs_filter :=
    if atom_truthy subscription_id
    then (qs_filter
          ++ [("SubscriptionId = '" ++ py_str subscription_id ++ "'")%string])%list
    else qs_filter in
  let qs := "
            SELECT
                AmendmentId, AmendmentSubscriptionRatePlanId,
                AmendmentType, CreatedById, CreatedDate, Name,
                ProductRatePlanId, SubscriptionId,
                UpdatedById, UpdatedDate
            FROM RatePlan
            " in
  let qs :=
    match qs_filter with
    | _ :: _ => qs ++ "WHERE " ++ join " AND " qs_filter
    | [] => qs
    end in
  response <- query qs ;;
  lift (get_records response).

End Client.
End Zuora.

(* ================================================================== *)
(** * The serializer *)
(* ================================================================== *)

Module Serializer.
Import Str Normalizer Py Zuora.
Local Open Scope py_scope.

(** What [zuora_serialize] is given: a scalar, a list, or an object of the
    remote service with its attributes, which hold such values in turn. *)
#[warnings="-register-all"]
Inductive sobj :=
| SAtom (a : atom)
| SList (l : list sobj)
| SObj (attrs : list (string * sobj)).

(** [isinstance(v, allowed)] for one of the basic types [str], [int],
    [float], [unicode], [date], [datetime], [long]; a [bool] is an [int]. *)
Definition is_allowed (v : sobj) : option atom :=
  match v with
  | SAtom ANone => None
  | SAtom a => Some a
  | _ => None
  end.

(** [[
def zuora_serialize(obj):
    basic_serializer = [str, int, float, unicode, date, datetime, long]
    if not obj:
        return None
    if isinstance(obj, list):
        obj_list = []
        for item in obj:
            obj_list.append(zuora_serialize(item))
        return obj_list
    else:
        obj_dict = {}
        for attr in obj:
            key = convert_camel(attr[0].replace("__c", ""))
            is_allowed = False
            for allowed in basic_serializer:
                if isinstance(attr[1], allowed):
                    is_allowed = True
            if is_allowed:
                obj_dict[key] = attr[1]
            else:
                obj_dict[key] = zuora_serialize(attr[1])
        return obj_dict
]]
    A scalar that is true is not a list, and the loop over its attributes
    fails: the characters of a string have no second item ([IndexError]),
    and a number cannot be iterated ([TypeError]). *)
Fixpoint zuora_serialize (obj : sobj) : result pyval :=
  match obj with
  | SAtom a =>
      if negb (atom_truthy a) then Ok (PAtom ANone)
      else match a with
           | AStr _ => Raise IndexError
           | _ => Raise TypeError
           end
  | SList [] => Ok (PAtom ANone)
  | SList l =>
      obj_list <~
        (fix items (l : list sobj) (obj_list : list pyval) : result (list pyval) :=
           match l with
           | [] => Ok obj_list
           | item :: r =>
               v <~ zuora_serialize item ;;
               items r (obj_list ++ [v])%list
           end) l [] ;;
      Ok (PList obj_list)
  | SObj [] => Ok (PAtom ANone)
  | SObj attrs =>
      obj_dict <~
        (fix fields (attrs : list (string * sobj)) (obj_dict : dict) : result dict :=
           match attrs with
           | [] => Ok obj_dict
           | (name, v) :: r =>
               let key := convert_camel (replace_marker name) in
               match is_allowed v with
               | Some a => fields r (dict_set (AStr key) (PAtom a) obj_dict)
               | None =>
                   s <~ zuora_serialize v ;;
                   fields r (dict_set (AStr key) s obj_dict)
               end
           end) attrs [] ;;
      Ok (PDict obj_dict)
  end.

(** [[
def zuora_serialize_list(response_list):
    serialized_list = []
    if response_list:
        for item in response_list:
            serialized_list.append(zuora_serialize(item))
    return serialized_list
]]
    with [None] for an argument that is [None]. *)
Definition zuora_serialize_list (response_list : option (list sobj))
  : result (list pyval) :=
  match response_list with
  | Some ((_ :: _) as l) => collect zuora_serialize l
  | _ => Ok []
  end.

(** A serialized value whose dictionaries, at every depth, have texts in
    lower case for keys. *)
Fixpoint lower_keys (v : pyval) : bool :=
  match v with
  | PAtom _ => true
  | PList l => forallb lower_keys l
  | PDict d =>
      forallb (fun kv : atom * pyval =>
                 match fst kv with
                 | AStr s => no_upper s
                 | _ => false
                 end && lower_keys (snd kv)) d
  end.

End Serializer.

(* ================================================================== *)
(** * Concrete collaborators and catalogs *)
(* ================================================================== *)

(** Instances of the collaborators on which the methods can be run: a remote
    service that serves four tables, a matcher for patterns without
    metacharacters, a reader of decimal integers. *)
Module Scenario.
Import Str Normalizer Py Zuora.

Definition login_ok : list request -> atom + string :=
  fun _ => inl (AStr "session").

(** Answers a query from the table named in its [FROM] clause. *)
Definition catalog_service (products plans charges tiers : list record)
  : list request -> string -> response + string :=
  fun _ q =>
    if contains "FROM ProductRatePlanChargeTier" q
    then inl {| records := Some tiers |}
    else if contains "FROM ProductRatePlanCharge" q
    then inl {| records := Some charges |}
    else if contains "FROM ProductRatePlan" q
    then inl {| records := Some plans |}
    else if contains "FROM Product" q
    then inl {| records := Some products |}
    else inr "unknown object".

(** [re.match] of a pattern made of letters and digits only, compiled with
    [re.IGNORECASE]: the subject starts with the pattern, case ignored.  This
    instance knows no other pattern and reports any other as one that does
    not compile. *)
Fixpoint letters_and_digits (p : string) : bool :=
  match p with
  | EmptyString => true
  | String c r =>
      (is_upper c || is_lower c || is_digit c) && letters_and_digits r
  end.

Definition re_valid_literal : string -> bool := letters_and_digits.
Definition re_match_literal (p s : string) : bool :=
  starts_with (lower p) (lower s).

(** [float] on the decimal writing of an integer. *)
Definition float_of_integer (s : string) : option Q :=
  match NilZero.int_of_string s with
  | Some i => Some (inject_Z (Z.of_int i))
  | None => None
  end.

Definition now : string := "2026-11-04T12:00:00-06:00".

Definition run_match products plans charges tiers shortcodes filter_ :=
  match_product_rate_plans "user" "secret" login_ok
    (catalog_service products plans charges tiers)
    re_valid_literal re_match_literal now shortcodes filter_ new_client.

Definition run_pricing products plans charges tiers product_rate_plan_id :=
  get_product_rate_plan_charge_pricing "user" "secret" login_ok
    (catalog_service products plans charges tiers)
    float_of_integer product_rate_plan_id new_client.

(** Reading the answer of the matching engine: the value of [field] in each
    rate plan of each product, and in each charge of each rate plan. *)
Definition field_of (field : string) (v : pyval) : pyval :=
  match v with
  | PDict d => get_default (AStr field) (PAtom ANone) d
  | _ => PAtom ANone
  end.

Definition elements (v : pyval) : list pyval :=
  match v with
  | PList l => l
  | _ => []
  end.

Definition plans_by (field : string) (matching_rate_plans : list dict)
  : list (list pyval) :=
  map (fun p_dict =>
         map (field_of field) (elements (field_of "rate_plans" (PDict p_dict))))
      matching_rate_plans.

Definition charges_by (field : string) (matching_rate_plans : list dict)
  : list (list (list pyval)) :=
  map (fun p_dict =>
         map (fun rp => map (field_of field)
                          (elements (field_of "rate_plan_charges" rp)))
             (elements (field_of "rate_plans" (PDict p_dict))))
      matching_rate_plans.

(** ** A catalog for the order of charges *)

Definition one_product : list record :=
  [[("Id", AStr "p1"); ("Name", AStr "Premium"); ("ShortCode__c", AStr "PREM")]].

Definition one_plan : list record :=
  [[("Id", AStr "rp1"); ("ProductId", AStr "p1"); ("Name", AStr "Monthly")]].

(** Three charges of the plan: sort order 2, no sort order, sort order 1. *)
Definition charges_2_none_1 : list record :=
  [[("Id", AStr "c1"); ("ProductRatePlanId", AStr "rp1"); ("SortOrder__c", AStr "2")];
   [("Id", AStr "c2"); ("ProductRatePlanId", AStr "rp1")];
   [("Id", AStr "c3"); ("ProductRatePlanId", AStr "rp1"); ("SortOrder__c", AStr "1")]].

(** ** A catalog for the order of rate plans *)

(** Four plans of the product, met in the order A, B, C, D; none has a
    priority, and they match 3, 1, 3 and 0 fields of [filter_3]. *)
Definition plans_ABCD : list record :=
  [[("Id", AStr "A"); ("ProductId", AStr "p1"); ("Site__c", AStr "run");
    ("Gender__c", AStr "f"); ("AgeGroup__c", AStr "adult")];
   [("Id", AStr "B"); ("ProductId", AStr "p1"); ("Site__c", AStr "run");
    ("Gender__c", AStr "m"); ("AgeGroup__c", AStr "senior")];
   [("Id", AStr "C"); ("ProductId", AStr "p1"); ("Site__c", AStr "run");
    ("Gender__c", AStr "f"); ("AgeGroup__c", AStr "adult")];
   [("Id", AStr "D"); ("ProductId", AStr "p1"); ("Site__c", AStr "ride");
    ("Gender__c", AStr "m"); ("AgeGroup__c", AStr "senior")]].

Definition filter_3 : dict :=
  [(AStr "site", PStr "run"); (AStr "gender", PStr "f");
   (AStr "age_group", PStr "adult")].

(** Two plans of the product with the priorities 9 and 10, in the two
    orders in which they can be met. *)
Definition plan_P9 : record :=
  [("Id", AStr "P9"); ("ProductId", AStr "p1"); ("Priority__c", AInt 9)].

Definition plan_P10 : record :=
  [("Id", AStr "P10"); ("ProductId", AStr "p1"); ("Priority__c", AInt 10)].

(** A plan with the priority 1 that matches no field of [filter_3], and a
    plan without priority that matches its three fields. *)
Definition plan_Pr1 : record :=
  [("Id", AStr "Pr1"); ("ProductId", AStr "p1"); ("Priority__c", AInt 1)].

Definition plan_M3 : record :=
  [("Id", AStr "M3"); ("ProductId", AStr "p1"); ("Site__c", AStr "run");
   ("Gender__c", AStr "f"); ("AgeGroup__c", AStr "adult")].

(** ** A catalog for the pricing aggregate *)

(** Two charges of the plan, both flat fee and recurring, each with one tier
    that is not an overage tier, priced 10 and 5. *)
Definition charges_flatfee : list record :=
  [[("Id", AStr "c1"); ("ProductRatePlanId", AStr "rp1");
    ("ChargeModel", AStr "FlatFee"); ("ChargeType", AStr "Recurring")];
   [("Id", AStr "c2"); ("ProductRatePlanId", AStr "rp1");
    ("ChargeModel", AStr "FlatFee"); ("ChargeType", AStr "Recurring")]].

Definition tiers_10_5 : list record :=
  [[("Id", AStr "t1"); ("ProductRatePlanChargeId", AStr "c1");
    ("Price", AStr "10"); ("IsOveragePrice", ABool false)];
   [("Id", AStr "t2"); ("ProductRatePlanChargeId", AStr "c2");
    ("Price", AStr "5"); ("IsOveragePrice", ABool false)]].

(** ** A catalog with orphans *)

Definition orphan_plan : record :=
  [("Id", AStr "rpX"); ("ProductId", AStr "pX"); ("Site__c", AStr "(")].

Definition orphan_charge : record :=
  [("Id", AStr "cX"); ("ProductRatePlanId", AStr "rpY")].

Definition orphan_tier : record :=
  [("Id", AStr "tX"); ("ProductRatePlanChargeId", AStr "cY"); ("Price", AStr "1")].

(** ** Queries *)

(** The query text of [get_account], as sent. *)
Definition account_query_32432 : string :=
  "SELECT Id FROM Account WHERE AccountNumber = '32432' or AccountNumber = 'A-32432'".

(** The part of a query after [WHERE], with the keywords of the query
    language, which it reads in either case, written in capitals. *)
Definition upper_keyword (w : string) : string :=
  if String.eqb w "or" then "OR"
  else if String.eqb w "and" then "AND"
  else w.

Fixpoint after_where (words : list string) : list string :=
  match words with
  | [] => []
  | w :: r => if String.eqb w "WHERE" then r else after_where r
  end.

Definition where_clause (q : string) : string :=
  join " " (map upper_keyword (after_where (split q))).

(** ** Accounts *)

Definition a_user : adict :=
  [(AStr "id", AInt 32432); (AStr "first_name", AStr "Ada");
   (AStr "last_name", AStr "Lovelace")].

Definition empty_factory : string -> record := fun _ => [].

Definition run_make_account (service_create : list request -> record -> remote_value + string) :=
  make_account "user" "secret" ANone ANone login_ok service_create
    empty_factory 4 (Some a_user) (AStr "USD") (AStr "Draft") false ANone None
    new_client.

End Scenario.

(* ================================================================== *)
(** * Key normalization: properties *)
(* ================================================================== *)

Module NormalizerFacts.
Import Str Normalizer.

Example first_cap_ShortCode : first_cap_sub "ShortCode" = "Short_Code".
Proof. reflexivity. Qed.

Example convert_ShortCode : convert_camel "ShortCode" = "short_code".
Proof. reflexivity. Qed.

Example convert_acronym :
  convert_camel "getHTTPResponseCode" = "get_http_response_code".
Proof. reflexivity. Qed.

Example convert_ProductRatePlanId :
  normalize_key "ProductRatePlanId" = "product_rate_plan_id".
Proof. reflexivity. Qed.

Example convert_IsOveragePrice :
  normalize_key "IsOveragePrice" = "is_overage_price".
Proof. reflexivity. Qed.

Example convert_custom : normalize_key "CustomImageURL__c" = "custom_image_url".
Proof. reflexivity. Qed.

Example strip_only_trailing : strip_trailing_marker "A__cB__c" = "A__cB".
Proof. reflexivity. Qed.

(** ** Lower-case strings *)

Lemma lower_char_not_upper c : is_upper (lower_char c) = false.
Proof.
  destruct c as [[] [] [] [] [] [] [] []]; reflexivity.
Qed.

Lemma lower_char_id c : is_upper c = false -> lower_char c = c.
Proof. unfold lower_char. now intros ->. Qed.

Lemma no_upper_lower s : no_upper (lower s) = true.
Proof.
  induction s as [|c s IH]; simpl; [reflexivity|].
  now rewrite lower_char_not_upper, IH.
Qed.

Lemma lower_id s : no_upper s = true -> lower s = s.
Proof.
  induction s as [|c s IH]; simpl; [reflexivity|].
  intros H. apply andb_true_iff in H as [Hc Hs].
  apply negb_true_iff in Hc.
  now rewrite lower_char_id, IH.
Qed.

(** A pass of [re.sub] leaves a string without capitals as it is: both
    patterns need a capital. *)
Lemma first_cap_scan_id st s : no_upper s = true -> first_cap_scan st s = s.
Proof.
  revert st. induction s as [|c s IH]; intros st H; [reflexivity|].
  simpl in H. apply andb_true_iff in H as [_ Hs].
  assert (Hscan : match s with
                  | String u (String l _) =>
                      if is_dot c && is_upper u && is_lower l
                      then String c (String "_" (first_cap_scan Cap s))
                      else String c (first_cap_scan Scan s)
                  | _ => String c (first_cap_scan Scan s)
                  end = String c s).
  { rewrite (IH Scan Hs).
    destruct s as [|u [|l r]]; try reflexivity.
    simpl in Hs. apply andb_true_iff in Hs as [Hu _].
    apply negb_true_iff in Hu. now rewrite Hu, andb_false_r. }
  destruct st; cbn [first_cap_scan].
  - exact Hscan.
  - now rewrite (IH Run Hs).
  - destruct (is_lower c); [now rewrite (IH Run Hs) | exact Hscan].
Qed.

Lemma all_cap_scan_id skip s : no_upper s = true -> all_cap_scan skip s = s.
Proof.
  revert skip. induction s as [|c s IH]; intros skip H; [reflexivity|].
  simpl in H. apply andb_true_iff in H as [_ Hs].
  cbn [all_cap_scan]. destruct skip; [now rewrite IH|].
  destruct s as [|u r]; [reflexivity|].
  pose proof Hs as Hs'. simpl in Hs'. apply andb_true_iff in Hs' as [Hu _].
  apply negb_true_iff in Hu. rewrite Hu, andb_false_r.
  now rewrite (IH false Hs).
Qed.

Lemma no_upper_convert_camel s : no_upper (convert_camel s) = true.
Proof. apply no_upper_lower. Qed.

Lemma convert_camel_id s : no_upper s = true -> convert_camel s = s.
Proof.
  intros H. unfold convert_camel, first_cap_sub, all_cap_sub.
  rewrite (first_cap_scan_id _ _ H), (all_cap_scan_id _ _ H).
  now apply lower_id.
Qed.

Lemma convert_camel_idempotent s :
  convert_camel (convert_camel s) = convert_camel s.
Proof. apply convert_camel_id, no_upper_convert_camel. Qed.

(** ** The marker *)

(** Where the marker does not occur, [replace] changes nothing. *)
Lemma replace_marker_step c s :
  starts_with marker (String c s) = false ->
  replace_marker (String c s) = String c (replace_marker s).
Proof.
  intros Hp. destruct s as [|c2 [|c3 r]]; try reflexivity.
  cbn [replace_marker]. unfold marker in Hp. cbn [starts_with] in Hp.
  rewrite (Ascii.eqb_sym c), (Ascii.eqb_sym c2), (Ascii.eqb_sym c3).
  destruct (Ascii.eqb "_" c); [|reflexivity].
  destruct (Ascii.eqb "_" c2); [|reflexivity].
  destruct (Ascii.eqb "c" c3); [discriminate Hp | reflexivity].
Qed.

Lemma replace_marker_id s : contains marker s = false -> replace_marker s = s.
Proof.
  induction s as [|c s IH]; [reflexivity|].
  intros H. cbn [contains] in H. apply orb_false_iff in H as [Hp Hs].
  now rewrite (replace_marker_step _ _ Hp), (IH Hs).
Qed.

Lemma starts_with_append_marker c s :
  starts_with marker (String c s) = false ->
  starts_with marker (String c (s ++ marker)) = false.
Proof.
  unfold marker. destruct s as [|c2 [|c3 r]]; cbn [starts_with append]; intros H.
  - destruct (Ascii.eqb "_" c); reflexivity.
  - destruct (Ascii.eqb "_" c); [|reflexivity].
    destruct (Ascii.eqb "_" c2); reflexivity.
  - exact H.
Qed.

(** A marker that occurs only at the very end is removed, and nothing else
    is. *)
Lemma replace_marker_trailing base :
  contains marker base = false -> replace_marker (base ++ marker) = base.
Proof.
  induction base as [|c s IH]; [reflexivity|].
  intros H. cbn [contains] in H. apply orb_false_iff in H as [Hp Hs].
  cbn [append].
  now rewrite (replace_marker_step _ _ (starts_with_append_marker _ _ Hp)), (IH Hs).
Qed.

(** ** The normalization of the specification *)

Lemma length_append (s t : string) :
  String.length (s ++ t) = (String.length s + String.length t)%nat.
Proof. induction s as [|c s IH]; simpl; [reflexivity | now rewrite IH]. Qed.

Lemma eqb_append_marker_false c s :
  String.eqb (String c (s ++ marker)) marker = false.
Proof.
  apply String.eqb_neq. intros E.
  apply (f_equal String.length) in E. cbn [String.length] in E.
  rewrite length_append in E. cbn in E. lia.
Qed.

Lemma strip_trailing_marker_append base :
  strip_trailing_marker (base ++ marker) = base.
Proof.
  induction base as [|c s IH]; [reflexivity|].
  cbn [append strip_trailing_marker].
  now rewrite eqb_append_marker_false, IH.
Qed.

Lemma starts_with_refl s : starts_with s s = true.
Proof.
  induction s as [|c s IH]; [reflexivity|].
  simpl. now rewrite Ascii.eqb_refl.
Qed.

Lemma strip_trailing_marker_id s :
  contains marker s = false -> strip_trailing_marker s = s.
Proof.
  induction s as [|c s IH]; [reflexivity|].
  intros H. cbn [contains] in H. apply orb_false_iff in H as [Hp Hs].
  cbn [strip_trailing_marker].
  destruct (String.eqb (String c s) marker) eqn:E.
  - apply String.eqb_eq in E. rewrite E in Hp. discriminate Hp.
  - now rewrite (IH Hs).
Qed.

(** ** C6 *)

(** C6, the claim as stated fails: the key that the converters compute for
    the raw key [Promo__code__c] is not the one obtained by stripping the
    trailing marker and converting; the marker is removed inside the key
    too. *)
Lemma normalize_key_not_trailing_only :
  normalize_key "Promo__code__c" = "promoode" /\
  normalize_key_spec "Promo__code__c" = "promo__code" /\
  normalize_key "Promo__code__c" <> normalize_key_spec "Promo__code__c".
Proof. repeat split. discriminate. Qed.

(** C6, amended: every emitted key is [convert_camel] (the pass for a
    capitalized run after any character, then the pass for a capital after
    a lower-case letter or digit, then lower-casing) of the raw key with
    every occurrence of the marker ["__c"] removed.  It has no capital
    letter.  When the marker occurs in the raw key nowhere, or only once and
    at its end, this is the key of the specification: the trailing marker is
    stripped and the rest converted.  ['ShortCode__c'] becomes
    ['short_code']. *)
Theorem normalize_key_amended (raw : string) :
  normalize_key raw = lower (all_cap_sub (first_cap_sub (replace_marker raw))) /\
  no_upper (normalize_key raw) = true /\
  normalize_key "ShortCode__c" = "short_code" /\
  (contains marker raw = false ->
     normalize_key raw = convert_camel raw /\
     normalize_key raw = normalize_key_spec raw /\
     normalize_key (raw ++ marker) = convert_camel raw /\
     normalize_key (raw ++ marker) = normalize_key_spec (raw ++ marker)).
Proof.
  split; [reflexivity|]. split; [apply no_upper_convert_camel|].
  split; [reflexivity|]. intros H.
  unfold normalize_key, normalize_key_spec.
  rewrite (replace_marker_id _ H), (replace_marker_trailing _ H).
  rewrite (strip_trailing_marker_id _ H), strip_trailing_marker_append.
  repeat split.
Qed.

Lemma normalize_key_amended_witness :
  contains marker "ShortCode" = false /\
  normalize_key ("ShortCode" ++ marker) = convert_camel "ShortCode".
Proof.
  split; [reflexivity|].
  apply (normalize_key_amended "ShortCode"). reflexivity.
Defined.

(** ** C7 *)

(** C7, the claim as stated fails: the custom field [User_Country__c]
    normalizes to [user__country], and normalizing that key again removes
    the ["__c"] that the first pass created. *)
Lemma normalize_key_not_idempotent :
  normalize_key "User_Country__c" = "user__country" /\
  normalize_key (normalize_key "User_Country__c") = "userountry" /\
  normalize_key (normalize_key "User_Country__c")
    <> normalize_key "User_Country__c".
Proof. repeat split. discriminate. Qed.

(** C7, amended: the conversion [convert_camel] is idempotent, and the
    normalization (marker removal, then conversion) of an already
    normalized key yields that key unchanged whenever the normalized key
    does not contain ["__c"]. *)
Theorem normalize_key_idempotent_amended (k : string) :
  convert_camel (convert_camel k) = convert_camel k /\
  (contains marker (normalize_key k) = false ->
   normalize_key (normalize_key k) = normalize_key k).
Proof.
  split; [apply convert_camel_idempotent|].
  intros H. unfold normalize_key at 1.
  rewrite (replace_marker_id _ H).
  apply convert_camel_idempotent.
Qed.

Lemma normalize_key_idempotent_amended_witness :
  contains marker (normalize_key "ShortCode__c") = false /\
  normalize_key (normalize_key "ShortCode__c") = normalize_key "ShortCode__c".
Proof.
  split; [reflexivity|].
  apply (normalize_key_idempotent_amended "ShortCode__c"). reflexivity.
Defined.

End NormalizerFacts.

(* ================================================================== *)
(** * Fetchers *)
(* ================================================================== *)

Module FetcherFacts.
Import Str Normalizer Py Zuora Scenario.
Local Open Scope py_scope.

Example where_clause_account :
  where_clause account_query_32432
  = "AccountNumber = '32432' OR AccountNumber = 'A-32432'".
Proof. reflexivity. Qed.

Section Remote.
Variable username password : string.
Variable service_login : list request -> atom + string.
Variable service_query : list request -> string -> response + string.

Lemma query_sent (q : string) st st1 r :
  login username password service_login st = (inl tt, st1) ->
  service_query (sent st1) (join " " (split q)) = inl r ->
  query username password service_login service_query q st
  = (Ok r, {| session_id := session_id st1;
              sent := (sent st1 ++ [Query (join " " (split q))])%list |}).
Proof.
  intros Hl Hq. unfold query, call. now rewrite Hl, Hq.
Qed.

(** A response without the attribute [records] is not a response with no
    record: reading the attribute raises. *)
Lemma get_account_no_records_attribute st st1 :
  login username password service_login st = (inl tt, st1) ->
  service_query (sent st1) account_query_32432 = inl {| records := None |} ->
  fst (get_account username password service_login service_query
         (AStr "32432") st)
  = Raise (AttributeError "records").
Proof.
  intros Hl Hq. unfold get_account, bindM.
  erewrite query_sent by (try exact Hl; exact Hq). reflexivity.
Qed.

(** C9: [get_account("32432")], once the session is there, sends the query
    [SELECT Id FROM Account WHERE AccountNumber = '32432' or AccountNumber
    = 'A-32432'], whose WHERE clause is [AccountNumber = '32432' OR
    AccountNumber = 'A-32432'] (the source writes the keyword in lower
    case); when the answer holds no record it raises [DoesNotExist] with a
    message naming user id 32432, and when it holds records it returns the
    first. *)
Theorem get_account_32432 st st1 r :
  login username password service_login st = (inl tt, st1) ->
  service_query (sent st1) account_query_32432 = inl r ->
  let out := get_account username password service_login service_query
               (AStr "32432") st in
  sent (snd out) = (sent st1 ++ [Query account_query_32432])%list /\
  where_clause account_query_32432
    = "AccountNumber = '32432' OR AccountNumber = 'A-32432'" /\
  (records r = Some [] ->
   fst out = Raise (DoesNotExist "Unable to find Account for User ID 32432")) /\
  (forall zAccount rest, records r = Some (zAccount :: rest) ->
   fst out = Ok zAccount).
Proof.
  intros Hl Hq out. subst out. unfold get_account, bindM.
  erewrite query_sent by (try exact Hl; exact Hq).
  change (join " " (split _)) with account_query_32432.
  unfold lift, get_records, ret, raise.
  destruct r as [[[|z rest]|]]; cbn [records fst snd sent].
  - repeat split; intros; discriminate.
  - repeat split; intros; try discriminate. now inversion H.
  - repeat split; intros; discriminate.
Qed.

(** C10: with every optional filter absent, [get_invoices],
    [get_payments] and [get_invoice_payments] return [None] and leave the
    client as it was: nothing is sent, not even a login.  [None] is
    neither an empty sequence nor an exception, and it is as false as an
    empty sequence. *)
Theorem no_filter_returns_None st :
  get_invoices username password service_login service_query ANone st
    = (Ok None, st) /\
  get_payments username password service_login service_query ANone st
    = (Ok None, st) /\
  get_invoice_payments username password service_login service_query
    ANone ANone st = (Ok None, st) /\
  (@None (list record) <> Some []) /\
  truthy (PAtom ANone) = truthy (PList []).
Proof. repeat split. discriminate. Qed.

End Remote.

Lemma get_account_32432_witness :
  let out := get_account "user" "secret" login_ok
               (fun _ _ => inl {| records := Some [] |}) (AStr "32432")
               new_client in
  sent (snd out) = [Login "user" "secret"; Query account_query_32432] /\
  fst out = Raise (DoesNotExist "Unable to find Account for User ID 32432").
Proof.
  pose proof (get_account_32432 "user" "secret" login_ok
                (fun _ _ => inl {| records := Some [] |}) new_client
                {| session_id := AStr "session";
                   sent := [Login "user" "secret"] |}
                {| records := Some [] |} eq_refl eq_refl) as H.
  cbv zeta in H. destruct H as (Hs & _ & Hn & _).
  split; [exact Hs | exact (Hn eq_refl)].
Defined.

End FetcherFacts.

(* ================================================================== *)
(** * Builders *)
(* ================================================================== *)

Module BuilderFacts.
Import Str Normalizer Py Zuora Scenario.

Section Remote.
Variable username password : string.
Variable authorize_gateway create_test_users : atom.
Variable service_login : list request -> atom + string.
Variable service_create : list request -> record -> remote_value + string.
Variable factory_create : string -> record.
Variable today_day : Z.

(** A response that is not a list, and a list whose first element reports
    a failure, raise [ZuoraException] with the response. *)
Lemma created_id_not_list text response :
  (forall l, response <> VList l) ->
  created_id text response = Raise (ZuoraException text (Some response)).
Proof.
  intros H. destruct response; try reflexivity. now destruct (H l).
Qed.

Lemma created_id_first_failure text first rest success :
  getattr "Success" first = Ok success ->
  atom_truthy success = false ->
  created_id text (VList (first :: rest))
  = Raise (ZuoraException text (Some (VList (first :: rest)))).
Proof. intros Hs Ht. cbn. now rewrite Hs; cbn; rewrite Ht. Qed.

(** When [create] answers with a list whose first element reports a
    failure, [make_account] raises [ZuoraException] with the response and
    leaves the account as it was built: no [Id] is assigned. *)
Lemma make_account_first_failure user currency status site_name
    billing_address st st1 zAccount first rest success :
  build_account authorize_gateway create_test_users factory_create today_day
    user currency status site_name billing_address = Ok zAccount ->
  login username password service_login st = (inl tt, st1) ->
  service_create (sent st1) zAccount = inl (VList (first :: rest)) ->
  getattr "Success" first = Ok success ->
  atom_truthy success = false ->
  fst (make_account username password authorize_gateway create_test_users
         service_login service_create factory_create today_day
         user currency status false site_name billing_address st)
  = (Raise (ZuoraException "Unknown Error creating Account. "
              (Some (VList (first :: rest)))),
     Some zAccount).
Proof.
  intros Hb Hl Hc Hs Ht. unfold make_account, create, call.
  rewrite Hb, Hl, Hc.
  now rewrite (created_id_first_failure _ _ _ _ Hs Ht).
Qed.

(** When [create] answers with the empty list, [make_account] raises
    [IndexError], whatever the account. *)
Lemma make_account_empty_response user currency status site_name
    billing_address st st1 zAccount :
  build_account authorize_gateway create_test_users factory_create today_day
    user currency status site_name billing_address = Ok zAccount ->
  login username password service_login st = (inl tt, st1) ->
  service_create (sent st1) zAccount = inl (VList []) ->
  fst (make_account username password authorize_gateway create_test_users
         service_login service_create factory_create today_day
         user currency status false site_name billing_address st)
  = (Raise IndexError, Some zAccount).
Proof.
  intros Hb Hl Hc. unfold make_account, create, call.
  now rewrite Hb, Hl, Hc.
Qed.
End Remote.

(** C8: on the empty list as the answer of [create], [make_account] does
    not raise the exception of the module with the response: the test
    [response[0].Success] raises [IndexError]. *)
Theorem make_account_empty_list_IndexError :
  fst (fst (run_make_account (fun _ _ => inl (VList [])))) = Raise IndexError /\
  (forall text payload,
     fst (fst (run_make_account (fun _ _ => inl (VList []))))
     <> Raise (ZuoraException text payload)).
Proof. split; [reflexivity | intros; discriminate]. Qed.

Example make_account_failure_no_Id :
  let failure := [("Success", ABool false)] in
  let out := fst (run_make_account (fun _ _ => inl (VList [failure]))) in
  fst out = Raise (ZuoraException "Unknown Error creating Account. "
                     (Some (VList [failure]))) /\
  match snd out with
  | Some zAccount => getattr "Id" zAccount = Raise (AttributeError "Id")
  | None => False
  end.
Proof. split; reflexivity. Qed.

Example make_account_success :
  let success := [("Success", ABool true); ("Id", AStr "2c92")] in
  match fst (fst (run_make_account (fun _ _ => inl (VList [success])))) with
  | Ok zAccount =>
      getattr "Id" zAccount = Ok (AStr "2c92") /\
      getattr "AccountNumber" zAccount = Ok (AStr "A-32432") /\
      getattr "Name" zAccount = Ok (AStr "Lovelace, Ada")
  | Raise _ => False
  end.
Proof. repeat split. Qed.

End BuilderFacts.

(* ================================================================== *)
(** * The order on values and [sorted] *)
(* ================================================================== *)

Module OrderFacts.
Import Str Normalizer Py.

Lemma ascii_compare_lt_trans a b c :
  Ascii.compare a b = Lt -> Ascii.compare b c = Lt -> Ascii.compare a c = Lt.
Proof.
  unfold Ascii.compare. rewrite !N.compare_lt_iff. apply N.lt_trans.
Qed.

Lemma string_compare_lt_trans a : forall b c,
  String.compare a b = Lt -> String.compare b c = Lt ->
  String.compare a c = Lt.
Proof.
  induction a as [|x a IH]; intros [|y b] [|z c]; simpl; try easy.
  destruct (Ascii.compare x y) eqn:Exy; try discriminate;
    destruct (Ascii.compare y z) eqn:Eyz; try discriminate; intros H1 H2.
  - apply Ascii.compare_eq_iff in Exy, Eyz. subst.
    rewrite (proj2 (N.compare_eq_iff _ _) eq_refl : Ascii.compare z z = Eq).
    now apply (IH b c).
  - apply Ascii.compare_eq_iff in Exy. subst. now rewrite Eyz.
  - apply Ascii.compare_eq_iff in Eyz. subst. now rewrite Exy.
  - now rewrite (ascii_compare_lt_trans _ _ _ Exy Eyz).
Qed.

Lemma string_compare_refl s : String.compare s s = Eq.
Proof.
  induction s as [|c s IH]; [reflexivity|]. simpl.
  now rewrite (proj2 (N.compare_eq_iff _ _) eq_refl : Ascii.compare c c = Eq).
Qed.

(** [kind_cmp] is a total preorder: antisymmetric, transitive on [Lt], and
    [Eq] is equality of kinds up to the payload of lists and dictionaries. *)
Lemma kind_cmp_antisym a b : kind_cmp a b = CompOpp (kind_cmp b a).
Proof.
  destruct a, b; try reflexivity; simpl.
  - apply Z.compare_antisym.
  - apply String.compare_antisym.
Qed.

Lemma kind_cmp_eq a b : kind_cmp a b = Eq -> forall c, kind_cmp a c = kind_cmp b c.
Proof.
  destruct a, b; simpl; try discriminate; intros E c; try reflexivity.
  - apply Z.compare_eq in E. now subst.
  - apply String.compare_eq_iff in E. now subst.
Qed.

Lemma kind_cmp_refl a : kind_cmp a a = Eq.
Proof.
  destruct a; try reflexivity; simpl.
  - apply Z.compare_refl.
  - apply string_compare_refl.
Qed.

Lemma kind_cmp_lt_trans a b c :
  kind_cmp a b = Lt -> kind_cmp b c = Lt -> kind_cmp a c = Lt.
Proof.
  destruct a, b, c; simpl; try discriminate; try reflexivity.
  - rewrite !Z.compare_lt_iff. apply Z.lt_trans.
  - apply string_compare_lt_trans.
Qed.

Lemma py_lt_asym a b : py_lt a b = true -> py_lt b a = false.
Proof.
  unfold py_lt, py_cmp. rewrite (kind_cmp_antisym (kind_of b)).
  now destruct (kind_cmp (kind_of a) (kind_of b)).
Qed.

(** [not (a < b)] is transitive: it is [b <= a]. *)
Lemma py_not_lt_trans a b c :
  py_lt a b = false -> py_lt b c = false -> py_lt a c = false.
Proof.
  unfold py_lt, py_cmp.
  destruct (kind_cmp (kind_of a) (kind_of b)) eqn:Eab; try discriminate;
    destruct (kind_cmp (kind_of b) (kind_of c)) eqn:Ebc; try discriminate;
    intros _ _.
  - now rewrite (kind_cmp_eq _ _ Eab), Ebc.
  - now rewrite (kind_cmp_eq _ _ Eab), Ebc.
  - rewrite kind_cmp_antisym in Ebc.
    destruct (kind_cmp (kind_of c) (kind_of b)) eqn:Ecb; try discriminate.
    apply kind_cmp_eq with (c := kind_of a) in Ecb.
    rewrite (kind_cmp_antisym (kind_of a)), Ecb, <- kind_cmp_antisym, Eab.
    reflexivity.
  - rewrite kind_cmp_antisym in Eab, Ebc.
    destruct (kind_cmp (kind_of b) (kind_of a)) eqn:Eba; try discriminate.
    destruct (kind_cmp (kind_of c) (kind_of b)) eqn:Ecb; try discriminate.
    rewrite kind_cmp_antisym, (kind_cmp_lt_trans _ _ _ Ecb Eba).
    reflexivity.
Qed.

Lemma tied_not_lt v a b :
  tied v a = true -> tied v b = true -> py_lt a b = false.
Proof.
  unfold tied, py_lt, py_cmp.
  destruct (kind_cmp (kind_of a) (kind_of v)) eqn:Ea; try discriminate.
  destruct (kind_cmp (kind_of b) (kind_of v)) eqn:Eb; try discriminate.
  intros _ _. rewrite (kind_cmp_eq _ _ Ea).
  rewrite kind_cmp_antisym, Eb. reflexivity.
Qed.

(** The sentinel of the charge sort is below every string. *)
Lemma sentinel_below_str (n : Z) (s : string) : py_lt (PInt n) (PStr s) = true.
Proof. reflexivity. Qed.

Section SortedFacts.
Context {A : Type}.
Variable key : A -> pyval.

Lemma insert_perm x l : Permutation (x :: l) (insert key x l).
Proof.
  induction l as [|y r IH]; simpl; [reflexivity|].
  destruct (py_lt (key y) (key x)); [|reflexivity].
  rewrite perm_swap. now constructor.
Qed.

Lemma sort_ascending_perm l : Permutation l (sort_ascending key l).
Proof.
  induction l as [|x l IH]; simpl; [reflexivity|].
  rewrite <- insert_perm. now constructor.
Qed.

Lemma sorted_perm reverse l : Permutation l (sorted key reverse l).
Proof.
  unfold sorted. destruct reverse.
  - rewrite <- Permutation_rev, <- sort_ascending_perm.
    apply Permutation_rev.
  - apply sort_ascending_perm.
Qed.

Lemma insert_Forall (P : A -> Prop) x l :
  P x -> Forall P l -> Forall P (insert key x l).
Proof.
  intros Hx Hl. induction Hl as [|y r Hy Hr IH]; simpl.
  - now constructor.
  - destruct (py_lt (key y) (key x)); repeat constructor; assumption.
Qed.

Lemma insert_sorted x l :
  StronglySorted (ascending key) l -> StronglySorted (ascending key) (insert key x l).
Proof.
  induction 1 as [|y r Hr IH Hy]; simpl.
  - repeat constructor.
  - destruct (py_lt (key y) (key x)) eqn:E.
    + constructor; [exact IH|].
      apply insert_Forall; [|exact Hy].
      unfold ascending. now apply py_lt_asym.
    + constructor; [now constructor|].
      constructor; [exact E|].
      eapply Forall_impl; [|exact Hy].
      intros z Hz. unfold ascending in *.
      now apply (py_not_lt_trans _ (key y)).
Qed.

Lemma sort_ascending_sorted l : StronglySorted (ascending key) (sort_ascending key l).
Proof.
  induction l as [|x l IH]; simpl; [constructor|].
  now apply insert_sorted.
Qed.

Lemma StronglySorted_snoc (R : A -> A -> Prop) l x :
  StronglySorted R l -> Forall (fun y => R y x) l ->
  StronglySorted R (l ++ [x]).
Proof.
  induction 1 as [|y r Hr IH Hy]; intros Hx; simpl.
  - repeat constructor.
  - inversion Hx; subst. constructor; [now apply IH|].
    apply Forall_app. split; [exact Hy | now repeat constructor].
Qed.

Lemma StronglySorted_rev (R : A -> A -> Prop) l :
  StronglySorted R l -> StronglySorted (fun a b => R b a) (rev l).
Proof.
  induction 1 as [|y r Hr IH Hy]; simpl; [constructor|].
  apply StronglySorted_snoc; [exact IH|].
  now apply Forall_rev.
Qed.

(** The outcome of [sorted] is in order: ascending, or descending with
    [reverse=True]. *)
Lemma sorted_ascending l : StronglySorted (ascending key) (sorted key false l).
Proof. apply sort_ascending_sorted. Qed.

Lemma sorted_descending l : StronglySorted (descending key) (sorted key true l).
Proof.
  unfold sorted.
  apply (StronglySorted_rev (ascending key)), sort_ascending_sorted.
Qed.

(** [sorted] is stable, also with [reverse=True]: the elements tied with a
    given key keep the order they had. *)
Lemma insert_stable v x l :
  filter (tie key v) (insert key x l) = filter (tie key v) (x :: l).
Proof.
  induction l as [|y r IH]; [reflexivity|].
  cbn [insert]. destruct (py_lt (key y) (key x)) eqn:E; [|reflexivity].
  cbn [filter] in *. rewrite IH.
  destruct (tie key v y) eqn:Ty; [|reflexivity].
  destruct (tie key v x) eqn:Tx; [|reflexivity].
  unfold tie in *. now rewrite (tied_not_lt v _ _ Ty Tx) in E.
Qed.

Lemma sort_ascending_stable v l :
  filter (tie key v) (sort_ascending key l) = filter (tie key v) l.
Proof.
  induction l as [|x l IH]; [reflexivity|].
  cbn [sort_ascending fold_right]. fold (sort_ascending key l).
  rewrite insert_stable. cbn [filter]. now rewrite IH.
Qed.

Lemma sorted_stable reverse v l :
  filter (tie key v) (sorted key reverse l) = filter (tie key v) l.
Proof.
  unfold sorted. destruct reverse.
  - rewrite filter_rev, sort_ascending_stable, filter_rev.
    apply rev_involutive.
  - apply sort_ascending_stable.
Qed.
End SortedFacts.

End OrderFacts.

(* ================================================================== *)
(** * Dictionaries and loops *)
(* ================================================================== *)

Module DictFacts.
Import Str Normalizer Py Zuora.
Local Open Scope list_scope.

Lemma atom_eqb_eq a b : atom_eqb a b = true <-> a = b.
Proof.
  destruct a, b; simpl; split; intros H; try discriminate; try reflexivity.
  - f_equal. now apply Bool.eqb_prop.
  - inversion H. apply Bool.eqb_reflx.
  - f_equal. now apply Z.eqb_eq.
  - inversion H. apply Z.eqb_refl.
  - f_equal. now apply String.eqb_eq.
  - inversion H. apply String.eqb_refl.
Qed.

Lemma atom_eqb_refl a : atom_eqb a a = true.
Proof. now apply atom_eqb_eq. Qed.

Lemma atom_eqb_neq a b : atom_eqb a b = false <-> a <> b.
Proof.
  rewrite <- atom_eqb_eq. destruct (atom_eqb a b); split; congruence.
Qed.

Section Lookup.
Context {V : Type}.
Implicit Types (d : list (atom * V)) (k : atom) (v : V).

(** What is stored is what is read, and the other keys are untouched. *)
Lemma lookup_dict_set_same k v d : lookup k (dict_set k v d) = Some v.
Proof.
  induction d as [|[k' v'] r IH]; simpl.
  - now rewrite atom_eqb_refl.
  - destruct (atom_eqb k k') eqn:E; simpl; rewrite E; [reflexivity | exact IH].
Qed.

Lemma lookup_dict_set_other k k' v d :
  k' <> k -> lookup k' (dict_set k v d) = lookup k' d.
Proof.
  intros Hn. induction d as [|[k0 v0] r IH]; simpl.
  - now rewrite (proj2 (atom_eqb_neq k' k)).
  - destruct (atom_eqb k k0) eqn:E; simpl.
    + apply atom_eqb_eq in E. subst k0.
      now rewrite (proj2 (atom_eqb_neq k' k)).
    + now rewrite IH.
Qed.

Lemma get_default_dict_set_same k v default d :
  get_default k default (dict_set k v d) = v.
Proof. unfold get_default. now rewrite lookup_dict_set_same. Qed.

Lemma get_default_dict_set_other k k' v default d :
  k' <> k -> get_default k' default (dict_set k v d) = get_default k' default d.
Proof. intros H. unfold get_default. now rewrite lookup_dict_set_other. Qed.

Lemma lookup_In k v d : lookup k d = Some v -> In (k, v) d.
Proof.
  induction d as [|[k' v'] r IH]; simpl; [discriminate|].
  destruct (atom_eqb k k') eqn:E.
  - apply atom_eqb_eq in E. intros [= ->]. left. now subst.
  - intros H. right. now apply IH.
Qed.

(** The entries of an updated dictionary are the new one and old ones. *)
Lemma In_dict_set k v d kv :
  In kv (dict_set k v d) -> kv = (k, v) \/ In kv d.
Proof.
  induction d as [|[k' v'] r IH]; simpl.
  - intros [H|[]]. now left.
  - destruct (atom_eqb k k') eqn:E; simpl.
    + apply atom_eqb_eq in E. subst k'. intros [H|H]; [now left | right; now right].
    + intros [H|H]; [right; now left|].
      destruct (IH H) as [H'|H']; [now left | right; now right].
Qed.
End Lookup.

Section Loops.
Context {A B : Type}.

Lemma for_each_app {S} (body : S -> A -> result S) l1 l2 s :
  for_each body (l1 ++ l2) s = bind (for_each body l1 s) (for_each body l2).
Proof.
  revert s. induction l1 as [|a l1 IH]; intros s; simpl; [reflexivity|].
  destruct (body s a); simpl; [apply IH | reflexivity].
Qed.

Variable body : A -> result B.

Lemma collect_acc l : forall acc out,
  for_each (fun out a => bind (body a) (fun b => Ok (out ++ [b]))) l acc = Ok out ->
  exists bs, out = acc ++ bs /\ Forall2 (fun a b => body a = Ok b) l bs.
Proof.
  induction l as [|a l IH]; intros acc out; simpl.
  - intros [= <-]. exists []. now rewrite app_nil_r.
  - destruct (body a) as [b|e] eqn:E; simpl; [|discriminate].
    intros H. destruct (IH _ _ H) as (bs & -> & HF).
    exists (b :: bs). rewrite <- app_assoc. split; [reflexivity|].
    now constructor.
Qed.

(** A loop that collects returns one element per turn, each the outcome of
    the body on the element met, in the order of the loop. *)
Lemma collect_Ok l out :
  collect body l = Ok out -> Forall2 (fun a b => body a = Ok b) l out.
Proof.
  intros H. destruct (collect_acc _ _ _ H) as (bs & -> & HF). exact HF.
Qed.

Lemma collect_acc_Forall2 l : forall acc bs,
  Forall2 (fun a b => body a = Ok b) l bs ->
  for_each (fun out a => bind (body a) (fun b => Ok (out ++ [b]))) l acc
  = Ok (acc ++ bs).
Proof.
  induction l as [|a l IH]; intros acc bs HF; inversion HF; subst; simpl.
  - now rewrite app_nil_r.
  - rewrite H1. simpl. rewrite (IH _ _ H3), <- app_assoc. reflexivity.
Qed.

Lemma collect_Forall2 l out :
  Forall2 (fun a b => body a = Ok b) l out -> collect body l = Ok out.
Proof. intros H. unfold collect. now rewrite (collect_acc_Forall2 _ [] _ H). Qed.

Lemma collect_nil : collect body [] = Ok [].
Proof. reflexivity. Qed.
End Loops.

(** Two bodies that agree on the elements of the list give the same loop. *)
Lemma for_each_ext {A S} (f g : S -> A -> result S) l :
  (forall s a, In a l -> f s a = g s a) ->
  forall s, for_each f l s = for_each g l s.
Proof.
  induction l as [|a l IH]; intros H s; simpl; [reflexivity|].
  rewrite (H s a (or_introl eq_refl)).
  destruct (g s a); simpl; [|reflexivity].
  apply IH. intros s' a' Hin. apply H. now right.
Qed.

Lemma collect_ext {A B} (f g : A -> result B) l :
  (forall a, In a l -> f a = g a) -> collect f l = collect g l.
Proof.
  intros H. unfold collect. apply for_each_ext.
  intros s a Hin. now rewrite (H a Hin).
Qed.

(** The monad of methods. *)
Lemma bindM_Ok {A B} (m : M A) (f : A -> M B) st b st' :
  bindM m f st = (Ok b, st') ->
  exists a st1, m st = (Ok a, st1) /\ f a st1 = (Ok b, st').
Proof.
  unfold bindM. destruct (m st) as [[a|e] st1]; [|discriminate].
  intros H. now exists a, st1.
Qed.

Lemma lift_Ok {A} (r : result A) st a st' :
  lift r st = (Ok a, st') -> r = Ok a /\ st' = st.
Proof. unfold lift. now intros [= -> ->]. Qed.

End DictFacts.

(* ================================================================== *)
(** * Rate-plan matching engine and pricing *)
(* ================================================================== *)

Module EngineFacts.
Import Str Normalizer Py Zuora Scenario DictFacts OrderFacts.
Local Open Scope list_scope.

Section Engine.
Variable username password : string.
Variable service_login : list request -> atom + string.
Variable service_query : list request -> string -> response + string.
Variable re_valid : string -> bool.
Variable re_match : string -> string -> bool.
Variable utcnow : string.

(** What [match_product_rate_plans] returns is the combination of four
    dictionaries. *)
Lemma match_product_rate_plans_combine shortcodes filter_ st out st' :
  match_product_rate_plans username password service_login service_query
    re_valid re_match utcnow shortcodes filter_ st = (Ok out, st') ->
  exists product_dict prd prc prt,
    combine re_valid re_match filter_ product_dict prd prc prt = Ok out.
Proof.
  unfold match_product_rate_plans. intros H.
  apply bindM_Ok in H as (product_dict & st1 & _ & H).
  apply bindM_Ok in H as (prd & st2 & _ & H).
  apply bindM_Ok in H as (prc & st3 & _ & H).
  apply bindM_Ok in H as (prt & st4 & _ & H).
  apply lift_Ok in H as [H _].
  now exists product_dict, prd, prc, prt.
Qed.

(** In what [match_product_rate_plans] returns, the ['rate_plans'] of
    each product is [sorted] with [reverse=True] on the scores as they are
    stored: it holds the plans that the loop met, descending in the order
    of Python 2 on values, in which a text is above every number and texts
    compare as texts, and the plans tied with any given score keep the
    order in which the loop met them.  Scores that are all integers met as
    [3,1,3,0] in the order [A,B,C,D] give [A,C,B,D]. *)
Theorem rate_plans_sorted_by_score shortcodes filter_ st out st' :
  match_product_rate_plans username password service_login service_query
    re_valid re_match utcnow shortcodes filter_ st = (Ok out, st') ->
  (exists product_dict prd prc prt,
     Forall2
       (fun (item : atom * dict) (p_dict : dict) =>
          exists rp_list,
            product_rp_list re_valid re_match filter_ prd prc prt (fst item)
              = Ok rp_list /\
            let ranked := sorted score_key true rp_list in
            lookup (AStr "rate_plans") p_dict = Some (PList (map PDict ranked)) /\
            Permutation rp_list ranked /\
            StronglySorted (descending score_key) ranked /\
            (forall v, filter (tie score_key v) ranked
                       = filter (tie score_key v) rp_list))
       product_dict out) /\
  match fst (run_match one_product plans_ABCD [] [] [] filter_3) with
  | Ok answer =>
      plans_by "score" answer = [[PInt 3; PInt 3; PInt 1; PInt 0]] /\
      plans_by "id" answer = [[PStr "A"; PStr "C"; PStr "B"; PStr "D"]]
  | Raise _ => False
  end.
Proof.
  intros H. split; [|vm_compute; now split].
  apply match_product_rate_plans_combine in H
    as (product_dict & prd & prc & prt & H).
  exists product_dict, prd, prc, prt.
  apply collect_Ok in H.
  eapply Forall2_impl; [|exact H].
  intros [product_id p_dict] p_out Hp. unfold product_with_rate_plans in Hp.
  destruct (product_rp_list re_valid re_match filter_ prd prc prt product_id)
    as [rp_list|e] eqn:E; [|discriminate].
  cbn in Hp. injection Hp as <-.
  exists rp_list. split; [exact E|]. cbv zeta.
  split; [apply lookup_dict_set_same|].
  split; [apply sorted_perm|].
  split; [apply sorted_descending | intros v; apply sorted_stable].
Qed.
End Engine.

Lemma rate_plans_sorted_by_score_witness :
  exists out,
    fst (run_match one_product plans_ABCD [] [] [] filter_3) = Ok out /\
    Forall (fun p_dict =>
              exists ranked,
                lookup (AStr "rate_plans") p_dict = Some (PList (map PDict ranked)) /\
                StronglySorted (descending score_key) ranked) out.
Proof.
  destruct (run_match one_product plans_ABCD [] [] [] filter_3)
    as [[out|e] st'] eqn:E; [|vm_compute in E; discriminate E].
  exists out. split; [reflexivity|].
  destruct (rate_plans_sorted_by_score _ _ _ _ _ _ _ _ _ _ _ _ E)
    as [(pd & prd & prc & prt & HF) _].
  clear E. induction HF as [|item p_dict l l' (rp_list & _ & Hl & _ & Hs & _) _ IH];
    constructor; [|exact IH].
  now exists (sorted score_key true rp_list).
Defined.

(** C3: the plans of a product do not come out in descending order of
    score.  The converter stores a priority as text, so the scores [9] and
    [10] are the texts ["9"] and ["10"], and ["9"] is above ["10"]: the
    plan of priority 9 comes before the plan of priority 10, in whichever
    order the two were met.  And the score of a plan without priority is an
    integer, which is below every text: a plan of priority 1 that matches
    nothing comes before a plan that matches three fields, again in
    whichever order they were met. *)
Theorem rate_plans_not_descending_by_score :
  let ids plans filter_ :=
    match fst (run_match one_product plans [] [] [] filter_) with
    | Ok answer => Some (plans_by "id" answer, plans_by "score" answer)
    | Raise _ => None
    end in
  ids [plan_P9; plan_P10] []
    = Some ([[PStr "P9"; PStr "P10"]], [[PStr "9"; PStr "10"]]) /\
  ids [plan_P10; plan_P9] []
    = Some ([[PStr "P9"; PStr "P10"]], [[PStr "9"; PStr "10"]]) /\
  ids [plan_Pr1; plan_M3] filter_3
    = Some ([[PStr "Pr1"; PStr "M3"]], [[PStr "1"; PInt 3]]) /\
  ids [plan_M3; plan_Pr1] filter_3
    = Some ([[PStr "Pr1"; PStr "M3"]], [[PStr "1"; PInt 3]]).
Proof. vm_compute. repeat split. Qed.

(** ** The order of charges *)

(** A charge without ['sort_order'] has the integer [999] as its key, the
    others a string, and Python 2 puts every integer below every string: the
    charge without sort order comes first. *)
Lemma missing_sort_order_is_least (c k : dict) s :
  lookup (AStr "sort_order") c = None ->
  lookup (AStr "sort_order") k = Some (PStr s) ->
  py_lt (sort_order_key c) (sort_order_key k) = true.
Proof.
  intros Hc Hk. unfold sort_order_key, get_default. now rewrite Hc, Hk.
Qed.

(** The sort orders are compared as text. *)
Example sort_order_10_before_2 : py_lt (PStr "10") (PStr "2") = true.
Proof. reflexivity. Qed.

(** C4: three charges of one rate plan, with sort order ["2"], without sort
    order, and with sort order ["1"], come out with the charge that has no
    sort order first, not last. *)
Theorem charges_missing_sort_order_first :
  match fst (run_match one_product one_plan charges_2_none_1 [] [] []) with
  | Ok answer =>
      charges_by "id" answer = [[[PStr "c2"; PStr "c3"; PStr "c1"]]] /\
      charges_by "sort_order" answer
        = [[[PAtom ANone; PStr "1"; PStr "2"]]]
  | Raise _ => False
  end.
Proof. vm_compute. now split. Qed.

(** ** The pricing aggregate *)

Section Pricing.
Variable float_of : string -> option Q.

(** The converters store [str(value)], so the overage flag of a tier is a
    string, and a string that is not empty is true: the price of such a
    tier is not added, whatever the flag says. *)
Lemma add_tier_flag_is_text price (rpct : dict) flag :
  lookup (AStr "is_overage_price") rpct = Some (PStr flag) ->
  flag <> ""%string ->
  add_tier float_of price (PDict rpct) = Ok price.
Proof.
  intros Hl Hf. unfold add_tier, py_getitem, getitem. rewrite Hl. cbn.
  destruct (String.eqb flag "") eqn:E; [|reflexivity].
  now apply String.eqb_eq in E.
Qed.
End Pricing.

(** C2: for a rate plan with two charges, both of model [FlatFee] and type
    [Recurring], whose tiers are priced 10 and 5 and are not overage tiers,
    the aggregate is [{"flatfee": {"recurring": 0}}], not 15. *)
Theorem pricing_of_two_flat_fees_is_zero :
  fst (run_pricing one_product one_plan charges_flatfee tiers_10_5 (AStr "rp1"))
  = Ok [(AStr "flatfee", [(AStr "recurring", NInt 0)])].
Proof. vm_compute. reflexivity. Qed.

(** With the flag stored as the empty string, the only text that is false,
    the same prices do add up. *)
Example pricing_with_empty_flags :
  let tiers := map (setattr "IsOveragePrice" (AStr "")) tiers_10_5 in
  fst (run_pricing one_product one_plan charges_flatfee tiers (AStr "rp1"))
  = Ok [(AStr "flatfee", [(AStr "recurring", NFloat 15)])].
Proof. vm_compute. reflexivity. Qed.

(** ** The score of a rate plan *)

Section Scoring.
Variable re_valid : string -> bool.
Variable re_match : string -> string -> bool.






End Scoring.



(** A plan with a priority, which the converter stores as text, that
    matches one field of the filter has no score at all: the increment
    raises [TypeError], in the scoring and so in the whole method. *)
Example score_raises_on_text_priority :
  let filter_ := [(AStr "site", PStr "run")] in
  let plan_5 : record :=
    [("Id", AStr "rp5"); ("ProductId", AStr "p1"); ("Priority__c", AInt 5);
     ("Site__c", AStr "run")] in
  lookup (AStr "priority") (camel_attrs true plan_5) = Some (PStr "5") /\
  score_rate_plan re_valid_literal re_match_literal filter_
    (camel_attrs true plan_5) = Raise TypeError /\
  fst (run_match one_product [plan_5] [] [] [] filter_) = Raise TypeError.
Proof. vm_compute. repeat split. Qed.

End EngineFacts.

(* ================================================================== *)
(** * The join of the batches: orphans *)
(* ================================================================== *)

Module JoinFacts.
Import Str Normalizer Py Zuora Scenario DictFacts.
Local Open Scope list_scope.

(** Two dictionaries that hold the same under every key but [k]. *)
Local Abbreviation agree_except k d1 d2 :=
  (forall k', k' <> k -> lookup k' d1 = lookup k' d2).

(** The same outcome, up to what the dictionaries hold under [k]. *)
Local Abbreviation same_except k r1 r2 :=
  (match r1, r2 with
   | Ok a, Ok b => agree_except k a b
   | Raise e1, Raise e2 => e1 = e2
   | _, _ => False
   end).

Lemma get_default_agree {V} k (d1 d2 : list (atom * V)) k' default :
  agree_except k d1 d2 -> k' <> k ->
  get_default k' default d1 = get_default k' default d2.
Proof. intros H Hk. unfold get_default. now rewrite (H k' Hk). Qed.

Lemma In_keys_entry {V} (d : list (atom * V)) k :
  In k (keys d) -> exists v, In (k, v) d.
Proof.
  unfold keys. rewrite in_map_iff. intros ([k' v] & E & H).
  cbn in E. subst. now exists v.
Qed.

Lemma get_default_In {V} k (d : list (atom * list V)) x :
  In x (get_default k [] d) -> exists l, lookup k d = Some l /\ In x l.
Proof.
  unfold get_default. destruct (lookup k d) as [l|]; [|intros []].
  intros H. now exists l.
Qed.

Section Grouping.
Variable parent_attr : string.

Lemma group_record_Ok d o parent id :
  getattr parent_attr o = Ok parent -> getattr "Id" o = Ok id ->
  group_record parent_attr d o
  = Ok (dict_set parent
          (dict_set id (camel_attrs true o) (get_default parent [] d)) d).
Proof. intros Hp Hi. unfold group_record. now rewrite Hp, Hi. Qed.

Lemma group_record_agree k d1 d2 o :
  agree_except k d1 d2 ->
  same_except k (group_record parent_attr d1 o) (group_record parent_attr d2 o).
Proof.
  intros H. unfold group_record.
  destruct (getattr parent_attr o) as [parent|e]; [|reflexivity].
  destruct (getattr "Id" o) as [id|e]; [|reflexivity].
  cbn [bind]. intros k' Hk'.
  destruct (atom_eqb k' parent) eqn:E.
  - apply atom_eqb_eq in E. subst k'.
    rewrite !lookup_dict_set_same.
    now rewrite (get_default_agree k d1 d2 parent [] H Hk').
  - apply atom_eqb_neq in E.
    rewrite !lookup_dict_set_other by exact E. now apply H.
Qed.

Lemma for_each_group_agree k l : forall d1 d2,
  agree_except k d1 d2 ->
  same_except k (for_each (group_record parent_attr) l d1)
                (for_each (group_record parent_attr) l d2).
Proof.
  induction l as [|o l IH]; intros d1 d2 H; [exact H|].
  cbn [for_each]. pose proof (group_record_agree k d1 d2 o H) as Ho.
  destruct (group_record parent_attr d1 o) as [a|e1],
           (group_record parent_attr d2 o) as [b|e2];
    cbn [bind]; try contradiction; [now apply IH | exact Ho].
Qed.

(** A record put into the batch changes the grouped dictionary under its
    own parent only, and raises nothing when it has a parent and an [Id]. *)
Lemma group_orphan l1 o l2 parent id :
  getattr parent_attr o = Ok parent -> getattr "Id" o = Ok id ->
  same_except parent
    (for_each (group_record parent_attr) (l1 ++ o :: l2) [])
    (for_each (group_record parent_attr) (l1 ++ l2) []).
Proof.
  intros Hp Hi. rewrite !for_each_app.
  destruct (for_each (group_record parent_attr) l1 []) as [d|e];
    cbn [bind for_each]; [|reflexivity].
  rewrite (group_record_Ok d o parent id Hp Hi). cbn [bind].
  apply for_each_group_agree.
  intros k' Hk'. now apply lookup_dict_set_other.
Qed.

(** Every entry of a grouped dictionary is the conversion of a record of
    the batch, filed under the [Id] of this record. *)
Lemma group_entries l : forall d0 d,
  for_each (group_record parent_attr) l d0 = Ok d ->
  forall parent siblings id entry,
    lookup parent d = Some siblings -> In (id, entry) siblings ->
    (exists siblings0,
       lookup parent d0 = Some siblings0 /\ In (id, entry) siblings0) \/
    (exists o, In o l /\ getattr "Id" o = Ok id /\ entry = camel_attrs true o).
Proof.
  induction l as [|o l IH]; intros d0 d H parent siblings id entry Hl Hin.
  - injection H as <-. left. now exists siblings.
  - cbn [for_each] in H. unfold group_record in H at 1.
    destruct (getattr parent_attr o) as [parent'|e] eqn:Ep; [|discriminate].
    destruct (getattr "Id" o) as [id'|e] eqn:Ei; [|discriminate].
    cbn [bind] in H.
    destruct (IH _ _ H _ _ _ _ Hl Hin) as [(s1 & Hs1 & Hin1)|(o' & Ho' & Hr)].
    + destruct (atom_eqb parent parent') eqn:E.
      * apply atom_eqb_eq in E. subst parent'.
        rewrite lookup_dict_set_same in Hs1. injection Hs1 as <-.
        apply In_dict_set in Hin1 as [Heq|Hin1].
        -- injection Heq as -> ->. right. exists o.
           split; [now left|]. now split.
        -- apply get_default_In in Hin1 as (s0 & Hs0 & Hin0).
           left. now exists s0.
      * apply atom_eqb_neq in E.
        rewrite lookup_dict_set_other in Hs1 by exact E.
        left. now exists s1.
    + right. exists o'. split; [now right | exact Hr].
Qed.

Lemma group_entries_nil l d parent siblings id entry :
  for_each (group_record parent_attr) l [] = Ok d ->
  lookup parent d = Some siblings -> In (id, entry) siblings ->
  exists o, In o l /\ getattr "Id" o = Ok id /\ entry = camel_attrs true o.
Proof.
  intros H Hl Hin.
  destruct (group_entries l [] d H _ _ _ _ Hl Hin) as [(s0 & Hs0 & _)|Hr];
    [discriminate Hs0 | exact Hr].
Qed.
End Grouping.

(** The products are filed under their [Id]. *)
Lemma product_keys l : forall d0 d,
  for_each (fun product_dict p =>
              bind (getattr "Id" p)
                (fun id => Ok (dict_set id (camel_attrs false p) product_dict)))
    l d0 = Ok d ->
  forall k, In k (keys d) ->
    In k (keys d0) \/ exists p, In p l /\ getattr "Id" p = Ok k.
Proof.
  induction l as [|p l IH]; intros d0 d H k Hk.
  - injection H as <-. now left.
  - cbn [for_each] in H.
    destruct (getattr "Id" p) as [id|e] eqn:Ei; [|discriminate].
    cbn [bind] in H. destruct (IH _ _ H k Hk) as [Hk0|(p' & Hp' & Hi)].
    + apply In_keys_entry in Hk0 as (v & Hv).
      apply In_dict_set in Hv as [Heq|Hv].
      * injection Heq as -> _. right. exists p. split; [now left | exact Ei].
      * left. unfold keys. apply in_map_iff. now exists (k, v).
    + right. exists p'. split; [now right | exact Hi].
Qed.

Section Combine.
Variable re_valid : string -> bool.
Variable re_match : string -> string -> bool.
Variable filter_ : dict.

Local Abbreviation combine := (combine re_valid re_match filter_).

(** [combine] reads the plans under the identifiers of the products
    only, *)
Lemma combine_plans product_dict prd1 prd2 prc prt :
  (forall pid, In pid (keys product_dict) ->
               get_default pid [] prd1 = get_default pid [] prd2) ->
  combine product_dict prd1 prc prt = combine product_dict prd2 prc prt.
Proof.
  intros H. unfold Zuora.combine. apply collect_ext.
  intros [pid p_dict] Hin. unfold product_with_rate_plans, product_rp_list.
  rewrite (H pid); [reflexivity|].
  unfold keys. apply in_map_iff. now exists (pid, p_dict).
Qed.

(** the charges under the identifiers of the plans only, *)
Lemma combine_charges product_dict prd prc1 prc2 prt :
  (forall pid rid, In rid (keys (get_default pid [] prd)) ->
                   get_default rid [] prc1 = get_default rid [] prc2) ->
  combine product_dict prd prc1 prt = combine product_dict prd prc2 prt.
Proof.
  intros H. unfold Zuora.combine. apply collect_ext.
  intros [pid p_dict] _. unfold product_with_rate_plans, product_rp_list.
  f_equal. apply collect_ext.
  intros [rid rp_dict] Hin. unfold rate_plan_with_charges.
  rewrite (H pid rid); [reflexivity|].
  unfold keys. apply in_map_iff. now exists (rid, rp_dict).
Qed.

(** and the tiers under the ['id'] of the charges only. *)
Lemma combine_tiers product_dict prd prc prt1 prt2 :
  (forall rid item id,
     In item (get_default rid [] prc) ->
     lookup (AStr "id") (snd item) = Some (PAtom id) ->
     get_default id [] prt1 = get_default id [] prt2) ->
  combine product_dict prd prc prt1 = combine product_dict prd prc prt2.
Proof.
  intros H. unfold Zuora.combine. apply collect_ext.
  intros [pid p_dict] _. unfold product_with_rate_plans, product_rp_list.
  f_equal. apply collect_ext.
  intros [rid rp_dict] _. unfold rate_plan_with_charges.
  destruct (score_rate_plan re_valid re_match filter_ rp_dict);
    [|reflexivity].
  cbn [bind]. f_equal.
  apply collect_ext. intros item Hin. unfold charge_with_tiers, getitem.
  destruct (lookup (AStr "id") (snd item)) as [[id| |]|] eqn:El;
    try reflexivity.
  cbn [bind as_key]. now rewrite (H rid item id Hin El).
Qed.
End Combine.

Section Orphans.
Variable re_valid : string -> bool.
Variable re_match : string -> string -> bool.

Local Abbreviation join_batches := (join_batches re_valid re_match).

Lemma orphan_plan_dropped filter_ products plans1 o plans2 charges tiers parent id :
  getattr "Id" o = Ok id ->
  getattr "ProductId" o = Ok parent ->
  Forall (fun p => getattr "Id" p <> Ok parent) products ->
  join_batches filter_ products (plans1 ++ o :: plans2) charges tiers
  = join_batches filter_ products (plans1 ++ plans2) charges tiers.
Proof.
  intros Hi Hp Hprod. unfold Zuora.join_batches.
  destruct (camel_converted_products products) as [pd|e] eqn:Epd;
    [|reflexivity].
  cbn [bind]. unfold camel_converted_product_rate_plans.
  pose proof (group_orphan "ProductId" plans1 o plans2 parent id Hp Hi) as H.
  destruct (for_each (group_record "ProductId") (plans1 ++ o :: plans2) [])
    as [prd1|e1],
    (for_each (group_record "ProductId") (plans1 ++ plans2) []) as [prd2|e2];
    cbn [bind]; try contradiction; [|now subst].
  destruct (camel_converted_product_rate_plan_charges charges) as [prc|e];
    [|reflexivity].
  destruct (camel_converted_product_rate_plan_charge_tiers tiers) as [prt|e];
    [|reflexivity].
  cbn [bind]. apply combine_plans. intros pid Hpid.
  apply (get_default_agree parent); [exact H|].
  intros ->. unfold camel_converted_products in Epd.
  destruct (product_keys _ _ _ Epd parent Hpid) as [[]|(p & Hin & Hk)].
  rewrite Forall_forall in Hprod. exact (Hprod p Hin Hk).
Qed.

Lemma orphan_charge_dropped filter_ products plans charges1 o charges2 tiers parent id :
  getattr "Id" o = Ok id ->
  getattr "ProductRatePlanId" o = Ok parent ->
  Forall (fun rp => getattr "Id" rp <> Ok parent) plans ->
  join_batches filter_ products plans (charges1 ++ o :: charges2) tiers
  = join_batches filter_ products plans (charges1 ++ charges2) tiers.
Proof.
  intros Hi Hp Hplans. unfold Zuora.join_batches.
  destruct (camel_converted_products products) as [pd|e]; [|reflexivity].
  cbn [bind].
  destruct (camel_converted_product_rate_plans false plans) as [prd|e] eqn:Eprd;
    [|reflexivity].
  cbn [bind]. unfold camel_converted_product_rate_plan_charges.
  pose proof (group_orphan "ProductRatePlanId" charges1 o charges2 parent id
                Hp Hi) as H.
  destruct (for_each (group_record "ProductRatePlanId")
              (charges1 ++ o :: charges2) []) as [prc1|e1],
    (for_each (group_record "ProductRatePlanId") (charges1 ++ charges2) [])
      as [prc2|e2];
    cbn [bind]; try contradiction; [|now subst].
  destruct (camel_converted_product_rate_plan_charge_tiers tiers) as [prt|e];
    [|reflexivity].
  cbn [bind]. apply combine_charges. intros pid rid Hrid.
  apply (get_default_agree parent); [exact H|].
  intros ->. apply In_keys_entry in Hrid as (entry & Hin).
  apply get_default_In in Hin as (siblings & Hl & Hin).
  destruct (group_entries_nil "ProductId" plans prd pid siblings parent entry
              Eprd Hl Hin) as (rp & Hrp & Hk & _).
  rewrite Forall_forall in Hplans. exact (Hplans rp Hrp Hk).
Qed.

Lemma orphan_tier_dropped filter_ products plans charges tiers1 o tiers2 parent id :
  getattr "Id" o = Ok id ->
  getattr "ProductRatePlanChargeId" o = Ok parent ->
  Forall (fun rpc => lookup (AStr "id") (camel_attrs true rpc)
                     <> Some (PAtom parent)) charges ->
  join_batches filter_ products plans charges (tiers1 ++ o :: tiers2)
  = join_batches filter_ products plans charges (tiers1 ++ tiers2).
Proof.
  intros Hi Hp Hcharges. unfold Zuora.join_batches.
  destruct (camel_converted_products products) as [pd|e]; [|reflexivity].
  cbn [bind].
  destruct (camel_converted_product_rate_plans false plans) as [prd|e];
    [|reflexivity].
  cbn [bind].
  destruct (camel_converted_product_rate_plan_charges charges) as [prc|e] eqn:Eprc;
    [|reflexivity].
  cbn [bind]. unfold camel_converted_product_rate_plan_charge_tiers.
  pose proof (group_orphan "ProductRatePlanChargeId" tiers1 o tiers2 parent id
                Hp Hi) as H.
  destruct (for_each (group_record "ProductRatePlanChargeId")
              (tiers1 ++ o :: tiers2) []) as [prt1|e1],
    (for_each (group_record "ProductRatePlanChargeId") (tiers1 ++ tiers2) [])
      as [prt2|e2];
    cbn [bind]; try contradiction; [|now subst].
  apply combine_tiers. intros rid [cid entry] k Hin Hk. cbn [snd] in Hk.
  apply (get_default_agree parent); [exact H|].
  intros ->. apply get_default_In in Hin as (siblings & Hl & Hin).
  destruct (group_entries_nil "ProductRatePlanId" charges prc rid siblings
              cid entry Eprc Hl Hin) as (rpc & Hrpc & _ & ->).
  rewrite Forall_forall in Hcharges. exact (Hcharges rpc Hrpc Hk).
Qed.

(** C5: a record of a batch whose parent is not in the batch joined with
    it leaves the join as it is without the record.  This holds for a rate
    plan whose [ProductId] is the [Id] of no product, for a charge whose
    [ProductRatePlanId] is the [Id] of no rate plan, and for a tier whose
    [ProductRatePlanChargeId] is the ['id'] of no charge: the answer is the
    same, and so is the exception when there is one, so the orphan is in
    no product of the answer and raises nothing. *)
Theorem orphans_are_dropped (filter_ : dict) (o : record) (parent id : atom) :
  getattr "Id" o = Ok id ->
  (forall products plans1 plans2 charges tiers,
     getattr "ProductId" o = Ok parent ->
     Forall (fun p => getattr "Id" p <> Ok parent) products ->
     join_batches filter_ products (plans1 ++ o :: plans2) charges tiers
     = join_batches filter_ products (plans1 ++ plans2) charges tiers) /\
  (forall products plans charges1 charges2 tiers,
     getattr "ProductRatePlanId" o = Ok parent ->
     Forall (fun rp => getattr "Id" rp <> Ok parent) plans ->
     join_batches filter_ products plans (charges1 ++ o :: charges2) tiers
     = join_batches filter_ products plans (charges1 ++ charges2) tiers) /\
  (forall products plans charges tiers1 tiers2,
     getattr "ProductRatePlanChargeId" o = Ok parent ->
     Forall (fun rpc => lookup (AStr "id") (camel_attrs true rpc)
                        <> Some (PAtom parent)) charges ->
     join_batches filter_ products plans charges (tiers1 ++ o :: tiers2)
     = join_batches filter_ products plans charges (tiers1 ++ tiers2)).
Proof.
  intros Hi. repeat split; intros.
  - now apply (orphan_plan_dropped _ _ _ _ _ _ _ parent id).
  - now apply (orphan_charge_dropped _ _ _ _ _ _ _ parent id).
  - now apply (orphan_tier_dropped _ _ _ _ _ _ _ parent id).
Qed.
End Orphans.

Section Match.
Variable username password : string.
Variable service_login : list request -> atom + string.
Variable service_query : list request -> string -> response + string.
Variable re_valid : string -> bool.
Variable re_match : string -> string -> bool.
Variable utcnow : string.

(** [match_product_rate_plans] returns the join of the four batches that
    it fetches: the products, then the plans of these products, the
    charges of these plans and the tiers of these charges. *)
Lemma match_product_rate_plans_join shortcodes filter_
    st products st1 pd plans st2 (prd : groups) charges st3 (prc : groups)
    tiers st4 :
  get_products username password service_login service_query
    ANone shortcodes st = (Ok products, st1) ->
  camel_converted_products products = Ok pd ->
  get_product_rate_plans username password service_login service_query
    ANone (keys pd) (AStr utcnow) ANone st1 = (Ok plans, st2) ->
  camel_converted_product_rate_plans false plans = Ok prd ->
  get_product_rate_plan_charges username password service_login service_query
    ANone (all_ids prd) ANone st2 = (Ok charges, st3) ->
  camel_converted_product_rate_plan_charges charges = Ok prc ->
  get_product_rate_plan_charge_tiers username password service_login
    service_query ANone (all_ids prc) st3 = (Ok tiers, st4) ->
  match_product_rate_plans username password service_login service_query
    re_valid re_match utcnow shortcodes filter_ st
  = (join_batches re_valid re_match filter_ products plans charges tiers, st4).
Proof.
  intros H1 Hpd H2 Hprd H3 Hprc H4.
  unfold match_product_rate_plans, get_camel_converted_products,
    get_camel_converted_product_rate_plans,
    get_camel_converted_product_rate_plan_charges,
    get_camel_converted_product_rate_plan_charge_tiers, bindM, lift.
  rewrite H1, Hpd. cbn [atom_truthy]. rewrite H2, Hprd, H3, Hprc, H4.
  unfold join_batches. rewrite Hpd, Hprd, Hprc. cbn [bind].
  now destruct (camel_converted_product_rate_plan_charge_tiers tiers).
Qed.
End Match.

Lemma orphans_are_dropped_witness :
  join_batches re_valid_literal re_match_literal filter_3 one_product
    (plans_ABCD ++ [orphan_plan]) charges_2_none_1 tiers_10_5
  = join_batches re_valid_literal re_match_literal filter_3 one_product
      plans_ABCD charges_2_none_1 tiers_10_5 /\
  join_batches re_valid_literal re_match_literal filter_3 one_product
    one_plan (orphan_charge :: charges_2_none_1) tiers_10_5
  = join_batches re_valid_literal re_match_literal filter_3 one_product
      one_plan charges_2_none_1 tiers_10_5.
Proof.
  split.
  - refine (proj1 (orphans_are_dropped re_valid_literal re_match_literal
                     filter_3 orphan_plan (AStr "pX") (AStr "rpX") eq_refl)
              one_product plans_ABCD [] charges_2_none_1 tiers_10_5 eq_refl _).
    repeat constructor. discriminate.
  - refine (proj1 (proj2 (orphans_are_dropped re_valid_literal re_match_literal
                     filter_3 orphan_charge (AStr "rpY") (AStr "cX") eq_refl))
              one_product one_plan [] charges_2_none_1 tiers_10_5 eq_refl _).
    repeat constructor. discriminate.
Defined.

(** The orphan plan of the witness holds a pattern that does not compile;
    it is never scored, and the join raises nothing. *)
Example orphan_plan_not_scored :
  re_valid_literal "(" = false /\
  match join_batches re_valid_literal re_match_literal filter_3 one_product
          (plans_ABCD ++ [orphan_plan]) [] [] with
  | Ok answer => plans_by "id" answer = [[PStr "A"; PStr "C"; PStr "B"; PStr "D"]]
  | Raise _ => False
  end.
Proof. split; vm_compute; reflexivity. Qed.

End JoinFacts.

(* ================================================================== *)
(** * Remote calls: query text, session, failures *)
(* ================================================================== *)

Module GatewayFacts.
Import Str Normalizer Py Zuora Scenario DictFacts.

Lemma append_nil_r (s : string) : (s ++ "")%string = s.
Proof. induction s as [|c s IH]; simpl; [reflexivity | now rewrite IH]. Qed.

Lemma append_assoc (a b c : string) :
  ((a ++ b) ++ c)%string = (a ++ (b ++ c))%string.
Proof. induction a as [|x a IH]; simpl; [reflexivity | now rewrite IH]. Qed.

Lemma no_space_append a b :
  no_space (a ++ b) = no_space a && no_space b.
Proof.
  induction a as [|c a IH]; simpl; [reflexivity|].
  now rewrite IH, andb_assoc.
Qed.

Lemma append_not_empty a c : String.eqb (a ++ String c "") "" = false.
Proof. destruct a; reflexivity. Qed.

(** The words that [split] returns are words. *)
Lemma split_words_are_words s : forall word,
  no_space word = true -> Forall (fun w => is_word w = true) (split_words word s).
Proof.
  induction s as [|c s IH]; intros word Hw; cbn [split_words].
  - destruct (String.eqb word "") eqn:E; constructor; [|constructor].
    unfold is_word. now rewrite E, Hw.
  - destruct (is_space c) eqn:Ec.
    + destruct (String.eqb word "") eqn:E; [now apply IH|].
      constructor; [|now apply IH].
      unfold is_word. now rewrite E, Hw.
    + apply IH. rewrite no_space_append, Hw. cbn. now rewrite Ec.
Qed.

Lemma split_words_append w : forall word r,
  no_space w = true ->
  split_words word (w ++ r) = split_words (word ++ w) r.
Proof.
  induction w as [|c w IH]; intros word r Hw.
  - now rewrite append_nil_r.
  - cbn in Hw. apply andb_true_iff in Hw as [Hc Hw].
    apply negb_true_iff in Hc.
    cbn [append split_words]. rewrite Hc, (IH _ _ Hw), append_assoc.
    reflexivity.
Qed.

(** Splitting the words joined by single spaces gives the words back. *)
Lemma split_join ws :
  Forall (fun w => is_word w = true) ws -> split (join " " ws) = ws.
Proof.
  unfold split. induction 1 as [|w ws Hw Hws IH]; [reflexivity|].
  unfold is_word in Hw. apply andb_true_iff in Hw as [Hne Hns].
  apply negb_true_iff in Hne.
  destruct ws as [|w2 r].
  - cbn [join]. rewrite <- (append_nil_r w) at 1.
    rewrite (split_words_append w "" "" Hns). cbn [append split_words].
    now rewrite Hne.
  - change (join " " (w :: w2 :: r))
      with (w ++ String " " (join " " (w2 :: r)))%string.
    rewrite (split_words_append w "" _ Hns). cbn [append split_words].
    change (is_space " ") with true. cbn iota. rewrite Hne.
    now rewrite IH.
Qed.

Section Remote.
Variable username password : string.
Variable service_login : list request -> atom + string.
Variable service_query : list request -> string -> response + string.

Local Abbreviation query := (query username password service_login service_query).
Local Abbreviation call A := (@call username password service_login A).

(** X1: [query] sends its text with every run of white space, also inside
    quoted values, replaced by one space and none left at the ends.  The
    request it adds to those sent is [Query] with this text, after the
    login when the client has no session, and not at all when this login
    fails; the remote service is asked with this text, and its answer is
    the outcome.  The text consists of the words of the text given,
    collapsing it again changes nothing, and a text and its collapsed form
    make the same call. *)
Theorem query_collapses_white_space (query_string : string) :
  let sent_text := join " " (split query_string) in
  Forall (fun w => is_word w = true) (split query_string) /\
  split sent_text = split query_string /\
  join " " (split sent_text) = sent_text /\
  (forall st, query sent_text st = query query_string st) /\
  (forall st,
     sent (snd (query query_string st))
     = (sent st
        ++ (if atom_truthy (session_id st) then [Query sent_text]
            else match service_login (sent st) with
                 | inl _ => [Login username password; Query sent_text]
                 | inr _ => [Login username password]
                 end))%list) /\
  (forall st,
     atom_truthy (session_id st) = true ->
     fst (query query_string st)
     = match service_query (sent st) sent_text with
       | inl response => Ok response
       | inr error =>
           Raise (ZuoraException ("Zuora: Unexpected Error. " ++ error) None)
       end).
Proof.
  intros sent_text.
  assert (Hw : Forall (fun w => is_word w = true) (split query_string))
    by (apply split_words_are_words; reflexivity).
  assert (Hs : split sent_text = split query_string) by now apply split_join.
  split; [exact Hw|]. split; [exact Hs|]. split; [now rewrite Hs|].
  split; [intros st; unfold Zuora.query; now rewrite Hs|].
  split; intros st.
  - unfold Zuora.query, Zuora.call, login. fold sent_text.
    destruct (atom_truthy (session_id st)).
    + now destruct (service_query (sent st) sent_text).
    + destruct (service_login (sent st)) as [session|fault];
        cbn [sent session_id snd]; [|reflexivity].
      destruct (service_query _ sent_text); cbn [snd sent];
        now rewrite <- app_assoc.
  - intros H. unfold Zuora.query, Zuora.call, login. fold sent_text.
    rewrite H. now destruct (service_query (sent st) sent_text).
Qed.

(** A call with the session in place sends the request and nothing else,
    and keeps the session. *)
Lemma call_with_session {A} (fn : list request -> A + string) req st :
  atom_truthy (session_id st) = true ->
  call A fn req st
  = (match fn (sent st) with
     | inl response => Ok response
     | inr error => Raise (ZuoraException ("Zuora: Unexpected Error. " ++ error) None)
     end,
     {| session_id := session_id st; sent := (sent st ++ [req])%list |}).
Proof.
  intros H. unfold Zuora.call, login. rewrite H.
  now destruct (fn (sent st)).
Qed.

(** X2: The client logs in once: the first query of a client without session
    sends the login and then the query, and the next query sends the query
    only; the session is the one the login returned. *)
Theorem login_is_sent_once q1 q2 st session r1 :
  atom_truthy (session_id st) = false ->
  service_login (sent st) = inl session ->
  atom_truthy session = true ->
  service_query (sent st ++ [Login username password])%list
    (join " " (split q1)) = inl r1 ->
  let st' := snd (bindM (query q1) (fun _ => query q2) st) in
  sent st' = (sent st ++ [Login username password;
                          Query (join " " (split q1));
                          Query (join " " (split q2))])%list /\
  session_id st' = session.
Proof.
  intros Hs Hl Ht Hq st'.
  assert (E : st' = {| session_id := session;
                       sent := (sent st ++ [Login username password;
                                            Query (join " " (split q1));
                                            Query (join " " (split q2))])%list |}).
  { subst st'. unfold bindM, Zuora.query.
    assert (E1 : call response
                   (fun h => service_query h (join " " (split q1)))
                   (Query (join " " (split q1))) st
                 = (Ok r1,
                    {| session_id := session;
                       sent := ((sent st ++ [Login username password])
                                ++ [Query (join " " (split q1))])%list |})).
    { unfold Zuora.call, login. rewrite Hs, Hl. cbn [sent session_id].
      now rewrite Hq. }
    rewrite E1, call_with_session by exact Ht.
    cbn [snd sent session_id]. now rewrite <- !app_assoc. }
  rewrite E. split; reflexivity.
Qed.

(** X3: Whatever goes wrong in a query, at the login or at the query itself,
    reaches the caller as [ZuoraException("Zuora: Unexpected Error. ...")];
    and when it is the login that fails, the query is not sent. *)
Theorem query_failure_is_ZuoraException q st e st' :
  query q st = (Raise e, st') ->
  (exists error,
     e = ZuoraException ("Zuora: Unexpected Error. " ++ error) None) /\
  (atom_truthy (session_id st) = false ->
   (forall session, service_login (sent st) <> inl session) ->
   sent st' = (sent st ++ [Login username password])%list).
Proof.
  unfold Zuora.query, Zuora.call, login. intros H.
  destruct (atom_truthy (session_id st)) eqn:Hs.
  - destruct (service_query _ _) as [r|error]; [discriminate|].
    injection H as <- <-. split; [now exists error | discriminate].
  - destruct (service_login (sent st)) as [session|error] eqn:Hl.
    + cbn [sent session_id] in H.
      destruct (service_query _ _) as [r|error]; [discriminate|].
      injection H as <- <-. split; [now exists error|].
      intros _ Hn. now destruct (Hn session).
    + injection H as <- <-. split; [now exists error | reflexivity].
Qed.
End Remote.

Lemma query_collapses_white_space_witness :
  sent (snd (query "user" "secret" login_ok (catalog_service [] [] [] []) "
            SELECT Id FROM Account
            WHERE  Name = 'Ada   Lovelace'
            " new_client))
  = [Login "user" "secret";
     Query "SELECT Id FROM Account WHERE Name = 'Ada Lovelace'"].
Proof.
  exact (proj1 (proj2 (proj2 (proj2 (proj2
           (query_collapses_white_space "user" "secret" login_ok
              (catalog_service [] [] [] []) "
            SELECT Id FROM Account
            WHERE  Name = 'Ada   Lovelace'
            ")))))
           new_client).
Defined.

Lemma login_is_sent_once_witness :
  let st' := snd (bindM (query "user" "secret" login_ok
                           (catalog_service [] [] [] []) " SELECT Id
                             FROM  Product ")
                    (fun _ => query "user" "secret" login_ok
                                (catalog_service [] [] [] [])
                                "SELECT Id FROM ProductRatePlan")
                    new_client) in
  sent st' = [Login "user" "secret"; Query "SELECT Id FROM Product";
              Query "SELECT Id FROM ProductRatePlan"] /\
  session_id st' = AStr "session".
Proof.
  exact (login_is_sent_once "user" "secret" login_ok
           (catalog_service [] [] [] []) " SELECT Id
                             FROM  Product "
           "SELECT Id FROM ProductRatePlan" new_client (AStr "session")
           {| records := Some [] |} eq_refl eq_refl eq_refl eq_refl).
Defined.

Lemma query_failure_is_ZuoraException_witness :
  exists error,
    ZuoraException "Zuora: Unexpected Error. unknown object" None
    = ZuoraException ("Zuora: Unexpected Error. " ++ error) None.
Proof.
  exact (proj1 (query_failure_is_ZuoraException "user" "secret" login_ok
                  (catalog_service [] [] [] []) "SELECT Id FROM Account"
                  new_client _ _ eq_refl)).
Defined.

End GatewayFacts.

(* ================================================================== *)
(** * Fetchers: the calls without filter and the answers without records *)
(* ================================================================== *)

Module FetcherEdgeFacts.
Import Str Normalizer Py Zuora Scenario DictFacts.

Section Remote.
Variable username password : string.
Variable service_login : list request -> atom + string.
Variable service_query : list request -> string -> response + string.

Local Abbreviation query := (query username password service_login service_query).

Lemma query_with_session q st :
  atom_truthy (session_id st) = true ->
  query q st
  = (match service_query (sent st) (join " " (split q)) with
     | inl response => Ok response
     | inr error => Raise (ZuoraException ("Zuora: Unexpected Error. " ++ error) None)
     end,
     {| session_id := session_id st;
        sent := (sent st ++ [Query (join " " (split q))])%list |}).
Proof.
  intros H. unfold Zuora.query, call, login. rewrite H.
  now destruct (service_query _ _).
Qed.

(** A fetcher that sends one query and then works on the answer sends this
    query whatever the answer. *)
Lemma sent_query_then {A} q (k : response -> result A) st :
  atom_truthy (session_id st) = true ->
  sent (snd (bindM (query q) (fun r => lift (k r)) st))
  = (sent st ++ [Query (join " " (split q))])%list.
Proof.
  intros H. unfold bindM. rewrite (query_with_session q st H).
  now destruct (service_query _ _).
Qed.

(** X4: The fetchers of the catalog send a query also when they are given no
    filter at all.  [get_products] and [get_rate_plans] then ask for every
    record, without a WHERE clause; [get_product_rate_plans],
    [get_product_rate_plan_charges] and [get_product_rate_plan_charge_tiers]
    send the clause [WHERE None]; [get_contact] sends a WHERE with nothing
    after it. *)
Theorem queries_without_filter st :
  atom_truthy (session_id st) = true ->
  let asked (out : client) (text : string) :=
    sent out = (sent st ++ [Query text])%list in
  (exists text,
     asked (snd (get_products username password service_login service_query
                   ANone [] st)) text /\
     contains "WHERE" text = false) /\
  (exists text,
     asked (snd (get_rate_plans username password service_login service_query
                   ANone ANone st)) text /\
     contains "WHERE" text = false) /\
  (exists text,
     asked (snd (get_product_rate_plans username password service_login
                   service_query ANone [] ANone ANone st)) text /\
     ends_with " FROM ProductRatePlan WHERE None" text = true) /\
  (exists text,
     asked (snd (get_product_rate_plan_charges username password service_login
                   service_query ANone [] ANone st)) text /\
     ends_with " FROM ProductRatePlanCharge WHERE None" text = true) /\
  (exists text,
     asked (snd (get_product_rate_plan_charge_tiers username password
                   service_login service_query ANone [] st)) text /\
     ends_with " FROM ProductRatePlanChargeTier WHERE None" text = true) /\
  (exists text,
     asked (snd (get_contact username password service_login service_query
                   ANone ANone st)) text /\
     ends_with " FROM Contact WHERE" text = true).
Proof.
  intros H asked. subst asked. cbv beta.
  repeat split; eexists; (split; [apply (sent_query_then _ _ st H) |]);
    vm_compute; reflexivity.
Qed.

(** X5: When the answer of the remote service has no attribute [records], the
    fetchers of the catalog raise [DoesNotExist] with a message that names
    the identifier they were given, [None] when they were given a list;
    [get_account], [get_invoices] and [get_payments] let the
    [AttributeError] through. *)
Theorem answer_without_records st (id : atom) (ids : list atom) :
  atom_truthy (session_id st) = true ->
  (forall h q, service_query h q = inl {| records := None |}) ->
  fst (get_products username password service_login service_query id ids st)
    = Raise (DoesNotExist ("Unable to find Product for " ++ py_str id)) /\
  fst (get_product_rate_plans username password service_login service_query
         id ids ANone ANone st)
    = Raise (DoesNotExist ("Unable to find Product Rate Plan for " ++ py_str id)) /\
  fst (get_product_rate_plan_charges username password service_login
         service_query id ids ANone st)
    = Raise (DoesNotExist
               ("Unable to find Product Rate Plan Charges for " ++ py_str id)) /\
  fst (get_product_rate_plan_charge_tiers username password service_login
         service_query id ids st)
    = Raise (DoesNotExist
               ("Unable to find Product Rate Plan Charges Tiers for "
                ++ py_str id)) /\
  fst (get_account username password service_login service_query id st)
    = Raise (AttributeError "records") /\
  (atom_truthy id = true ->
   fst (get_invoices username password service_login service_query id st)
     = Raise (AttributeError "records") /\
   fst (get_payments username password service_login service_query id st)
     = Raise (AttributeError "records")).
Proof.
  intros H Hq.
  assert (E : forall q, query q st
              = (Ok {| records := None |},
                 {| session_id := session_id st;
                    sent := (sent st ++ [Query (join " " (split q))])%list |})).
  { intros q. rewrite (query_with_session q st H). now rewrite Hq. }
  unfold get_products, get_product_rate_plans, get_product_rate_plan_charges,
    get_product_rate_plan_charge_tiers, get_account, get_invoices, get_payments,
    bindM.
  do 5 (split; [rewrite E; reflexivity |]).
  intros Ht. rewrite Ht. cbn [app]. rewrite !E. split; reflexivity.
Qed.

(** X6: [get_contact] names the e-mail address in its [DoesNotExist], also
    when the contact was looked up by account: without e-mail the message
    ends with [None]. *)
Theorem get_contact_not_found st email account_id :
  atom_truthy (session_id st) = true ->
  (forall h q, service_query h q = inl {| records := Some [] |}) ->
  fst (get_contact username password service_login service_query
         email account_id st)
  = Raise (DoesNotExist ("Unable to find Contact for Email " ++ py_str email)).
Proof.
  intros H Hq. unfold get_contact, bindM.
  rewrite (query_with_session _ st H), Hq. reflexivity.
Qed.

(** X7: Without any argument [get_payment_methods] returns the empty list,
    not [None], and sends nothing.  With an account number whose account
    has no default payment method it returns the empty list after the query
    for the account, without looking at the other arguments. *)
Theorem get_payment_methods_empty st account_id account_number email phone
    zAccount rest :
  get_payment_methods username password service_login service_query
    ANone ANone ANone ANone st = (Ok [], st) /\
  (atom_truthy (session_id st) = true ->
   atom_truthy account_number = true ->
   (forall h q, service_query h q = inl {| records := Some (zAccount :: rest) |}) ->
   (forall v, getattr "DefaultPaymentMethodId" zAccount <> Ok v) ->
   exists text,
     get_payment_methods username password service_login service_query
       account_id account_number email phone st
     = (Ok [], {| session_id := session_id st;
                  sent := (sent st ++ [Query text])%list |})).
Proof.
  split; [reflexivity|]. intros H Ht Hq Hn.
  unfold get_payment_methods. rewrite Ht. unfold bindM.
  rewrite (query_with_session _ st H), Hq. cbn [lift get_records records].
  destruct (getattr "DefaultPaymentMethodId" zAccount) as [v|e] eqn:E.
  - now destruct (Hn v).
  - eexists. reflexivity.
Qed.
End Remote.

Lemma queries_without_filter_witness :
  exists text,
    sent (snd (get_product_rate_plans "user" "secret" login_ok
                 (catalog_service [] [] [] []) ANone [] ANone ANone
                 {| session_id := AStr "session"; sent := [] |}))
    = [Query text] /\
    ends_with " FROM ProductRatePlan WHERE None" text = true.
Proof.
  exact (proj1 (proj2 (proj2 (queries_without_filter "user" "secret" login_ok
                                (catalog_service [] [] [] [])
                                {| session_id := AStr "session"; sent := [] |}
                                eq_refl)))).
Defined.

Lemma answer_without_records_witness :
  fst (get_products "user" "secret" login_ok
         (fun _ _ => inl {| records := None |}) (AStr "p1") []
         {| session_id := AStr "session"; sent := [] |})
  = Raise (DoesNotExist "Unable to find Product for p1").
Proof.
  exact (proj1 (answer_without_records "user" "secret" login_ok
                  (fun _ _ => inl {| records := None |})
                  {| session_id := AStr "session"; sent := [] |}
                  (AStr "p1") [] eq_refl (fun _ _ => eq_refl))).
Defined.

Lemma get_contact_not_found_witness :
  fst (get_contact "user" "secret" login_ok
         (fun _ _ => inl {| records := Some [] |}) ANone (AStr "2c92a0")
         {| session_id := AStr "session"; sent := [] |})
  = Raise (DoesNotExist "Unable to find Contact for Email None").
Proof.
  exact (get_contact_not_found "user" "secret" login_ok
           (fun _ _ => inl {| records := Some [] |})
           {| session_id := AStr "session"; sent := [] |}
           ANone (AStr "2c92a0") eq_refl (fun _ _ => eq_refl)).
Defined.

Lemma get_payment_methods_empty_witness :
  exists text,
    get_payment_methods "user" "secret" login_ok
      (fun _ _ => inl {| records := Some [[("Id", AStr "a1")]] |})
      (AStr "acc") (AStr "32432") ANone ANone
      {| session_id := AStr "session"; sent := [] |}
    = (Ok [], {| session_id := AStr "session"; sent := [Query text] |}).
Proof.
  refine (proj2 (get_payment_methods_empty "user" "secret" login_ok
                   (fun _ _ => inl {| records := Some [[("Id", AStr "a1")]] |})
                   {| session_id := AStr "session"; sent := [] |}
                   (AStr "acc") (AStr "32432") ANone ANone
                   [("Id", AStr "a1")] [])
            eq_refl eq_refl (fun _ _ => eq_refl) _).
  intros v. discriminate.
Defined.

End FetcherEdgeFacts.

(* ================================================================== *)
(** * The catalog: what the converters store, scoring, order, pricing *)
(* ================================================================== *)

Module CatalogFacts.
Import Str Normalizer Py Zuora Scenario DictFacts.
Local Open Scope list_scope.

(** ** What the converters store *)

(** A key in lower case. *)
Local Abbreviation lower_key k := (exists s, k = AStr s /\ no_upper s = true).

(** The entries of a grouped dictionary hold text under keys in lower
    case. *)
Local Abbreviation text_entries d :=
  (forall parent siblings id (entry : dict) k v,
     lookup parent d = Some siblings -> In (id, entry) siblings ->
     In (k, v) entry -> lower_key k /\ exists t, v = PStr t).

Lemma camel_attrs_acc b o : forall entry : dict,
  (forall k v, In (k, v) entry ->
               lower_key k /\ (b = true -> exists t, v = PStr t)) ->
  forall k v,
    In (k, v)
      (fold_left
         (fun (entry : dict) (attr : string * atom) =>
            dict_set (AStr (convert_camel (replace_marker (fst attr))))
              (PAtom (if b then AStr (py_str (snd attr)) else snd attr))
              entry)
         o entry) ->
    lower_key k /\ (b = true -> exists t, v = PStr t).
Proof.
  induction o as [|attr o IH]; intros entry H k v; [apply H|].
  cbn [fold_left]. apply IH. clear k v. intros k v Hin.
  apply In_dict_set in Hin as [Heq|Hin]; [|now apply H].
  injection Heq as -> ->. split.
  - eexists. split; [reflexivity|].
    apply NormalizerFacts.no_upper_convert_camel.
  - intros ->. now eexists.
Qed.

Lemma camel_attrs_keys b o k v :
  In (k, v) (camel_attrs b o) ->
  lower_key k /\ (b = true -> exists t, v = PStr t).
Proof. apply camel_attrs_acc. intros ? ? []. Qed.

Lemma product_entries l : forall d0 d,
  for_each (fun product_dict p =>
              bind (getattr "Id" p)
                (fun id => Ok (dict_set id (camel_attrs false p) product_dict)))
    l d0 = Ok d ->
  forall id entry, In (id, entry) d ->
    In (id, entry) d0 \/ exists p, In p l /\ entry = camel_attrs false p.
Proof.
  induction l as [|p l IH]; intros d0 d H id entry Hin.
  - injection H as <-. now left.
  - cbn [for_each] in H.
    destruct (getattr "Id" p) as [i|e]; [|discriminate]. cbn [bind] in H.
    destruct (IH _ _ H id entry Hin) as [H0|(p' & Hp' & He)].
    + apply In_dict_set in H0 as [Heq|H0]; [|now left].
      injection Heq as -> ->. right. exists p. split; [now left | reflexivity].
    + right. exists p'. split; [now right | exact He].
Qed.

(** X8: Every key that the four converters store is in lower case, and every
    value that the converters of rate plans, charges and tiers store is a
    text: no number, no boolean and no [None] of the remote answer is kept
    as such (the converter of products keeps the values as they are). *)
Theorem converters_store_text products plans charges tiers
    (pd : list (atom * dict)) (prd prc prt : groups) :
  camel_converted_products products = Ok pd ->
  camel_converted_product_rate_plans false plans = Ok prd ->
  camel_converted_product_rate_plan_charges charges = Ok prc ->
  camel_converted_product_rate_plan_charge_tiers tiers = Ok prt ->
  (forall id (entry : dict) k v,
     In (id, entry) pd -> In (k, v) entry -> lower_key k) /\
  text_entries prd /\ text_entries prc /\ text_entries prt.
Proof.
  intros Hp Hrp Hc Ht.
  assert (G : forall parent_attr l (d : groups),
             for_each (group_record parent_attr) l [] = Ok d -> text_entries d).
  { intros parent_attr l d H parent siblings id entry k v Hl Hin Hk.
    destruct (JoinFacts.group_entries_nil parent_attr l d parent siblings id
                entry H Hl Hin) as (o & _ & _ & ->).
    destruct (camel_attrs_keys true o k v Hk) as [Hlow Htext].
    split; [exact Hlow | now apply Htext]. }
  split; [|split; [|split]].
  - intros id entry k v Hin Hk.
    destruct (product_entries products [] pd Hp id entry Hin)
      as [[]|(p & _ & ->)].
    now destruct (camel_attrs_keys false p k v Hk).
  - exact (G "ProductId"%string plans prd Hrp).
  - exact (G "ProductRatePlanId"%string charges prc Hc).
  - exact (G "ProductRatePlanChargeId"%string tiers prt Ht).
Qed.

(** ** Scoring a plan that has a priority *)

Section Scoring.
Variable re_valid : string -> bool.
Variable re_match : string -> string -> bool.

Lemma score_field_text rp0 rp p item :
  scorable re_valid rp0 item ->
  lookup (AStr "score") rp = Some (PStr p) ->
  (forall k, k <> AStr "score" -> lookup k rp = lookup k rp0) ->
  score_field re_valid re_match rp item
  = if field_matches re_match rp0 item then Raise TypeError else Ok rp.
Proof.
  destruct item as [field m]. intros (Hf & (s & Hm) & Hv) Hs Hframe.
  cbn [fst snd] in *. subst m.
  unfold score_field, field_matches, get_default, getitem. cbn [fst snd].
  rewrite (Hframe field Hf).
  destruct (lookup field rp0) as [v|] eqn:El; [|reflexivity].
  destruct (truthy v) eqn:Tv.
  - destruct (Hv v eq_refl Tv) as (q & -> & Hq).
    unfold PStr in *. cbn [bind re_compile_match]. rewrite Hq.
    cbn in Tv. rewrite Tv. cbn [andb bind].
    destruct (re_match q s); [|reflexivity].
    rewrite Hs. reflexivity.
  - destruct v as [[| | |q]| |]; unfold PStr; try reflexivity.
    cbn in Tv. now rewrite Tv.
Qed.

Lemma for_each_score_field_text rp0 rp p filter_ :
  Forall (scorable re_valid rp0) filter_ ->
  lookup (AStr "score") rp = Some (PStr p) ->
  (forall k, k <> AStr "score" -> lookup k rp = lookup k rp0) ->
  for_each (score_field re_valid re_match) filter_ rp
  = if existsb (field_matches re_match rp0) filter_
    then Raise TypeError else Ok rp.
Proof.
  intros HF Hs Hframe. induction HF as [|item r Hi Hr IH]; [reflexivity|].
  cbn [for_each existsb].
  rewrite (score_field_text rp0 rp p item Hi Hs Hframe).
  destruct (field_matches re_match rp0 item); [reflexivity | exact IH].
Qed.

(** X9: The converter stores the priority of a plan as a text.  Such a plan is
    scored with its priority, as a text, when it matches no field of the
    filter; as soon as it matches one, the increment of the score raises
    [TypeError]. *)
Theorem score_with_priority filter_ rp_dict p :
  lookup (AStr "priority") rp_dict = Some (PStr p) ->
  Forall (scorable re_valid rp_dict) filter_ ->
  score_rate_plan re_valid re_match filter_ rp_dict
  = if existsb (field_matches re_match rp_dict) filter_
    then Raise TypeError
    else Ok (dict_set (AStr "score") (PStr p) rp_dict).
Proof.
  intros Hp HF. unfold score_rate_plan, get_default. rewrite Hp.
  destruct filter_ as [|item r]; [reflexivity|]. cbn [list_truthy].
  apply (for_each_score_field_text rp_dict _ p); [exact HF | |].
  - apply lookup_dict_set_same.
  - intros k Hk. now apply lookup_dict_set_other.
Qed.

(** ** Products without rate plans, and the order of charges *)

(** X10: A product for which no rate plan was fetched is returned all the
    same, also next to products that have plans: its turn of the loop
    raises nothing and gives the product with the empty list under
    ['rate_plans'], and whenever the loop over the products returns, the
    answer holds one entry per product, in the order of the products, and
    this entry for each product without plans. *)
Theorem products_without_plans filter_ (product_dict : list (atom * dict))
    (prd prc prt : groups) :
  (forall item : atom * dict,
     lookup (fst item) prd = None ->
     product_with_rate_plans re_valid re_match filter_ prd prc prt item
     = Ok (dict_set (AStr "rate_plans") (PList []) (snd item))) /\
  (forall out,
     combine re_valid re_match filter_ product_dict prd prc prt = Ok out ->
     Forall2
       (fun (item : atom * dict) (p_dict : dict) =>
          lookup (fst item) prd = None ->
          p_dict = dict_set (AStr "rate_plans") (PList []) (snd item))
       product_dict out).
Proof.
  assert (Step : forall item : atom * dict,
             lookup (fst item) prd = None ->
             product_with_rate_plans re_valid re_match filter_ prd prc prt item
             = Ok (dict_set (AStr "rate_plans") (PList []) (snd item))).
  { intros [product_id p_dict] E. cbn [fst snd] in *.
    unfold product_with_rate_plans, product_rp_list, get_default.
    rewrite E. reflexivity. }
  split; [exact Step|].
  intros out H. unfold combine in H. apply collect_Ok in H.
  eapply Forall2_impl; [|exact H].
  intros item p_dict Hp Hn.
  assert (E : Ok p_dict
              = Ok (dict_set (AStr "rate_plans") (PList []) (snd item)))
    by (etransitivity; [symmetry; exact Hp | exact (Step item Hn)]).
  now injection E.
Qed.

(** X11: The charges of a rate plan are attached in the order of [sorted] on
    their ['sort_order'], with [999] for a charge that has none: the same
    charges as met by the loop, none before one of a lower key in the order
    of Python 2 on values, the charges of equal key in the order in which
    they were met. *)
Theorem charges_sorted_by_sort_order filter_ (prc prt : groups) rate_plan_id
    (rp_dict out : dict) :
  rate_plan_with_charges re_valid re_match filter_ prc prt
    (rate_plan_id, rp_dict) = Ok out ->
  exists rpc_list,
    collect (charge_with_tiers prt) (get_default rate_plan_id [] prc)
      = Ok rpc_list /\
    let ordered := sorted sort_order_key false rpc_list in
    lookup (AStr "rate_plan_charges") out = Some (PList (map PDict ordered)) /\
    Permutation rpc_list ordered /\
    StronglySorted (ascending sort_order_key) ordered /\
    (forall v, filter (tie sort_order_key v) ordered
               = filter (tie sort_order_key v) rpc_list).
Proof.
  unfold rate_plan_with_charges.
  destruct (score_rate_plan re_valid re_match filter_ rp_dict) as [rp|e];
    [|discriminate].
  cbn [bind].
  destruct (collect (charge_with_tiers prt) (get_default rate_plan_id [] prc))
    as [rpc_list|e]; [|discriminate].
  cbn [bind]. intros [= <-]. exists rpc_list. split; [reflexivity|].
  cbv zeta. split; [apply lookup_dict_set_same|].
  split; [apply OrderFacts.sorted_perm|].
  split; [apply OrderFacts.sorted_ascending |
          intros v; apply OrderFacts.sorted_stable].
Qed.
End Scoring.

(** ** The pricing aggregate *)

Section Pricing.
Variable float_of : string -> option Q.

(** A tier as the converter stores it: the overage flag is a text, and
    the text of a flag ([True], [False]) is not empty. *)
Local Abbreviation flagged rpct :=
  (exists (d : dict) flag,
     rpct = PDict d /\
     lookup (AStr "is_overage_price") d = Some (PStr flag) /\
     flag <> ""%string).

Local Abbreviation priced_charge rpc :=
  (exists model type tiers,
     lookup (AStr "charge_model") rpc = Some (PStr model) /\
     lookup (AStr "charge_type") rpc = Some (PStr type) /\
     lookup (AStr "rate_charge_tiers") rpc = Some (PList tiers) /\
     Forall (fun rpct => flagged rpct) tiers).

Local Abbreviation all_zero pricing_dict :=
  (forall m (by_type : list (atom * num)) t n,
     In (m, by_type) pricing_dict -> In (t, n) by_type -> n = NInt 0).

Lemma for_each_add_tier_flagged tiers price :
  Forall (fun rpct => flagged rpct) tiers ->
  for_each (add_tier float_of) tiers price = Ok price.
Proof.
  induction 1 as [|rpct r (d & flag & -> & Hl & Hf) _ IH]; [reflexivity|].
  cbn [for_each].
  rewrite (EngineFacts.add_tier_flag_is_text float_of price d flag Hl Hf).
  exact IH.
Qed.

Lemma aggregate_charge_zero (pricing_dict : pricing) (item : atom * dict) :
  all_zero pricing_dict -> priced_charge (snd item) ->
  exists out : pricing,
    aggregate_charge float_of pricing_dict item = Ok out /\ all_zero out.
Proof.
  intros Hz (model & type & tiers & Hm & Ht & Hr & HF).
  unfold aggregate_charge, getitem. rewrite Hm, Ht, Hr.
  unfold PStr. cbn [bind py_lower tiers_of].
  rewrite (for_each_add_tier_flagged tiers _ HF). cbn [bind].
  eexists. split; [reflexivity|].
  set (by_type := get_default (AStr (lower model)) [] pricing_dict).
  assert (Hb : forall t n, In (t, n) by_type -> n = NInt 0).
  { intros t n Hin. unfold by_type, get_default in Hin.
    destruct (lookup (AStr (lower model)) pricing_dict) as [b|] eqn:E;
      [|destruct Hin].
    exact (Hz _ _ _ _ (lookup_In _ _ _ E) Hin). }
  assert (Hp : get_default (AStr (lower type)) (NInt 0) by_type = NInt 0).
  { unfold get_default.
    destruct (lookup (AStr (lower type)) by_type) as [n|] eqn:E;
      [|reflexivity].
    exact (Hb _ _ (lookup_In _ _ _ E)). }
  rewrite Hp.
  intros m bt t n Hin Hn.
  apply In_dict_set in Hin as [Heq|Hin].
  - injection Heq as -> ->.
    apply In_dict_set in Hn as [Heq|Hn]; [now injection Heq as -> ->|].
    apply In_dict_set in Hn as [Heq|Hn]; [now injection Heq as -> ->|].
    exact (Hb _ _ Hn).
  - apply In_dict_set in Hin as [Heq|Hin]; [|exact (Hz _ _ _ _ Hin Hn)].
    injection Heq as -> ->.
    apply In_dict_set in Hn as [Heq|Hn]; [now injection Heq as -> ->|].
    exact (Hb _ _ Hn).
Qed.

(** X12: The aggregate never adds the price of a tier that went through the
    converter: the overage flag of such a tier is the text of a boolean,
    which is true.  Whatever the charges and the prices of their tiers,
    every total of the aggregate is the integer [0] it started from. *)
Theorem pricing_never_adds (product_rate_plan_charge_dict : list (atom * dict)) :
  Forall (fun item : atom * dict => priced_charge (snd item))
    product_rate_plan_charge_dict ->
  exists pricing_dict : pricing,
    for_each (aggregate_charge float_of) product_rate_plan_charge_dict []
      = Ok pricing_dict /\
    all_zero pricing_dict.
Proof.
  assert (G : forall l (acc : pricing),
             Forall (fun item : atom * dict => priced_charge (snd item)) l ->
             all_zero acc ->
             exists out : pricing,
               for_each (aggregate_charge float_of) l acc = Ok out /\
               all_zero out).
  { induction l as [|item r IH]; intros acc HF Hz.
    - exists acc. now split.
    - inversion HF as [|? ? Hi Hr]; subst.
      destruct (aggregate_charge_zero acc item Hz Hi) as (acc' & E & Hz').
      destruct (IH acc' Hr Hz') as (out & E' & Ho).
      exists out. cbn [for_each]. rewrite E. cbn [bind]. now split. }
  intros HF. apply (G _ [] HF). intros m bt t n [].
Qed.
End Pricing.

Lemma converters_store_text_witness :
  exists pd prd prc prt,
    camel_converted_products one_product = Ok pd /\
    camel_converted_product_rate_plans false plans_ABCD = Ok prd /\
    camel_converted_product_rate_plan_charges charges_2_none_1 = Ok prc /\
    camel_converted_product_rate_plan_charge_tiers tiers_10_5 = Ok prt /\
    (forall parent siblings id (entry : dict) k v,
       lookup parent prt = Some siblings -> In (id, entry) siblings ->
       In (k, v) entry -> exists t, v = PStr t).
Proof.
  do 4 eexists. do 4 (split; [reflexivity|]).
  intros parent siblings id entry k v Hl Hin Hk.
  exact (proj2 (proj2 (proj2 (proj2
           (converters_store_text one_product plans_ABCD charges_2_none_1
              tiers_10_5 _ _ _ _ eq_refl eq_refl eq_refl eq_refl)))
           parent siblings id entry k v Hl Hin Hk)).
Defined.

Lemma score_with_priority_witness :
  score_rate_plan re_valid_literal re_match_literal
    [(AStr "site", PStr "run")]
    [(AStr "priority", PStr "3"); (AStr "site", PStr "run")]
  = Raise TypeError.
Proof.
  refine (score_with_priority re_valid_literal re_match_literal
            [(AStr "site", PStr "run")]
            [(AStr "priority", PStr "3"); (AStr "site", PStr "run")]
            "3" eq_refl _).
  constructor; [|constructor].
  split; [discriminate|]. split; [now exists "run"%string|].
  intros v [= <-] _. now exists "run"%string.
Defined.

Lemma products_without_plans_witness :
  let product_dict :=
    [(AStr "p1", [(AStr "name", PStr "Premium")]);
     (AStr "p2", [(AStr "name", PStr "Basic")])] in
  let prd : groups := [(AStr "p1", [(AStr "rp1", [(AStr "id", PStr "rp1")])])] in
  let with_plans :=
    [(AStr "name", PStr "Premium");
     (AStr "rate_plans",
      PList [PDict [(AStr "id", PStr "rp1"); (AStr "score", PInt 0);
                    (AStr "rate_plan_charges", PList [])]])] in
  let without_plans :=
    [(AStr "name", PStr "Basic"); (AStr "rate_plans", PList [])] in
  combine re_valid_literal re_match_literal filter_3 product_dict prd [] []
    = Ok [with_plans; without_plans] /\
  Forall2
    (fun (item : atom * dict) (p_dict : dict) =>
       lookup (fst item) prd = None ->
       p_dict = dict_set (AStr "rate_plans") (PList []) (snd item))
    product_dict [with_plans; without_plans].
Proof.
  intros product_dict prd with_plans without_plans.
  split; [reflexivity|].
  exact (proj2 (products_without_plans re_valid_literal re_match_literal
                  filter_3 product_dict prd [] []) _ eq_refl).
Defined.

Lemma charges_sorted_by_sort_order_witness :
  exists out rpc_list,
    rate_plan_with_charges re_valid_literal re_match_literal []
      [(AStr "rp1", [(AStr "c1", [(AStr "id", PStr "c1");
                                  (AStr "sort_order", PStr "2")]);
                     (AStr "c2", [(AStr "id", PStr "c2");
                                  (AStr "sort_order", PStr "1")])])]
      [] (AStr "rp1", []) = Ok out /\
    lookup (AStr "rate_plan_charges") out
      = Some (PList (map PDict (sorted sort_order_key false rpc_list))) /\
    StronglySorted (ascending sort_order_key)
      (sorted sort_order_key false rpc_list).
Proof.
  eexists.
  destruct (charges_sorted_by_sort_order re_valid_literal re_match_literal []
              [(AStr "rp1", [(AStr "c1", [(AStr "id", PStr "c1");
                                          (AStr "sort_order", PStr "2")]);
                             (AStr "c2", [(AStr "id", PStr "c2");
                                          (AStr "sort_order", PStr "1")])])]
              [] (AStr "rp1") [] _ eq_refl)
    as (rpc_list & _ & Hl & _ & Hs & _).
  exists rpc_list. split; [reflexivity|]. split; [exact Hl | exact Hs].
Defined.

Lemma pricing_never_adds_witness :
  exists pricing_dict : pricing,
    for_each (aggregate_charge float_of_integer)
      [(AStr "c1",
        [(AStr "charge_model", PStr "FlatFee");
         (AStr "charge_type", PStr "Recurring");
         (AStr "rate_charge_tiers",
          PList [PDict [(AStr "price", PStr "10");
                        (AStr "is_overage_price", PStr "False")]])])] []
    = Ok pricing_dict /\
    forall m (by_type : list (atom * num)) t n,
      In (m, by_type) pricing_dict -> In (t, n) by_type -> n = NInt 0.
Proof.
  apply (pricing_never_adds float_of_integer).
  constructor; [|constructor].
  exists "FlatFee"%string, "Recurring"%string,
    [PDict [(AStr "price", PStr "10"); (AStr "is_overage_price", PStr "False")]].
  do 3 (split; [reflexivity|]).
  constructor; [|constructor].
  eexists _, "False"%string. split; [reflexivity|].
  split; [reflexivity | discriminate].
Defined.

End CatalogFacts.

(* ================================================================== *)
(** * Whole methods: the empty catalog, and the account builder *)
(* ================================================================== *)

Module MethodFacts.
Import Str Normalizer Py Zuora Scenario DictFacts.
Local Open Scope list_scope.

Lemma getattr_setattr_same name v o : getattr name (setattr name v o) = Ok v.
Proof.
  induction o as [|[n v'] r IH]; cbn [setattr getattr].
  - now rewrite String.eqb_refl.
  - destruct (String.eqb name n) eqn:E; cbn [getattr]; rewrite E;
      [reflexivity | exact IH].
Qed.

Lemma getattr_setattr_other name other v o :
  String.eqb name other = false ->
  getattr name (setattr other v o) = getattr name o.
Proof.
  intros H. induction o as [|[n v'] r IH]; cbn [setattr getattr].
  - now rewrite H.
  - destruct (String.eqb other n) eqn:E; cbn [getattr].
    + apply String.eqb_eq in E. subst n. now rewrite H.
    + now rewrite IH.
Qed.

Section Remote.
Variable username password : string.
Variable authorize_gateway create_test_users : atom.
Variable service_login : list request -> atom + string.
Variable service_query : list request -> string -> response + string.
Variable service_create : list request -> record -> remote_value + string.
Variable factory_create : string -> record.
Variable re_valid : string -> bool.
Variable re_match : string -> string -> bool.
Variable float_of : string -> option Q.
Variable utcnow : string.
Variable today_day : Z.

Local Abbreviation query_with_session :=
  (FetcherEdgeFacts.query_with_session username password service_login
     service_query).

(** X13: For a rate plan of which the remote service knows no charge, the
    pricing aggregate raises [KeyError] on the identifier of the plan: the
    converted dictionary has no entry for it. *)
Theorem pricing_without_charges st product_rate_plan_id :
  atom_truthy (session_id st) = true ->
  (forall h q, service_query h q = inl {| records := Some [] |}) ->
  fst (get_product_rate_plan_charge_pricing username password service_login
         service_query float_of product_rate_plan_id st)
  = Raise (KeyError product_rate_plan_id).
Proof.
  intros H Hq.
  unfold get_product_rate_plan_charge_pricing,
    get_camel_converted_product_rate_plan_charges,
    get_product_rate_plan_charges, bindM.
  rewrite (query_with_session _ st H), Hq. reflexivity.
Qed.

(** X14: On a catalog of which every table is empty the engine returns the empty
    list and raises nothing.  It still sends its four queries, one per
    table: the queries for the charges and for the tiers carry the filter
    [None]. *)
Theorem match_on_empty_catalog st shortcodes filter_ :
  atom_truthy (session_id st) = true ->
  (forall h q, service_query h q = inl {| records := Some [] |}) ->
  exists q1 q2 q3 q4,
    match_product_rate_plans username password service_login service_query
      re_valid re_match utcnow shortcodes filter_ st
    = (Ok [], {| session_id := session_id st;
                 sent := sent st ++ [Query q1; Query q2; Query q3; Query q4] |}) /\
    ends_with " FROM ProductRatePlanCharge WHERE None" q3 = true /\
    ends_with " FROM ProductRatePlanChargeTier WHERE None" q4 = true.
Proof.
  intros H Hq.
  unfold match_product_rate_plans, get_camel_converted_products,
    get_camel_converted_product_rate_plans,
    get_camel_converted_product_rate_plan_charges,
    get_camel_converted_product_rate_plan_charge_tiers,
    get_products, get_product_rate_plans, get_product_rate_plan_charges,
    get_product_rate_plan_charge_tiers, bindM.
  rewrite (query_with_session _ st H), Hq.
  cbn [lift records_or_DoesNotExist get_records records
       camel_converted_products for_each keys map].
  rewrite query_with_session by exact H. rewrite Hq.
  cbn [lift records_or_DoesNotExist get_records records atom_truthy
       camel_converted_product_rate_plans for_each all_ids fold_left
       session_id sent].
  rewrite query_with_session by exact H. rewrite Hq.
  cbn [lift records_or_DoesNotExist get_records records atom_truthy
       camel_converted_product_rate_plan_charges for_each all_ids fold_left
       session_id sent].
  rewrite query_with_session by exact H. rewrite Hq.
  cbn [lift records_or_DoesNotExist get_records records atom_truthy
       camel_converted_product_rate_plan_charge_tiers for_each
       session_id sent combine collect].
  rewrite <- !app_assoc. cbn [app].
  do 4 eexists. split; [reflexivity|].
  split; vm_compute; reflexivity.
Qed.

(** ** The account builder *)

Local Abbreviation build_account :=
  (build_account authorize_gateway create_test_users factory_create today_day).
Local Abbreviation make_account :=
  (make_account username password authorize_gateway create_test_users
     service_login service_create factory_create today_day).


(** X16: The account is numbered after the user: whatever the other arguments
    and the settings, a built account has the account number [A-] followed
    by the [id] of the user, this [id] as [CrmId], and is not on automatic
    payment.  [get_account] looks an account up under this number. *)
Theorem built_account_number user currency status site_name billing_address
    zAccount :
  build_account user currency status site_name billing_address = Ok zAccount ->
  exists u id,
    user = Some u /\ lookup (AStr "id") u = Some id /\
    getattr "AccountNumber" zAccount = Ok (AStr ("A-" ++ py_str id)) /\
    getattr "CrmId" zAccount = Ok (AStr (py_str id)) /\
    getattr "AutoPay" zAccount = Ok (ABool false).
Proof.
  unfold Zuora.build_account.
  destruct user as [[|entry u]|]; cbn [adict_truthy negb]; try discriminate.
  unfold getitem at 1.
  destruct (lookup (AStr "id") (entry :: u)) as [id|] eqn:Ei;
    [|discriminate].
  cbn [bind]. intros Hb. exists (entry :: u), id.
  split; [reflexivity|]. split; [exact Ei|].
  match type of Hb with
  | bind ?named _ = _ => destruct named as [z1|e] eqn:En; [|discriminate]
  end.
  cbn [bind] in Hb. injection Hb as <-.
  assert (Hn : exists name,
             z1 = setattr "Name" name
                    (setattr "Currency" currency
                       (setattr "CrmId" (AStr (py_str id))
                          (setattr "BillCycleDay" (AInt today_day)
                             (setattr "Batch" (AStr "Batch1")
                                (setattr "AutoPay" (ABool false)
                                   (setattr "AllowInvoiceEdit" (ABool true)
                                      (setattr "AccountNumber"
                                         (AStr ("A-" ++ py_str id))
                                         (factory_create "ns2:Account"))))))))).
  { revert En. unfold getitem.
    repeat match goal with
           | |- context [match ?x with _ => _ end] =>
               lazymatch x with
               | lookup _ _ => destruct x
               | negb _ => destruct x
               | billing_address => destruct x as [[|? ?]|]
               end; cbn [bind]
           end;
      try discriminate; intros [= <-]; eexists; reflexivity. }
  destruct Hn as (name & ->).
  destruct (atom_truthy authorize_gateway), (atom_truthy create_test_users),
    (atom_truthy site_name);
    repeat split;
    repeat (rewrite getattr_setattr_other by reflexivity);
    apply getattr_setattr_same.
Qed.

(** X17: [name_underscore_fix] keeps a name that is true and gives an
    underscore for every other: its outcome is never empty, never [None],
    and applying it again changes nothing. *)
Theorem name_underscore_fix_has_value name_field :
  atom_truthy (name_underscore_fix name_field) = true /\
  name_underscore_fix (name_underscore_fix name_field)
    = name_underscore_fix name_field /\
  (name_underscore_fix name_field = name_field
   <-> atom_truthy name_field = true).
Proof.
  assert (G : forall a, atom_truthy a = true ->
                        name_underscore_fix a = a).
  { intros a T. unfold name_underscore_fix. rewrite T.
    destruct (atom_eqb a (AStr "")) eqn:E; [|reflexivity].
    apply atom_eqb_eq in E. subst a. discriminate T. }
  destruct (atom_truthy name_field) eqn:T.
  - rewrite !(G name_field T). now repeat split.
  - assert (E : name_underscore_fix name_field = AStr "_").
    { unfold name_underscore_fix. now rewrite T. }
    rewrite !E. split; [reflexivity|]. split; [reflexivity|].
    split; [|discriminate]. intros <-. discriminate T.
Qed.
End Remote.

Lemma pricing_without_charges_witness :
  fst (get_product_rate_plan_charge_pricing "user" "secret" login_ok
         (fun _ _ => inl {| records := Some [] |}) float_of_integer
         (AStr "rp1") {| session_id := AStr "session"; sent := [] |})
  = Raise (KeyError (AStr "rp1")).
Proof.
  exact (pricing_without_charges "user" "secret" login_ok
           (fun _ _ => inl {| records := Some [] |}) float_of_integer
           {| session_id := AStr "session"; sent := [] |} (AStr "rp1")
           eq_refl (fun _ _ => eq_refl)).
Defined.

Lemma match_on_empty_catalog_witness :
  exists q1 q2 q3 q4,
    match_product_rate_plans "user" "secret" login_ok
      (fun _ _ => inl {| records := Some [] |})
      re_valid_literal re_match_literal now [] filter_3
      {| session_id := AStr "session"; sent := [] |}
    = (Ok [], {| session_id := AStr "session";
                 sent := [Query q1; Query q2; Query q3; Query q4] |}).
Proof.
  destruct (match_on_empty_catalog "user" "secret" login_ok
              (fun _ _ => inl {| records := Some [] |})
              re_valid_literal re_match_literal now
              {| session_id := AStr "session"; sent := [] |} [] filter_3
              eq_refl (fun _ _ => eq_refl))
    as (q1 & q2 & q3 & q4 & E & _).
  exists q1, q2, q3, q4. exact E.
Defined.


Lemma built_account_number_witness :
  exists zAccount,
    build_account ANone ANone empty_factory 4 (Some a_user) (AStr "USD")
      (AStr "Draft") ANone None = Ok zAccount /\
    getattr "AccountNumber" zAccount = Ok (AStr "A-32432").
Proof.
  eexists. split; [reflexivity|].
  destruct (built_account_number ANone ANone empty_factory 4 (Some a_user)
              (AStr "USD") (AStr "Draft") ANone None _ eq_refl)
    as (u & id & Hu & Hid & Hn & _).
  injection Hu as <-. injection Hid as <-. exact Hn.
Defined.

End MethodFacts.

(* ================================================================== *)
(** * The serializer *)
(* ================================================================== *)

Module SerializerFacts.
Import Str Normalizer Py Zuora Serializer DictFacts.
Local Open Scope list_scope.

(** Induction on the objects, through their lists and attributes. *)
Lemma sobj_induction (P : sobj -> Prop) :
  (forall a, P (SAtom a)) ->
  (forall l, Forall P l -> P (SList l)) ->
  (forall attrs, Forall (fun attr => P (snd attr)) attrs -> P (SObj attrs)) ->
  forall obj, P obj.
Proof.
  intros Ha Hl Ho. fix IH 1. intros [a|l|attrs].
  - apply Ha.
  - apply Hl. induction l as [|x l IHl]; constructor; [apply IH | exact IHl].
  - apply Ho. induction attrs as [|[n v] r IHr]; constructor;
      [apply IH | exact IHr].
Qed.

(** The loop over the items of a list is [collect]. *)
Lemma items_loop (f : sobj -> result pyval) l : forall acc,
  (fix items (l : list sobj) (obj_list : list pyval) : result (list pyval) :=
     match l with
     | [] => Ok obj_list
     | item :: r => bind (f item) (fun v => items r (obj_list ++ [v]))
     end) l acc
  = for_each (fun out a => bind (f a) (fun b => Ok (out ++ [b]))) l acc.
Proof.
  induction l as [|x l IH]; intros acc; [reflexivity|].
  cbn [for_each]. destruct (f x) as [v|e]; cbn [bind]; [apply IH | reflexivity].
Qed.

(** One turn of the loop over the attributes of an object. *)
Local Abbreviation field_step f :=
  (fun (obj_dict : dict) (attr : string * sobj) =>
     let key := convert_camel (replace_marker (fst attr)) in
     match is_allowed (snd attr) with
     | Some a => Ok (dict_set (AStr key) (PAtom a) obj_dict)
     | None => bind (f (snd attr))
                 (fun s : pyval => Ok (dict_set (AStr key) s obj_dict))
     end).

Lemma fields_loop (f : sobj -> result pyval) attrs : forall acc,
  (fix fields (attrs : list (string * sobj)) (obj_dict : dict) : result dict :=
     match attrs with
     | [] => Ok obj_dict
     | (name, v) :: r =>
         let key := convert_camel (replace_marker name) in
         match is_allowed v with
         | Some a => fields r (dict_set (AStr key) (PAtom a) obj_dict)
         | None => bind (f v) (fun s => fields r (dict_set (AStr key) s obj_dict))
         end
     end) attrs acc
  = for_each (field_step f) attrs acc.
Proof.
  induction attrs as [|[name v] r IH]; intros acc; [reflexivity|].
  cbn [for_each fst snd]. cbv zeta.
  destruct (is_allowed v) as [a|]; cbn [bind]; [apply IH|].
  destruct (f v) as [s|e]; cbn [bind]; [apply IH | reflexivity].
Qed.

Lemma zuora_serialize_SList x l :
  zuora_serialize (SList (x :: l))
  = bind (collect zuora_serialize (x :: l)) (fun vs => Ok (PList vs)).
Proof. unfold collect. rewrite <- items_loop. reflexivity. Qed.

Lemma zuora_serialize_SObj attr attrs :
  zuora_serialize (SObj (attr :: attrs))
  = bind (for_each (field_step zuora_serialize) (attr :: attrs) [])
      (fun d => Ok (PDict d)).
Proof. rewrite <- fields_loop. reflexivity. Qed.

(** X18: [zuora_serialize] on a list does what [zuora_serialize_list] does,
    item by item and in order, but for the empty list: serialized on its
    own, or as the value of an attribute, the empty list becomes [None],
    while [zuora_serialize_list] returns the empty list, also for [None]. *)
Theorem serialize_list_agrees (l : list sobj) :
  zuora_serialize (SList l)
  = match l with
    | [] => Ok (PAtom ANone)
    | _ :: _ => bind (zuora_serialize_list (Some l)) (fun vs => Ok (PList vs))
    end /\
  zuora_serialize_list (Some []) = Ok [] /\
  zuora_serialize_list None = Ok [] /\
  (forall vs, zuora_serialize_list (Some l) = Ok vs ->
              Forall2 (fun item v => zuora_serialize item = Ok v) l vs).
Proof.
  split; [|split; [reflexivity|split; [reflexivity|]]].
  - destruct l as [|x l]; [reflexivity|]. apply zuora_serialize_SList.
  - intros vs. destruct l as [|x l]; cbn [zuora_serialize_list].
    + intros [= <-]. constructor.
    + apply collect_Ok.
Qed.

(** X19: A list cannot hold texts or numbers: the item is taken for an object,
    and the loop over its attributes raises [IndexError] on a text that is
    not empty and [TypeError] on a number that is not zero.  The items
    before it are serialized first. *)
Theorem serialize_list_of_scalars (before after : list sobj) (a : atom) :
  Forall (fun item => exists v, zuora_serialize item = Ok v) before ->
  atom_truthy a = true ->
  zuora_serialize (SList (before ++ SAtom a :: after))
  = Raise (match a with AStr _ => IndexError | _ => TypeError end).
Proof.
  intros HF Ha.
  assert (G : forall acc,
             for_each (fun out item =>
                         bind (zuora_serialize item)
                           (fun b => Ok (out ++ [b])))
               (before ++ SAtom a :: after) acc
             = Raise (match a with AStr _ => IndexError | _ => TypeError end)).
  { induction HF as [|item r (v & Hv) _ IH]; intros acc.
    - cbn [app for_each zuora_serialize]. rewrite Ha. cbn [negb].
      now destruct a.
    - cbn [app for_each]. rewrite Hv. cbn [bind]. apply IH. }
  assert (E : exists x l, before ++ SAtom a :: after = x :: l)
    by (destruct before; eexists _, _; reflexivity).
  destruct E as (x & l & E). rewrite E in *.
  rewrite zuora_serialize_SList. unfold collect. now rewrite (G []).
Qed.

Lemma forallb_dict_set {V} (P : atom * V -> bool) k v (d : list (atom * V)) :
  P (k, v) = true -> forallb P d = true -> forallb P (dict_set k v d) = true.
Proof.
  intros Hk Hd. apply forallb_forall. intros kv Hin.
  apply In_dict_set in Hin as [->|Hin]; [exact Hk|].
  rewrite forallb_forall in Hd. now apply Hd.
Qed.

(** X20: Whatever the names of the attributes, at every depth of the object,
    the dictionaries that [zuora_serialize] returns have texts in lower
    case for keys. *)
Theorem serialized_keys_are_lower obj v :
  zuora_serialize obj = Ok v -> lower_keys v = true.
Proof.
  revert v. induction obj as [a|l IH|attrs IH] using sobj_induction; intros v.
  - cbn [zuora_serialize]. destruct (atom_truthy a); cbn [negb].
    + now destruct a.
    + now intros [= <-].
  - destruct l as [|x l]; [now intros [= <-]|].
    rewrite zuora_serialize_SList.
    destruct (collect zuora_serialize (x :: l)) as [vs|e] eqn:E;
      [|discriminate].
    cbn [bind]. intros [= <-]. apply collect_Ok in E.
    cbn [lower_keys]. apply forallb_forall. intros y Hy.
    revert IH y Hy. induction E as [|o w r rs Ho _ IHE]; intros IH y [].
    + subst y. inversion IH; subst. now apply (H1 w).
    + inversion IH; subst. now apply IHE.
  - destruct attrs as [|attr attrs]; [now intros [= <-]|].
    rewrite zuora_serialize_SObj.
    destruct (for_each (field_step zuora_serialize) (attr :: attrs) [])
      as [d|e] eqn:E; [|discriminate].
    cbn [bind]. intros [= <-].
    assert (G : forall l (acc out : dict),
               Forall (fun attr : string * sobj =>
                         forall v, zuora_serialize (snd attr) = Ok v ->
                                   lower_keys v = true) l ->
               lower_keys (PDict acc) = true ->
               for_each (field_step zuora_serialize) l acc = Ok out ->
               lower_keys (PDict out) = true).
    { clear. induction l as [|[name o] r IHr]; intros acc out HF Hacc.
      - now intros [= <-].
      - inversion HF as [|? ? Ho Hr]; subst. cbn [for_each fst snd].
        cbv zeta. cbn [snd] in Ho.
        destruct (is_allowed o) as [a|]; cbn [bind].
        + apply IHr; [exact Hr|]. cbn [lower_keys].
          apply forallb_dict_set; [|exact Hacc]. cbn [fst snd lower_keys].
          now rewrite NormalizerFacts.no_upper_convert_camel.
        + destruct (zuora_serialize o) as [s|e] eqn:Es; [|discriminate].
          cbn [bind]. apply IHr; [exact Hr|]. cbn [lower_keys].
          apply forallb_dict_set; [|exact Hacc]. cbn [fst snd].
          rewrite NormalizerFacts.no_upper_convert_camel.
          now rewrite (Ho s eq_refl). }
    exact (G _ [] d IH eq_refl E).
Qed.

(** X21: The values of the attributes that are texts, numbers or booleans are
    kept as they are, under the normalized name; an attribute that is
    [None] is kept as [None].  Two attributes whose names normalize to the
    same key leave one entry, with the value of the later one. *)
Theorem serialize_flat_object (attrs : list (string * atom)) :
  attrs <> [] ->
  zuora_serialize (SObj (map (fun attr => (fst attr, SAtom (snd attr))) attrs))
  = Ok (PDict (camel_attrs false attrs)).
Proof.
  intros Hne. destruct attrs as [|attr attrs]; [now destruct Hne|].
  cbn [map]. rewrite zuora_serialize_SObj.
  change ((fst attr, SAtom (snd attr))
          :: map (fun attr => (fst attr, SAtom (snd attr))) attrs)
    with (map (fun attr : string * atom => (fst attr, SAtom (snd attr)))
            (attr :: attrs)).
  unfold camel_attrs. generalize (attr :: attrs) as l. generalize (@nil (atom * pyval)) as acc.
  intros acc l. revert acc.
  induction l as [|[name a] r IH]; intros acc; [reflexivity|].
  cbn [map for_each fold_left fst snd]. cbv zeta.
  destruct a as [|b|z|s]; cbn [is_allowed zuora_serialize atom_truthy negb bind];
    apply IH.
Qed.

Lemma serialize_list_of_scalars_witness :
  zuora_serialize
    (SList [SObj [("Id", SAtom (AStr "p1"))]; SAtom (AStr "p2")])
  = Raise IndexError.
Proof.
  refine (serialize_list_of_scalars [SObj [("Id", SAtom (AStr "p1"))]] []
            (AStr "p2") _ eq_refl).
  constructor; [|constructor]. eexists. reflexivity.
Defined.

Lemma serialized_keys_are_lower_witness :
  lower_keys
    (PDict [(AStr "short_code", PStr "PREM");
            (AStr "rate_plans", PList [PDict [(AStr "product_id", PStr "p1")]])])
  = true.
Proof.
  exact (serialized_keys_are_lower
           (SObj [("ShortCode__c", SAtom (AStr "PREM"));
                  ("RatePlans", SList [SObj [("ProductId", SAtom (AStr "p1"))]])])
           _ eq_refl).
Defined.

Lemma serialize_flat_object_witness :
  zuora_serialize (SObj [("ShortCode__c", SAtom (AStr "PREM"));
                         ("Id", SAtom ANone)])
  = Ok (PDict [(AStr "short_code", PStr "PREM"); (AStr "id", PAtom ANone)]).
Proof.
  refine (serialize_flat_object [("ShortCode__c", AStr "PREM"); ("Id", ANone)] _).
  discriminate.
Defined.

End SerializerFacts.
